(** * Plan lifecycle and progress tracking of the health chatbot

    A shallow embedding of the deterministic decision logic of
    [database.py], [plan_generator.py], [utils.py], [routes/chat.py] and
    [routes/plans.py]: the plan store, the day-pattern extractor, the
    keyword plan matcher, the progress reconciler and the trailing
    analytics window.

    Conventions.
    - Python [str] is Rocq [string]: the bytes of the UTF-8 encoding of
      the text.  [len], slices and [str.lower] work on characters, as
      Python has them; substring tests are the same on bytes and on
      characters.  White space ([str.split], [str.strip], [\s]) and
      digits ([\d]) are those of the ASCII range.
    - Mongo collections are finite maps keyed by [_id] (the unique index
      of the driver); a collection attribute that is [None] is [None].
      The driver itself does not fail, except [insert_one] on a key that
      is already present.
    - [datetime.now()], [uuid.uuid4()] and the answer of the language
      model are inputs of the functions that read them; one request reads
      one clock value.  A date is counted in days from 1970-01-01.
    - Of [store_chat_message] the store keeps what the code reads back:
      the counter of the specialist.  The chat log itself, the vector
      index, the prompts and [print] are left out; so are the
      floating-point fields of the analytics. *)

From Stdlib Require Import ZArith Ascii String List Bool Lia DecimalString.
From stdpp Require Import base option list gmap strings fin_maps sorting.

Open Scope Z_scope.

(** ** Python text primitives *)

Module Py.

(** [str.isspace] on the ASCII range: TAB, LF, VT, FF, CR, FS, GS, RS, US
    and SPACE.  The same set is [\s] of [re] on [str] patterns. *)
Definition is_space (c : ascii) : bool :=
  let n := nat_of_ascii c in
  ((9 <=? n)%nat && (n <=? 13)%nat) || ((28 <=? n)%nat && (n <=? 32)%nat).

Definition is_digit (c : ascii) : bool :=
  let n := nat_of_ascii c in (48 <=? n)%nat && (n <=? 57)%nat.

Definition is_upper (c : ascii) : bool :=
  let n := nat_of_ascii c in (65 <=? n)%nat && (n <=? 90)%nat.

(** The lower case of an ASCII character: what [re.IGNORECASE] compares
    the ASCII letters of a pattern by. *)
Definition lower_char (c : ascii) : ascii :=
  if is_upper c then ascii_of_nat (nat_of_ascii c + 32) else c.

(** *** Characters

    A text is the sequence of the bytes of its UTF-8 encoding.  A byte
    [10xxxxxx] continues a character; every other byte starts one. *)
Definition is_cont (c : ascii) : bool :=
  let n := nat_of_ascii c in (128 <=? n)%nat && (n <=? 191)%nat.

Definition starts_cont (s : string) : bool :=
  match s with
  | String c _ => is_cont c
  | EmptyString => false
  end.

(** The characters of a text, each with its bytes. *)
Fixpoint chars (s : string) : list string :=
  match s with
  | EmptyString => []
  | String c s' =>
      match chars s' with
      | ch :: chs =>
          if starts_cont s' then String c ch :: chs else String c EmptyString :: ch :: chs
      | [] => [String c EmptyString]
      end
  end.

(** The code point of a character, and the character of a code point. *)
Definition payload (c : ascii) : N := N.land (N_of_ascii c) 63.

Definition code (ch : string) : N :=
  match ch with
  | String c EmptyString => N_of_ascii c
  | String c (String c1 EmptyString) => N.land (N_of_ascii c) 31 * 64 + payload c1
  | String c (String c1 (String c2 EmptyString)) =>
      (N.land (N_of_ascii c) 15 * 64 + payload c1) * 64 + payload c2
  | String c (String c1 (String c2 (String c3 _))) =>
      ((N.land (N_of_ascii c) 7 * 64 + payload c1) * 64 + payload c2) * 64 + payload c3
  | EmptyString => 0
  end%N.

Definition cont (n : N) : ascii := ascii_of_N (128 + N.land n 63).

Definition utf8 (n : N) : string :=
  (if n <? 128 then String (ascii_of_N n) EmptyString
   else if n <? 2048 then String (ascii_of_N (192 + n / 64)) (String (cont n) EmptyString)
   else if n <? 65536 then
     String (ascii_of_N (224 + n / 4096))
            (String (cont (n / 64)) (String (cont n) EmptyString))
   else
     String (ascii_of_N (240 + n / 262144))
            (String (cont (n / 4096)) (String (cont (n / 64)) (String (cont n) EmptyString))))%N.

(** [len(s)]: the number of characters. *)
Fixpoint count_chars (s : string) : nat :=
  match s with
  | EmptyString => 0
  | String c s' => (if is_cont c then 0 else 1) + count_chars s'
  end.

Definition len (s : string) : Z := Z.of_nat (count_chars s).

(** [s[:n]] for [n >= 0]: the first [n] characters. *)
Fixpoint take (n : nat) (s : string) : string :=
  match s with
  | EmptyString => EmptyString
  | String c s' =>
      if is_cont c then String c (take n s')
      else match n with
           | O => EmptyString
           | S n' => String c (take n' s')
           end
  end.

(** *** [str.lower]

    The tables are those of Unicode 14.0, which Python 3.11 carries. *)

(** The lower-case mapping of the characters outside ASCII whose
    lower-case form is one other character, as runs: the characters
    [first], [first + step], ..., [last] map to [target],
    [target + step], ...  An entry is [(first, last, step, target)]. *)
Definition lower_runs : list (N * N * N * N) :=
  [(192, 214, 1, 224); (216, 222, 1, 248); (256, 302, 2, 257); (306, 310, 2, 307);
   (313, 327, 2, 314); (330, 374, 2, 331); (376, 376, 1, 255); (377, 381, 2, 378);
   (385, 385, 1, 595); (386, 388, 2, 387); (390, 390, 1, 596); (391, 391, 1, 392);
   (393, 394, 1, 598); (395, 395, 1, 396); (398, 398, 1, 477); (399, 399, 1, 601);
   (400, 400, 1, 603); (401, 401, 1, 402); (403, 403, 1, 608); (404, 404, 1, 611);
   (406, 406, 1, 617); (407, 407, 1, 616); (408, 408, 1, 409); (412, 412, 1, 623);
   (413, 413, 1, 626); (415, 415, 1, 629); (416, 420, 2, 417); (422, 422, 1, 640);
   (423, 423, 1, 424); (425, 425, 1, 643); (428, 428, 1, 429); (430, 430, 1, 648);
   (431, 431, 1, 432); (433, 434, 1, 650); (435, 437, 2, 436); (439, 439, 1, 658);
   (440, 440, 1, 441); (444, 444, 1, 445); (452, 452, 1, 454); (453, 453, 1, 454);
   (455, 455, 1, 457); (456, 456, 1, 457); (458, 458, 1, 460); (459, 475, 2, 460);
   (478, 494, 2, 479); (497, 497, 1, 499); (498, 500, 2, 499); (502, 502, 1, 405);
   (503, 503, 1, 447); (504, 542, 2, 505); (544, 544, 1, 414); (546, 562, 2, 547);
   (570, 570, 1, 11365); (571, 571, 1, 572); (573, 573, 1, 410); (574, 574, 1, 11366);
   (577, 577, 1, 578); (579, 579, 1, 384); (580, 580, 1, 649); (581, 581, 1, 652);
   (582, 590, 2, 583); (880, 882, 2, 881); (886, 886, 1, 887); (895, 895, 1, 1011);
   (902, 902, 1, 940); (904, 906, 1, 941); (908, 908, 1, 972); (910, 911, 1, 973);
   (913, 929, 1, 945); (931, 939, 1, 963); (975, 975, 1, 983); (984, 1006, 2, 985);
   (1012, 1012, 1, 952); (1015, 1015, 1, 1016); (1017, 1017, 1, 1010); (1018, 1018, 1, 1019);
   (1021, 1023, 1, 891); (1024, 1039, 1, 1104); (1040, 1071, 1, 1072); (1120, 1152, 2, 1121);
   (1162, 1214, 2, 1163); (1216, 1216, 1, 1231); (1217, 1229, 2, 1218); (1232, 1326, 2, 1233);
   (1329, 1366, 1, 1377); (4256, 4293, 1, 11520); (4295, 4295, 1, 11559); (4301, 4301, 1, 11565);
   (5024, 5103, 1, 43888); (5104, 5109, 1, 5112); (7312, 7354, 1, 4304); (7357, 7359, 1, 4349);
   (7680, 7828, 2, 7681); (7838, 7838, 1, 223); (7840, 7934, 2, 7841); (7944, 7951, 1, 7936);
   (7960, 7965, 1, 7952); (7976, 7983, 1, 7968); (7992, 7999, 1, 7984); (8008, 8013, 1, 8000);
   (8025, 8031, 2, 8017); (8040, 8047, 1, 8032); (8072, 8079, 1, 8064); (8088, 8095, 1, 8080);
   (8104, 8111, 1, 8096); (8120, 8121, 1, 8112); (8122, 8123, 1, 8048); (8124, 8124, 1, 8115);
   (8136, 8139, 1, 8050); (8140, 8140, 1, 8131); (8152, 8153, 1, 8144); (8154, 8155, 1, 8054);
   (8168, 8169, 1, 8160); (8170, 8171, 1, 8058); (8172, 8172, 1, 8165); (8184, 8185, 1, 8056);
   (8186, 8187, 1, 8060); (8188, 8188, 1, 8179); (8486, 8486, 1, 969); (8490, 8490, 1, 107);
   (8491, 8491, 1, 229); (8498, 8498, 1, 8526); (8544, 8559, 1, 8560); (8579, 8579, 1, 8580);
   (9398, 9423, 1, 9424); (11264, 11311, 1, 11312); (11360, 11360, 1, 11361);
   (11362, 11362, 1, 619); (11363, 11363, 1, 7549); (11364, 11364, 1, 637);
   (11367, 11371, 2, 11368); (11373, 11373, 1, 593); (11374, 11374, 1, 625);
   (11375, 11375, 1, 592); (11376, 11376, 1, 594); (11378, 11378, 1, 11379);
   (11381, 11381, 1, 11382); (11390, 11391, 1, 575); (11392, 11490, 2, 11393);
   (11499, 11501, 2, 11500); (11506, 11506, 1, 11507); (42560, 42604, 2, 42561);
   (42624, 42650, 2, 42625); (42786, 42798, 2, 42787); (42802, 42862, 2, 42803);
   (42873, 42875, 2, 42874); (42877, 42877, 1, 7545); (42878, 42886, 2, 42879);
   (42891, 42891, 1, 42892); (42893, 42893, 1, 613); (42896, 42898, 2, 42897);
   (42902, 42920, 2, 42903); (42922, 42922, 1, 614); (42923, 42923, 1, 604);
   (42924, 42924, 1, 609); (42925, 42925, 1, 620); (42926, 42926, 1, 618);
   (42928, 42928, 1, 670); (42929, 42929, 1, 647); (42930, 42930, 1, 669);
   (42931, 42931, 1, 43859); (42932, 42946, 2, 42933); (42948, 42948, 1, 42900);
   (42949, 42949, 1, 642); (42950, 42950, 1, 7566); (42951, 42953, 2, 42952);
   (42960, 42960, 1, 42961); (42966, 42968, 2, 42967); (42997, 42997, 1, 42998);
   (65313, 65338, 1, 65345); (66560, 66599, 1, 66600); (66736, 66771, 1, 66776);
   (66928, 66938, 1, 66967); (66940, 66954, 1, 66979); (66956, 66962, 1, 66995);
   (66964, 66965, 1, 67003); (68736, 68786, 1, 68800); (71840, 71871, 1, 71872);
   (93760, 93791, 1, 93792); (125184, 125217, 1, 125218)]%N.

(** The characters with the property Cased, as ranges. *)
Definition cased_ranges : list (N * N) :=
  [(65, 90); (97, 122); (170, 170); (181, 181); (186, 186); (192, 214); (216, 246); (248, 442);
   (444, 447); (452, 659); (661, 696); (704, 705); (736, 740); (837, 837); (880, 883);
   (886, 887); (890, 893); (895, 895); (902, 902); (904, 906); (908, 908); (910, 929);
   (931, 1013); (1015, 1153); (1162, 1327); (1329, 1366); (1376, 1416); (4256, 4293);
   (4295, 4295); (4301, 4301); (4304, 4346); (4349, 4351); (5024, 5109); (5112, 5117);
   (7296, 7304); (7312, 7354); (7357, 7359); (7424, 7615); (7680, 7957); (7960, 7965);
   (7968, 8005); (8008, 8013); (8016, 8023); (8025, 8025); (8027, 8027); (8029, 8029);
   (8031, 8061); (8064, 8116); (8118, 8124); (8126, 8126); (8130, 8132); (8134, 8140);
   (8144, 8147); (8150, 8155); (8160, 8172); (8178, 8180); (8182, 8188); (8305, 8305);
   (8319, 8319); (8336, 8348); (8450, 8450); (8455, 8455); (8458, 8467); (8469, 8469);
   (8473, 8477); (8484, 8484); (8486, 8486); (8488, 8488); (8490, 8493); (8495, 8500);
   (8505, 8505); (8508, 8511); (8517, 8521); (8526, 8526); (8544, 8575); (8579, 8580);
   (9398, 9449); (11264, 11492); (11499, 11502); (11506, 11507); (11520, 11557); (11559, 11559);
   (11565, 11565); (42560, 42605); (42624, 42653); (42786, 42887); (42891, 42894);
   (42896, 42954); (42960, 42961); (42963, 42963); (42965, 42969); (42997, 42998);
   (43000, 43002); (43824, 43866); (43868, 43880); (43888, 43967); (64256, 64262);
   (64275, 64279); (65313, 65338); (65345, 65370); (66560, 66639); (66736, 66771);
   (66776, 66811); (66928, 66938); (66940, 66954); (66956, 66962); (66964, 66965);
   (66967, 66977); (66979, 66993); (66995, 67001); (67003, 67004); (67456, 67456);
   (67459, 67461); (67463, 67504); (67506, 67514); (68736, 68786); (68800, 68850);
   (71840, 71903); (93760, 93823); (119808, 119892); (119894, 119964); (119966, 119967);
   (119970, 119970); (119973, 119974); (119977, 119980); (119982, 119993); (119995, 119995);
   (119997, 120003); (120005, 120069); (120071, 120074); (120077, 120084); (120086, 120092);
   (120094, 120121); (120123, 120126); (120128, 120132); (120134, 120134); (120138, 120144);
   (120146, 120485); (120488, 120512); (120514, 120538); (120540, 120570); (120572, 120596);
   (120598, 120628); (120630, 120654); (120656, 120686); (120688, 120712); (120714, 120744);
   (120746, 120770); (120772, 120779); (122624, 122633); (122635, 122654); (125184, 125251);
   (127280, 127305); (127312, 127337); (127344, 127369)]%N.

(** The characters with the property Case_Ignorable, as ranges. *)
Definition case_ignorable_ranges : list (N * N) :=
  [(39, 39); (46, 46); (58, 58); (94, 94); (96, 96); (168, 168); (173, 173); (175, 175);
   (180, 180); (183, 184); (688, 879); (884, 885); (890, 890); (900, 901); (903, 903);
   (1155, 1161); (1369, 1369); (1375, 1375); (1425, 1469); (1471, 1471); (1473, 1474);
   (1476, 1477); (1479, 1479); (1524, 1524); (1536, 1541); (1552, 1562); (1564, 1564);
   (1600, 1600); (1611, 1631); (1648, 1648); (1750, 1757); (1759, 1768); (1770, 1773);
   (1807, 1807); (1809, 1809); (1840, 1866); (1958, 1968); (2027, 2037); (2042, 2042);
   (2045, 2045); (2070, 2093); (2137, 2139); (2184, 2184); (2192, 2193); (2200, 2207);
   (2249, 2306); (2362, 2362); (2364, 2364); (2369, 2376); (2381, 2381); (2385, 2391);
   (2402, 2403); (2417, 2417); (2433, 2433); (2492, 2492); (2497, 2500); (2509, 2509);
   (2530, 2531); (2558, 2558); (2561, 2562); (2620, 2620); (2625, 2626); (2631, 2632);
   (2635, 2637); (2641, 2641); (2672, 2673); (2677, 2677); (2689, 2690); (2748, 2748);
   (2753, 2757); (2759, 2760); (2765, 2765); (2786, 2787); (2810, 2815); (2817, 2817);
   (2876, 2876); (2879, 2879); (2881, 2884); (2893, 2893); (2901, 2902); (2914, 2915);
   (2946, 2946); (3008, 3008); (3021, 3021); (3072, 3072); (3076, 3076); (3132, 3132);
   (3134, 3136); (3142, 3144); (3146, 3149); (3157, 3158); (3170, 3171); (3201, 3201);
   (3260, 3260); (3263, 3263); (3270, 3270); (3276, 3277); (3298, 3299); (3328, 3329);
   (3387, 3388); (3393, 3396); (3405, 3405); (3426, 3427); (3457, 3457); (3530, 3530);
   (3538, 3540); (3542, 3542); (3633, 3633); (3636, 3642); (3654, 3662); (3761, 3761);
   (3764, 3772); (3782, 3782); (3784, 3789); (3864, 3865); (3893, 3893); (3895, 3895);
   (3897, 3897); (3953, 3966); (3968, 3972); (3974, 3975); (3981, 3991); (3993, 4028);
   (4038, 4038); (4141, 4144); (4146, 4151); (4153, 4154); (4157, 4158); (4184, 4185);
   (4190, 4192); (4209, 4212); (4226, 4226); (4229, 4230); (4237, 4237); (4253, 4253);
   (4348, 4348); (4957, 4959); (5906, 5908); (5938, 5939); (5970, 5971); (6002, 6003);
   (6068, 6069); (6071, 6077); (6086, 6086); (6089, 6099); (6103, 6103); (6109, 6109);
   (6155, 6159); (6211, 6211); (6277, 6278); (6313, 6313); (6432, 6434); (6439, 6440);
   (6450, 6450); (6457, 6459); (6679, 6680); (6683, 6683); (6742, 6742); (6744, 6750);
   (6752, 6752); (6754, 6754); (6757, 6764); (6771, 6780); (6783, 6783); (6823, 6823);
   (6832, 6862); (6912, 6915); (6964, 6964); (6966, 6970); (6972, 6972); (6978, 6978);
   (7019, 7027); (7040, 7041); (7074, 7077); (7080, 7081); (7083, 7085); (7142, 7142);
   (7144, 7145); (7149, 7149); (7151, 7153); (7212, 7219); (7222, 7223); (7288, 7293);
   (7376, 7378); (7380, 7392); (7394, 7400); (7405, 7405); (7412, 7412); (7416, 7417);
   (7468, 7530); (7544, 7544); (7579, 7679); (8125, 8125); (8127, 8129); (8141, 8143);
   (8157, 8159); (8173, 8175); (8189, 8190); (8203, 8207); (8216, 8217); (8228, 8228);
   (8231, 8231); (8234, 8238); (8288, 8292); (8294, 8303); (8305, 8305); (8319, 8319);
   (8336, 8348); (8400, 8432); (11388, 11389); (11503, 11505); (11631, 11631); (11647, 11647);
   (11744, 11775); (11823, 11823); (12293, 12293); (12330, 12333); (12337, 12341);
   (12347, 12347); (12441, 12446); (12540, 12542); (40981, 40981); (42232, 42237);
   (42508, 42508); (42607, 42610); (42612, 42621); (42623, 42623); (42652, 42655);
   (42736, 42737); (42752, 42785); (42864, 42864); (42888, 42890); (42994, 42996);
   (43000, 43001); (43010, 43010); (43014, 43014); (43019, 43019); (43045, 43046);
   (43052, 43052); (43204, 43205); (43232, 43249); (43263, 43263); (43302, 43309);
   (43335, 43345); (43392, 43394); (43443, 43443); (43446, 43449); (43452, 43453);
   (43471, 43471); (43493, 43494); (43561, 43566); (43569, 43570); (43573, 43574);
   (43587, 43587); (43596, 43596); (43632, 43632); (43644, 43644); (43696, 43696);
   (43698, 43700); (43703, 43704); (43710, 43711); (43713, 43713); (43741, 43741);
   (43756, 43757); (43763, 43764); (43766, 43766); (43867, 43871); (43881, 43883);
   (44005, 44005); (44008, 44008); (44013, 44013); (64286, 64286); (64434, 64450);
   (65024, 65039); (65043, 65043); (65056, 65071); (65106, 65106); (65109, 65109);
   (65279, 65279); (65287, 65287); (65294, 65294); (65306, 65306); (65342, 65342);
   (65344, 65344); (65392, 65392); (65438, 65439); (65507, 65507); (65529, 65531);
   (66045, 66045); (66272, 66272); (66422, 66426); (67456, 67461); (67463, 67504);
   (67506, 67514); (68097, 68099); (68101, 68102); (68108, 68111); (68152, 68154);
   (68159, 68159); (68325, 68326); (68900, 68903); (69291, 69292); (69446, 69456);
   (69506, 69509); (69633, 69633); (69688, 69702); (69744, 69744); (69747, 69748);
   (69759, 69761); (69811, 69814); (69817, 69818); (69821, 69821); (69826, 69826);
   (69837, 69837); (69888, 69890); (69927, 69931); (69933, 69940); (70003, 70003);
   (70016, 70017); (70070, 70078); (70089, 70092); (70095, 70095); (70191, 70193);
   (70196, 70196); (70198, 70199); (70206, 70206); (70367, 70367); (70371, 70378);
   (70400, 70401); (70459, 70460); (70464, 70464); (70502, 70508); (70512, 70516);
   (70712, 70719); (70722, 70724); (70726, 70726); (70750, 70750); (70835, 70840);
   (70842, 70842); (70847, 70848); (70850, 70851); (71090, 71093); (71100, 71101);
   (71103, 71104); (71132, 71133); (71219, 71226); (71229, 71229); (71231, 71232);
   (71339, 71339); (71341, 71341); (71344, 71349); (71351, 71351); (71453, 71455);
   (71458, 71461); (71463, 71467); (71727, 71735); (71737, 71738); (71995, 71996);
   (71998, 71998); (72003, 72003); (72148, 72151); (72154, 72155); (72160, 72160);
   (72193, 72202); (72243, 72248); (72251, 72254); (72263, 72263); (72273, 72278);
   (72281, 72283); (72330, 72342); (72344, 72345); (72752, 72758); (72760, 72765);
   (72767, 72767); (72850, 72871); (72874, 72880); (72882, 72883); (72885, 72886);
   (73009, 73014); (73018, 73018); (73020, 73021); (73023, 73029); (73031, 73031);
   (73104, 73105); (73109, 73109); (73111, 73111); (73459, 73460); (78896, 78904);
   (92912, 92916); (92976, 92982); (92992, 92995); (94031, 94031); (94095, 94111);
   (94176, 94177); (94179, 94180); (110576, 110579); (110581, 110587); (110589, 110590);
   (113821, 113822); (113824, 113827); (118528, 118573); (118576, 118598); (119143, 119145);
   (119155, 119170); (119173, 119179); (119210, 119213); (119362, 119364); (121344, 121398);
   (121403, 121452); (121461, 121461); (121476, 121476); (121499, 121503); (121505, 121519);
   (122880, 122886); (122888, 122904); (122907, 122913); (122915, 122916); (122918, 122922);
   (123184, 123197); (123566, 123566); (123628, 123631); (125136, 125142); (125252, 125259);
   (127995, 127999); (917505, 917505); (917536, 917631); (917760, 917999)]%N.

Definition in_ranges (ranges : list (N * N)) (n : N) : bool :=
  existsb (fun r => (r.1 <=? n) && (n <=? r.2))%N ranges.

Definition cased (n : N) : bool := in_ranges cased_ranges n.
Definition case_ignorable (n : N) : bool := in_ranges case_ignorable_ranges n.

(** The lower case of a character whose lower-case form is one
    character. *)
Definition lower_code (n : N) : N :=
  (if n <? 128 then (if (65 <=? n) && (n <=? 90) then n + 32 else n)
   else
     match List.find (fun r => (r.1.1.1 <=? n) && (n <=? r.1.1.2)
                               && ((n - r.1.1.1) mod r.1.2 =? 0)) lower_runs with
     | Some r => r.2 + (n - r.1.1.1)
     | None => n
     end)%N.

(** U+03A3 is written U+03C2 where it ends a word: after a cased
    character and not before one, characters that are Case_Ignorable not
    counting.  [before] holds the characters before it, the nearest
    first. *)
Fixpoint skip_ignorable (codes : list N) : list N :=
  match codes with
  | n :: codes' => if case_ignorable n then skip_ignorable codes' else codes
  | [] => []
  end.

Definition final_sigma (before after : list N) : bool :=
  match skip_ignorable before with
  | n :: _ => cased n
  | [] => false
  end
  && match skip_ignorable after with
     | n :: _ => negb (cased n)
     | [] => true
     end.

(** U+0130 is the one character whose lower-case form has two
    characters: U+0069 U+0307. *)
Fixpoint lower_codes (before : list N) (codes : list N) : list N :=
  match codes with
  | [] => []
  | n :: codes' =>
      (if (n =? 931)%N then [if final_sigma before codes' then 962%N else 963%N]
       else if (n =? 304)%N then [105%N; 775%N]
       else [lower_code n])
      ++ lower_codes (n :: before) codes'
  end.

(** [s.lower()] *)
Definition lower (s : string) : string :=
  foldr String.append EmptyString (map utf8 (lower_codes [] (map code (chars s)))).

(** [s.startswith(w)] *)
Fixpoint startswith (w s : string) : bool :=
  match w, s with
  | EmptyString, _ => true
  | String a w', String b s' => if Ascii.eqb a b then startswith w' s' else false
  | String _ _, EmptyString => false
  end.

(** [w in s] on strings: [w] occurs as a contiguous substring of [s]. *)
Fixpoint contains (w s : string) : bool :=
  startswith w s ||
  match s with
  | EmptyString => false
  | String _ s' => contains w s'
  end.

(** [s.split()]: the maximal runs of non-whitespace characters. *)
Fixpoint split (s : string) : list string :=
  match s with
  | EmptyString => []
  | String c s' =>
      if is_space c then split s'
      else match s' with
           | EmptyString => [String c EmptyString]
           | String c' _ =>
               if is_space c' then String c EmptyString :: split s'
               else match split s' with
                    | w :: ws => String c w :: ws
                    | [] => [String c EmptyString]
                    end
           end
  end.

(** [sep.join(ws)] *)
Fixpoint join (sep : string) (ws : list string) : string :=
  match ws with
  | [] => EmptyString
  | [w] => w
  | w :: ws' => w +:+ sep +:+ join sep ws'
  end.

(** [s.lstrip()], [s.rstrip()] and [s.strip()] *)
Fixpoint lstrip (s : string) : string :=
  match s with
  | String c s' => if is_space c then lstrip s' else s
  | EmptyString => EmptyString
  end.

Fixpoint rstrip (s : string) : string :=
  match s with
  | EmptyString => EmptyString
  | String c s' =>
      match rstrip s' with
      | EmptyString => if is_space c then EmptyString else String c EmptyString
      | r => String c r
      end
  end.

Definition strip (s : string) : string := rstrip (lstrip s).

(** [str(n)] of a natural number, which is also how an f-string prints
    it, and the line feed. *)
Definition str (n : nat) : string := NilEmpty.string_of_uint (Nat.to_uint n).

Definition nl : string := String (ascii_of_nat 10) EmptyString.

(** [any(p(x) for x in l)] and [any(p(x) for x in l if q(x))] are
    [existsb p l] and [existsb p (filter q l)]. *)

End Py.

(** ** Data model ([database.py], lines 14-37) *)

(** [TaskProgress]: a task and the dates (YYYY-MM-DD) it was completed on. *)
Record TaskProgress := mkTask {
  task_name : string;
  progress : list string
}.

#[global] Instance TaskProgress_eq_dec : EqDecision TaskProgress.
Proof. solve_decision. Defined.

(** A document of the [health_plans] collection; its [_id] is the key it
    is stored under. *)
Module Doc.
Record t := mk {
  user_id : string;
  plan_name : string;
  condition : string;
  timeline_days : Z;
  tasks : list TaskProgress;
  active : bool;
  created_at : Z;
  updated_at : Z
}.

#[global] Instance eq_dec : EqDecision t.
Proof. solve_decision. Defined.

(** [{"$set": {"tasks": ts, "updated_at": now}}] *)
Definition set_tasks (ts : list TaskProgress) (now : Z) (d : t) : t :=
  mk (user_id d) (plan_name d) (condition d) (timeline_days d) ts
     (active d) (created_at d) now.

(** [{"$set": {"active": False, "updated_at": now}}] *)
Definition set_inactive (now : Z) (d : t) : t :=
  mk (user_id d) (plan_name d) (condition d) (timeline_days d) (tasks d)
     false (created_at d) now.
End Doc.

(** The dictionary [get_active_plans] builds for each plan it returns. *)
Module Plan.
Record t := mk {
  id : string;
  plan_name : string;
  condition : string;
  timeline_days : Z;
  tasks : list TaskProgress;
  created_at : Z;
  updated_at : Z
}.

Definition of_doc (kd : string * Doc.t) : t :=
  mk kd.1 (Doc.plan_name kd.2) (Doc.condition kd.2) (Doc.timeline_days kd.2)
     (Doc.tasks kd.2) (Doc.created_at kd.2) (Doc.updated_at kd.2).
End Plan.

(** A document of the [specialist_stats] collection, as
    [get_specialist_stats] returns it. *)
Module Stat.
Record t := mk {
  specialist_name : string;
  total_words_generated : Z;
  total_messages_sent : Z;
  last_activity : Z;
  daily_word_counts : gmap string Z
}.
End Stat.

(** The part of [DatabaseManager] the plan and analytics logic reads. *)
Record DatabaseManager := mkDB {
  plans_collection : option (gmap string Doc.t);
  specialist_stats_collection : option (list Stat.t)
}.

Definition with_plans (db : DatabaseManager) (c : gmap string Doc.t) : DatabaseManager :=
  mkDB (Some c) (specialist_stats_collection db).

Definition default_user : string := "default_user".

(** ** The plan store ([database.py], lines 226-332) *)

(** [find_one({"_id": plan_id, "user_id": "default_user"})] *)
Definition find_one (c : gmap string Doc.t) (plan_id : string) : option Doc.t :=
  match c !! plan_id with
  | Some d => if bool_decide (Doc.user_id d = default_user) then Some d else None
  | None => None
  end.

(** [find({"user_id": "default_user", "active": True},
          sort=[("created_at", -1)])] *)
Definition newer_first (a b : string * Doc.t) : Prop :=
  Doc.created_at b.2 <= Doc.created_at a.2.

#[global] Instance newer_first_dec : RelDecision newer_first.
Proof. intros a b. unfold newer_first. apply _. Defined.

Definition find_active (c : gmap string Doc.t) : list (string * Doc.t) :=
  merge_sort newer_first
    (filter (fun kd => Doc.user_id kd.2 = default_user /\ Doc.active kd.2 = true)
            (map_to_list c)).

(** [create_health_plan]: [uuid1] and [uuid2] are the first and the second
    value [uuid.uuid4()] draws, [now] the clock.  [insert_one] raises on a
    key already present, which the [except] turns into a dummy id. *)
Definition create_health_plan (db : DatabaseManager)
    (plan_name condition : string) (timeline_days : Z) (tasks : list string)
    (uuid1 uuid2 : string) (now : Z) : DatabaseManager * string :=
  match plans_collection db with
  | None => (db, uuid1)
  | Some c =>
      let task_objects := map (fun task => mkTask task []) tasks in
      let plan :=
        Doc.mk default_user plan_name condition (Z.min timeline_days 7)
               (map (fun task => mkTask (task_name task) (progress task)) task_objects)
               true now now in
      match c !! uuid1 with
      | None => (with_plans db (<[uuid1 := plan]> c), uuid1)
      | Some _ => (db, uuid2)
      end
  end.

(** [get_active_plans] *)
Definition get_active_plans (db : DatabaseManager) : list Plan.t :=
  match plans_collection db with
  | None => []
  | Some c => map Plan.of_doc (find_active c)
  end.

(** The loop of [update_task_progress] over [plan["tasks"]]: the first
    task with the given name gets the date appended unless it has it, and
    the loop stops there. *)
Fixpoint mark_first (name date : string) (ts : list TaskProgress) : list TaskProgress :=
  match ts with
  | [] => []
  | task :: ts' =>
      if bool_decide (task_name task = name) then
        (if bool_decide (date ∈ progress task) then task
         else mkTask (task_name task) (progress task ++ [date])) :: ts'
      else task :: mark_first name date ts'
  end.

(** [update_task_progress] *)
Definition update_task_progress (db : DatabaseManager)
    (plan_id name date : string) (now : Z) : DatabaseManager * bool :=
  match plans_collection db with
  | None => (db, false)
  | Some c =>
      match find_one c plan_id with
      | None => (db, false)
      | Some plan =>
          let tasks' := mark_first name date (Doc.tasks plan) in
          (with_plans db (alter (Doc.set_tasks tasks' now) plan_id c), true)
      end
  end.

(** [deactivate_plan]; [modified_count] counts the documents the update
    changed. *)
Definition deactivate_plan (db : DatabaseManager) (plan_id : string) (now : Z)
    : DatabaseManager * bool :=
  match plans_collection db with
  | None => (db, false)
  | Some c =>
      match find_one c plan_id with
      | None => (db, false)
      | Some d =>
          let d' := Doc.set_inactive now d in
          (with_plans db (<[plan_id := d']> c), bool_decide (d' ≠ d))
      end
  end.

(** The first task called [name], and the dates recorded for it in plan
    [plan_id]: what [update_task_progress] reads and writes. *)
Definition find_task (name : string) (ts : list TaskProgress) : option TaskProgress :=
  List.find (fun task => bool_decide (task_name task = name)) ts.

Definition completion_dates (db : DatabaseManager) (plan_id name : string)
    : option (list string) :=
  c ← plans_collection db;
  plan ← find_one c plan_id;
  task ← find_task name (Doc.tasks plan);
  Some (progress task).

(** [timeline_days] of the document stored under [plan_id]. *)
Definition stored_timeline (db : DatabaseManager) (plan_id : string) : option Z :=
  c ← plans_collection db;
  d ← c !! plan_id;
  Some (Doc.timeline_days d).

(** The operations of the store that write plans. *)
Inductive Op :=
| Create (plan_name condition : string) (timeline_days : Z) (tasks : list string)
         (uuid1 uuid2 : string)
| Update (plan_id name date : string)
| Deactivate (plan_id : string).

Definition run (db : DatabaseManager) (op : Op * Z) : DatabaseManager :=
  match op with
  | (Create plan_name condition timeline_days tasks uuid1 uuid2, now) =>
      (create_health_plan db plan_name condition timeline_days tasks uuid1 uuid2 now).1
  | (Update plan_id name date, now) => (update_task_progress db plan_id name date now).1
  | (Deactivate plan_id, now) => (deactivate_plan db plan_id now).1
  end.

(** ** Regular expressions ([re], as the extractor uses it)

    A backtracking matcher in continuation-passing style: greedy
    repetition tries the longest run first, alternation tries its left
    branch first, and the first complete match wins, as in [re].  Case
    folding ([re.IGNORECASE]) is part of the character predicates. *)

Module Re.

Inductive regex :=
| Eps
| Cls (p : ascii -> bool)        (* one character of a class *)
| Seq (r1 r2 : regex)
| Alt (r1 r2 : regex)            (* r1|r2 *)
| Star (r : regex)               (* r*, greedy *)
| Grp (n : nat) (r : regex)      (* capturing group number n *)
| Ahead (r : regex)              (* (?=r) *)
| Eol.                           (* $ under re.MULTILINE *)

Definition Plus (r : regex) : regex := Seq r (Star r).   (* r+ *)
Definition Opt (r : regex) : regex := Alt r Eps.         (* r?, greedy *)
Definition cat (rs : list regex) : regex := foldr Seq Eps rs.
Definition alts (r : regex) (rs : list regex) : regex := foldl Alt r rs.

(** A literal character, and the same under [re.IGNORECASE]. *)
Definition chr (x : ascii) : regex := Cls (Ascii.eqb x).
Definition chr_i (x : ascii) : regex :=
  Cls (fun c => Ascii.eqb (Py.lower_char c) (Py.lower_char x)).
Definition lit (s : string) : regex := cat (map chr (list_ascii_of_string s)).
Definition lit_i (s : string) : regex := cat (map chr_i (list_ascii_of_string s)).

(** [[^x]], and the same under [re.IGNORECASE], where neither case of [x]
    is in the class. *)
Definition none_of (x : ascii) : regex := Cls (fun c => negb (Ascii.eqb c x)).
Definition none_of_i (x : ascii) : regex :=
  Cls (fun c => negb (Ascii.eqb (Py.lower_char c) (Py.lower_char x))).
Definition space : regex := Cls Py.is_space.             (* \s *)
Definition digit : regex := Cls Py.is_digit.             (* \d *)

(** The matcher's state: the offset reached, the text that is left, and
    the spans of the groups closed so far (latest first). *)
Record mstate := mkSt {
  pos : nat;
  rest : string;
  caps : list (nat * (nat * nat))
}.

(** Greedy repetition of [body]: one more round first, as long as the
    round moves on in the text, then the rest of the pattern. *)
Fixpoint star_loop (body : mstate -> (mstate -> option mstate) -> option mstate)
    (k : mstate -> option mstate) (fuel : nat) (st : mstate) : option mstate :=
  match fuel with
  | O => k st
  | S fuel' =>
      match body st (fun st1 => if (pos st <? pos st1)%nat then star_loop body k fuel' st1
                                else None) with
      | Some st' => Some st'
      | None => k st
      end
  end.

Fixpoint rmatch (r : regex) (st : mstate) (k : mstate -> option mstate)
    {struct r} : option mstate :=
  match r with
  | Eps => k st
  | Cls p =>
      match rest st with
      | String c s' => if p c then k (mkSt (S (pos st)) s' (caps st)) else None
      | EmptyString => None
      end
  | Seq r1 r2 => rmatch r1 st (fun st1 => rmatch r2 st1 k)
  | Alt r1 r2 =>
      match rmatch r1 st k with
      | Some st' => Some st'
      | None => rmatch r2 st k
      end
  | Star r1 => star_loop (rmatch r1) k (String.length (rest st)) st
  | Grp n r1 =>
      rmatch r1 st (fun st1 => k (mkSt (pos st1) (rest st1) ((n, (pos st, pos st1)) :: caps st1)))
  | Ahead r1 =>
      match rmatch r1 st Some with
      | Some st1 => k (mkSt (pos st) (rest st) (caps st1))
      | None => None
      end
  | Eol =>
      match rest st with
      | EmptyString => k st
      | String c _ => if Ascii.eqb c "010" then k st else None
      end
  end.

(** [m.group(n)], the empty string for a group that took no part. *)
Definition group (text : string) (n : nat) (st : mstate) : string :=
  match list_find (fun c => c.1 = n) (caps st) with
  | Some (_, (_, (b, e))) => String.substring b (e - b) text
  | None => EmptyString
  end.

(** One attempt at each offset from the current one on: the leftmost
    match, with the offset it starts at. *)
Fixpoint search_from (r : regex) (fuel : nat) (st : mstate) : option (nat * mstate) :=
  match rmatch r st Some with
  | Some st' => Some (pos st, st')
  | None =>
      match fuel, rest st with
      | S fuel', String _ s' => search_from r fuel' (mkSt (S (pos st)) s' [])
      | _, _ => None
      end
  end.

(** [re.search(r, text)] *)
Definition search (r : regex) (text : string) : option mstate :=
  snd <$> search_from r (String.length text) (mkSt 0 text []).

(** [re.findall(r, text)] for a pattern with the two groups 1 and 2: the
    non-overlapping matches from left to right, each as its pair of
    groups.  The scan resumes where the last match ended (one further
    on after an empty match). *)
Fixpoint findall_from (r : regex) (text : string) (fuel : nat) (st : mstate)
    : list (string * string) :=
  match fuel with
  | O => []
  | S fuel' =>
      match search_from r (String.length (rest st)) st with
      | None => []
      | Some (b, st') =>
          (group text 1 st', group text 2 st') ::
          (if (b <? pos st')%nat then findall_from r text fuel' (mkSt (pos st') (rest st') [])
           else match rest st' with
                | String _ s' => findall_from r text fuel' (mkSt (S (pos st')) s' [])
                | EmptyString => []
                end)
      end
  end.

Definition findall (r : regex) (text : string) : list (string * string) :=
  findall_from r text (S (String.length text)) (mkSt 0 text []).

End Re.

(** ** The plan extractor ([plan_generator.py]) *)

(** [r'Day\s*(\d+):\s*([^.]+(?:\.[^D]*(?=Day\s*\d+|$))?)'] with
    [re.IGNORECASE | re.MULTILINE | re.DOTALL] *)
Definition day_pattern : Re.regex :=
  Re.cat [ Re.lit_i "Day"; Re.Star Re.space; Re.Grp 1 (Re.Plus Re.digit);
           Re.chr ":"; Re.Star Re.space;
           Re.Grp 2 (Re.Seq (Re.Plus (Re.none_of "."))
                      (Re.Opt (Re.cat [ Re.chr "."; Re.Star (Re.none_of_i "D");
                                        Re.Ahead (Re.Alt (Re.cat [Re.lit_i "Day"; Re.Star Re.space;
                                                                  Re.Plus Re.digit])
                                                         Re.Eol) ]))) ].

(** [r'back\s*pain|neck\s*pain|stress|anxiety|injury|muscle|joint'];
    group 0 is the whole match. *)
Definition condition_pattern : Re.regex :=
  Re.Grp 0 (Re.alts (Re.cat [Re.lit "back"; Re.Star Re.space; Re.lit "pain"])
              [ Re.cat [Re.lit "neck"; Re.Star Re.space; Re.lit "pain"];
                Re.lit "stress"; Re.lit "anxiety"; Re.lit "injury";
                Re.lit "muscle"; Re.lit "joint" ]).

(** [(?:Plan|Management|Program)] under [re.IGNORECASE] *)
Definition plan_word : Re.regex :=
  Re.alts (Re.lit_i "Plan") [Re.lit_i "Management"; Re.lit_i "Program"].

(** [r'(\d+)-Day\s+([^:]+(?:Plan|Management|Program))'] and
    [r'([^:]+(?:Plan|Management|Program))'], both with [re.IGNORECASE] *)
Definition title_pattern_1 : Re.regex :=
  Re.cat [ Re.Grp 1 (Re.Plus Re.digit); Re.chr "-"; Re.lit_i "Day"; Re.Plus Re.space;
           Re.Grp 2 (Re.Seq (Re.Plus (Re.none_of ":")) plan_word) ].
Definition title_pattern_2 : Re.regex :=
  Re.Grp 1 (Re.Seq (Re.Plus (Re.none_of ":")) plan_word).

(** The [plan_data] dictionary.  A key that is absent is [None]; a key
    that is present carries a value of the type the prompt's JSON schema
    gives it. *)
Module PlanData.
Record t := mk {
  needs_plan : option bool;
  condition : option string;
  plan_name : option string;
  timeline_days : option Z;
  tasks : option (list string);
  error : option string;
  reason : option string;
  progress_request : option bool;
  existing_plan : option bool
}.

Definition empty : t := mk None None None None None None None None None.
(** [{"error": e}] *)
Definition of_error (e : string) : t :=
  mk None None None None None (Some e) None None None.
(** [{"progress_request": True}] *)
Definition of_progress_request : t :=
  mk None None None None None None None (Some true) None.
(** [{"existing_plan": True, "plan_name": n}] *)
Definition of_existing_plan (n : string) : t :=
  mk None None (Some n) None None None None None (Some true).
End PlanData.

(** Lines 119-127: one matched day block becomes one task name. *)
Definition clean_task (day_num task_content : string) : string :=
  let task_clean := Py.strip task_content in
  let task_clean := Py.join " " (Py.split task_clean) in
  let task_clean :=
    if 200 <? Py.len task_clean then Py.take 197 task_clean +:+ "..." else task_clean in
  "Day " +:+ day_num +:+ ": " +:+ task_clean.

(** [HealthPlanAgent.extract_daily_tasks_from_response] *)
Definition extract_daily_tasks_from_response (ai_response : string) : bool * PlanData.t :=
  let matches := Re.findall day_pattern ai_response in
  match matches with
  | [] => (false, PlanData.of_error "No daily tasks found in response")
  | _ :: _ =>
      let condition :=
        match Re.search condition_pattern (Py.lower ai_response) with
        | Some condition_match => Re.group (Py.lower ai_response) 0 condition_match
        | None => "health condition"
        end in
      let plan_name :=
        match Re.search title_pattern_1 ai_response with
        | Some title_match =>
            Re.group ai_response 1 title_match +:+ "-Day " +:+ Re.group ai_response 2 title_match
        | None =>
            match Re.search title_pattern_2 ai_response with
            | Some title_match => Re.group ai_response 1 title_match
            | None => "Health Management Plan"
            end
        end in
      let timeline_days := Z.of_nat (length matches) in
      let tasks := map (fun m => clean_task m.1 m.2) matches in
      (true,
       PlanData.mk (Some true) (Some condition) (Some plan_name)
                   (Some (Z.min timeline_days 7)) (Some tasks) None None None None)
  end.

(** What the reply of the language model amounts to at lines 155-168:
    the chain may fail, [re.search] may find no fenced JSON block,
    [json.loads] may reject the block, or it yields a dictionary. *)
Inductive Reply :=
| ChainError (e : string)
| NoJson
| JsonDecodeError (e : string)
| JsonObject (plan_data : PlanData.t).

(** [HealthPlanAgent.analyze_for_plan_generation], on the reply the chain
    gave for the message. *)
Definition analyze_for_plan_generation (response : Reply) : bool * PlanData.t :=
  match response with
  | NoJson => (false, PlanData.of_error "No JSON found in response")
  | JsonObject plan_data => (default false (PlanData.needs_plan plan_data), plan_data)
  | JsonDecodeError e => (false, PlanData.of_error ("JSON parsing error: " +:+ e))
  | ChainError e => (false, PlanData.of_error e)
  end.

(** [HealthPlanAgent.create_and_store_plan] *)
Definition create_and_store_plan (db : DatabaseManager) (plan_data : PlanData.t)
    (uuid1 uuid2 : string) (now : Z) : DatabaseManager * option string :=
  if negb (default false (PlanData.needs_plan plan_data)) then (db, None)
  else
    let plan_name := default "Health Plan" (PlanData.plan_name plan_data) in
    let condition := default "General Health" (PlanData.condition plan_data) in
    let timeline_days := Z.min (default 7 (PlanData.timeline_days plan_data)) 7 in
    let tasks := default [] (PlanData.tasks plan_data) in
    match tasks with
    | [] => (db, None)
    | _ :: _ =>
        let r := create_health_plan db plan_name condition timeline_days tasks uuid1 uuid2 now in
        (r.1, Some r.2)
    end.

(** The words of [s.split()] longer than 3 characters. *)
Definition long_words (s : string) : list string :=
  List.filter (fun word => 3 <? Py.len word) (Py.split s).

(** Lines 228-233 and 255-260: the first active plan one of whose long
    condition words occurs in [text]. *)
Definition existing_plan_for (text : string) (existing_plans : list Plan.t) : option Plan.t :=
  List.find (fun plan =>
               let plan_condition := Py.lower (Plan.condition plan) in
               existsb (fun word => Py.contains word text) (long_words plan_condition))
            existing_plans.

Definition progress_keywords : list string :=
  ["mark"; "progress"; "completed"; "finished"; "done"; "update"; "track"].

(** [HealthPlanAgent.process_message_for_plan] *)
Definition process_message_for_plan (db : DatabaseManager) (user_message : string)
    (response : Reply) (uuid1 uuid2 : string) (now : Z)
    : DatabaseManager * (bool * option string * PlanData.t) :=
  let is_progress_request :=
    existsb (fun keyword => Py.contains keyword (Py.lower user_message)) progress_keywords in
  if is_progress_request then (db, (false, None, PlanData.of_progress_request))
  else
    let existing_plans := get_active_plans db in
    let condition_mentioned := Py.lower user_message in
    match existing_plan_for condition_mentioned existing_plans with
    | Some plan =>
        (db, (false, Some (Plan.id plan), PlanData.of_existing_plan (Plan.plan_name plan)))
    | None =>
        let '(needs_plan, plan_data) := analyze_for_plan_generation response in
        if needs_plan && bool_decide (PlanData.error plan_data = None) then
          let r := create_and_store_plan db plan_data uuid1 uuid2 now in
          (r.1, (true, r.2, plan_data))
        else (db, (false, None, plan_data))
    end.

(** [HealthPlanAgent.process_ai_response_for_plan] *)
Definition process_ai_response_for_plan (db : DatabaseManager) (ai_response : string)
    (uuid1 uuid2 : string) (now : Z)
    : DatabaseManager * (bool * option string * PlanData.t) :=
  let '(has_plan, plan_data) := extract_daily_tasks_from_response ai_response in
  if has_plan && bool_decide (PlanData.error plan_data = None) then
    let existing_plans := get_active_plans db in
    let condition := Py.lower (default "" (PlanData.condition plan_data)) in
    match existing_plan_for condition existing_plans with
    | Some plan =>
        (db, (false, Some (Plan.id plan), PlanData.of_existing_plan (Plan.plan_name plan)))
    | None =>
        let r := create_and_store_plan db plan_data uuid1 uuid2 now in
        (r.1, (true, r.2, plan_data))
    end
  else (db, (false, None, plan_data)).

(** ** The plan step of the chat route ([routes/chat.py], lines 84-139) *)

Definition deactivation_keywords : list string :=
  ["deactivate"; "stop"; "quit"; "cancel"; "inactive"; "don't want"; "no longer"; "end"].

(** The test of lines 106-114 for one plan. *)
Definition plan_mentioned (message : string) (plan : Plan.t) : bool :=
  let plan_condition := Py.lower (Plan.condition plan) in
  let plan_name := Py.lower (Plan.plan_name plan) in
  let message_lower := Py.lower message in
  let condition_words := long_words plan_condition in
  let name_words := long_words plan_name in
  existsb (fun word => Py.contains word message_lower) (condition_words ++ name_words).

(** The loop of lines 105-116: [target_plan]. *)
Definition deactivation_target (message : string) (plans : list Plan.t) : option Plan.t :=
  List.find (plan_mentioned message) plans.

(** The body of the branch [if is_deactivation_request:] (lines
    100-127): the store afterwards, [plan_deactivated] and
    [deactivated_plan_name]. *)
Definition chat_deactivation (db : DatabaseManager) (message : string) (now : Z)
    : DatabaseManager * (bool * option string) :=
  let plans := get_active_plans db in
  match deactivation_target message plans with
  | Some target_plan =>
      let r := deactivate_plan db (Plan.id target_plan) now in
      if r.2 then (r.1, (true, Some (Plan.plan_name target_plan)))
      else (r.1, (false, None))
  | None => (db, (false, None))
  end.

(** [plan_generator.py], lines 268-300. *)
Definition HEALTH_CONDITION_KEYWORDS : list string :=
  ["back pain"; "neck pain"; "shoulder pain"; "knee pain"; "hip pain"; "joint pain";
   "headache"; "migraine"; "muscle pain"; "chronic pain"; "sciatica";
   "pain"; "ache"; "aching"; "hurt"; "hurts"; "hurting"; "sore"; "soreness";
   "stiff"; "stiffness"; "mobility"; "flexibility"; "range of motion"; "posture";
   "injured"; "injury"; "sprain"; "strain"; "pulled muscle"; "tight muscles";
   "stress"; "stressed"; "anxiety"; "anxious"; "depression"; "depressed";
   "overwhelmed"; "burnout"; "sleep problems"; "insomnia"; "tired"; "fatigue";
   "mental health"; "mood"; "irritable"; "restless";
   "fitness goals"; "weight loss"; "strength training"; "cardio";
   "recovery"; "rehabilitation"; "physical therapy"; "exercise";
   "workout"; "training"; "fitness";
   "diabetes"; "hypertension"; "high blood pressure"; "cholesterol";
   "arthritis"; "fibromyalgia"; "chronic fatigue"; "chronic condition";
   "dizzy"; "nausea"; "weakness"; "swollen"; "inflammation";
   "breathing problems"; "chest pain"; "irregular heartbeat"].

Definition has_health_condition_keywords (text : string) : bool :=
  let text_lower := Py.lower text in
  existsb (fun keyword => Py.contains keyword text_lower) HEALTH_CONDITION_KEYWORDS.

(** What the plan step of [chat] leaves in the five variables of lines
    84-88. *)
Module PlanStep.
Record t := mk {
  plan_created : bool;
  plan_id : option string;
  plan_data : option PlanData.t;
  plan_deactivated : bool;
  deactivated_plan_name : option string
}.
End PlanStep.

(** Lines 84-139 of [chat]: a deactivation request, else a progress
    request, else a message about a health condition, which goes to the
    plan generator; [response] is the answer of the language model the
    generator asks, [uuid1] and [uuid2] the identifiers it draws. *)
Definition chat_plan_step (db : DatabaseManager) (message : string)
    (response : Reply) (uuid1 uuid2 : string) (now : Z) : DatabaseManager * PlanStep.t :=
  let is_deactivation_request :=
    existsb (fun keyword => Py.contains keyword (Py.lower message)) deactivation_keywords in
  let is_progress_request :=
    existsb (fun keyword => Py.contains keyword (Py.lower message)) progress_keywords in
  if is_deactivation_request then
    let r := chat_deactivation db message now in
    (r.1, PlanStep.mk false None None r.2.1 r.2.2)
  else if is_progress_request then (db, PlanStep.mk false None None false None)
  else if has_health_condition_keywords message then
    let r := process_message_for_plan db message response uuid1 uuid2 now in
    (r.1, PlanStep.mk r.2.1.1 r.2.1.2 (Some r.2.2) false None)
  else (db, PlanStep.mk false None None false None).

(** ** The progress reconciler ([routes/plans.py], lines 291-375) *)

Record ProgressReportRequest := mkRequest {
  message : string;
  mark_all_complete : bool;
  specific_plan_condition : option string
}.

Definition progress_indicators : list string :=
  ["done"; "completed"; "finished"; "did"; "yes"; "✅"; "✓"; "all"; "everything"].

(** Lines 318-321: the target plan for a condition the request names. *)
Definition target_by_condition (target_condition : string) (plans : list Plan.t)
    : option Plan.t :=
  List.find (fun plan =>
               existsb (fun word => Py.contains word (Py.lower (Plan.condition plan)))
                       (long_words (Py.lower target_condition)))
            plans.

(** Lines 324-328: the target plan from the keywords of the message. *)
Definition target_by_message (message_lower : string) (plans : list Plan.t)
    : option Plan.t :=
  List.find (fun plan =>
               let plan_words := Py.split (Py.lower (Plan.condition plan)) in
               existsb (fun word => Py.contains word message_lower)
                       (List.filter (fun word => 3 <? Py.len word) plan_words))
            plans.

(** One call of [update_task_progress] from a loop that collects the
    names of the tasks it updated. *)
Definition mark_and_collect (plan_id today : string) (now : Z)
    (acc : DatabaseManager * list string) (name : string)
    : DatabaseManager * list string :=
  let r := update_task_progress acc.1 plan_id name today now in
  (r.1, if r.2 then acc.2 ++ [name] else acc.2).

(** Lines 332-336: every task of the target plan not done today. *)
Definition mark_all_pending (plan : Plan.t) (today : string) (now : Z)
    (acc : DatabaseManager * list string) : DatabaseManager * list string :=
  foldl (fun acc task =>
           if bool_decide (today ∈ progress task) then acc
           else mark_and_collect (Plan.id plan) today now acc (task_name task))
        acc (Plan.tasks plan).

(** [routes/chat.py], lines 198-226: the chat route marks every pending
    task of the first active plan about back pain, or of the first active
    plan at all when the message itself speaks of back pain. *)
Definition chat_progress_target (message : string) (plans : list Plan.t) : option Plan.t :=
  List.find (fun plan =>
               Py.contains "back pain" (Py.lower (Plan.condition plan))
               || Py.contains "back pain" (Py.lower message))
            plans.

Definition chat_mark_progress (db : DatabaseManager) (message today : string) (now : Z)
    : DatabaseManager * list string :=
  if existsb (fun keyword => Py.contains keyword (Py.lower message))
             ["mark"; "completed"; "finished"; "done"; "progress"]
  then
    let plans := get_active_plans db in
    match chat_progress_target message plans with
    | Some target_plan => mark_all_pending target_plan today now (db, [])
    | None => (db, [])
    end
  else (db, []).

(** Lines 347-350: the two nested tests on a pending task. *)
Definition any_indicator (message_lower : string) : bool :=
  existsb (fun indicator => Py.contains indicator message_lower) progress_indicators.

Definition shares_word (message_lower name : string) : bool :=
  existsb (fun word => Py.contains word (Py.lower name))
          (List.filter (fun word => 3 <? Py.len word) (Py.split message_lower)).

Definition indicator_count (message_lower : string) : Z :=
  Z.of_nat (length (List.filter (fun ind => Py.contains ind message_lower) progress_indicators)).

Definition task_reported (message_lower name : string) : bool :=
  if any_indicator message_lower then
    shares_word message_lower name || (2 <=? indicator_count message_lower)
  else false.

(** Lines 342-354: individual task matching over all active plans. *)
Definition mark_reported (message_lower today : string) (now : Z) (plans : list Plan.t)
    (acc : DatabaseManager * list string) : DatabaseManager * list string :=
  foldl (fun acc plan =>
           foldl (fun acc task =>
                    if bool_decide (today ∈ progress task) then acc
                    else if task_reported message_lower (task_name task)
                         then mark_and_collect (Plan.id plan) today now acc (task_name task)
                         else acc)
                 acc (Plan.tasks plan))
        acc plans.

(** Lines 312: whether the request asks to mark all tasks of one plan. *)
Definition directed (request : ProgressReportRequest) : bool :=
  let message_lower := Py.lower (message request) in
  mark_all_complete request || Py.contains "mark all" message_lower
  || Py.contains "all tasks" message_lower.

(** Lines 305-354 of [daily_progress_report]: the store after the
    marking and [updated_tasks]. *)
Definition report_updated_tasks (db : DatabaseManager) (request : ProgressReportRequest)
    (today : string) (now : Z) : DatabaseManager * list string :=
  let plans := get_active_plans db in
  let message_lower := Py.lower (message request) in
  if directed request then
    let target_plan :=
      match specific_plan_condition request with
      | Some target_condition =>
          if bool_decide (target_condition = "") then target_by_message message_lower plans
          else target_by_condition target_condition plans
      | None => target_by_message message_lower plans
      end in
    match target_plan with
    | Some target_plan => mark_all_pending target_plan today now (db, [])
    | None => (db, [])
    end
  else mark_reported message_lower today now plans (db, []).

(** ** The variant of [utils.py], lines 63-111 *)

Definition completion_words : list string :=
  ["did"; "completed"; "finished"; "done"; "yes"; "✅"; "✓"].

(** Lines 86-105: the loop over the tasks of the active plans. *)
Definition mark_mentioned (user_lower today : string) (now : Z) (plans : list Plan.t)
    (acc : DatabaseManager * Z) : DatabaseManager * Z :=
  foldl (fun acc plan =>
           foldl (fun acc task =>
                    let task_lower := Py.lower (task_name task) in
                    if bool_decide (today ∈ progress task) then acc
                    else
                      let task_keywords := long_words task_lower in
                      let user_mentioned_task :=
                        existsb (fun keyword => Py.contains keyword user_lower)
                                task_keywords in
                      if user_mentioned_task then
                        let r := update_task_progress acc.1 (Plan.id plan)
                                   (task_name task) today now in
                        (r.1, if r.2 then acc.2 + 1 else acc.2)
                      else acc)
                 acc (Plan.tasks plan))
        acc plans.

(** [process_progress_from_ai_response]: the store afterwards and the
    number of tasks marked. *)
Definition process_progress_from_ai_response (db : DatabaseManager)
    (ai_response user_message today : string) (now : Z) : DatabaseManager * Z :=
  let plans := get_active_plans db in
  match plans with
  | [] => (db, 0)
  | _ :: _ =>
      let user_lower := Py.lower user_message in
      let user_indicates_completion :=
        existsb (fun word => Py.contains word user_lower) completion_words in
      if user_indicates_completion then mark_mentioned user_lower today now plans (db, 0)
      else (db, 0)
  end.

(** ** The trailing analytics window ([database.py], lines 387-454) *)

(** [datetime] formatting.  A day is counted from 1970-01-01; the model
    covers the years 0 to 9999. *)
Module Calendar.
(** Year, month and day of the month of a day. *)
Definition civil (days : Z) : Z * Z * Z :=
  let z := days + 719468 in
  let era := z / 146097 in
  let doe := z - era * 146097 in
  let yoe := (doe - doe / 1460 + doe / 36524 - doe / 146096) / 365 in
  let doy := doe - (365 * yoe + yoe / 4 - yoe / 100) in
  let mp := (5 * doy + 2) / 153 in
  let d := doy - (153 * mp + 2) / 5 + 1 in
  let m := if mp <? 10 then mp + 3 else mp - 9 in
  let y := yoe + era * 400 + (if m <=? 2 then 1 else 0) in
  (y, m, d).

Definition digit (n : Z) : string :=
  String (ascii_of_nat (48 + Z.to_nat (n mod 10))) EmptyString.
Definition two (n : Z) : string := digit (n / 10) +:+ digit n.
Definition four (n : Z) : string := two (n / 100) +:+ two n.

(** [date.strftime("%Y-%m-%d")] *)
Definition strftime_Ymd (days : Z) : string :=
  let '(y, m, d) := civil days in four y +:+ "-" +:+ two m +:+ "-" +:+ two d.

Definition month_abbr (m : nat) : string :=
  nth (m - 1)
      ["Jan"; "Feb"; "Mar"; "Apr"; "May"; "Jun"; "Jul"; "Aug"; "Sep"; "Oct"; "Nov"; "Dec"] "".

Definition number (s : string) : nat :=
  foldl (fun n c => (10 * n + (nat_of_ascii c - 48))%nat) 0%nat (list_ascii_of_string s).

(** [datetime.strptime(date_str, "%Y-%m-%d").strftime("%b %d")] on a
    string that [strftime_Ymd] wrote. *)
Definition display (date_str : string) : string :=
  month_abbr (number (String.substring 5 2 date_str)) +:+ " " +:+ String.substring 8 2 date_str.
End Calendar.

(** One entry of [time_data].  The two fields [time_spent_minutes] and
    [time_spent_seconds] are floating-point functions of [total_words]
    alone and are left out. *)
Module DayEntry.
Record t := mk {
  date : string;
  display_date : string;
  total_words : Z;
  specialist_breakdown : gmap string Z
}.
End DayEntry.

(** [get_specialist_stats]; an empty [specialist_name] is no filter. *)
Definition get_specialist_stats (db : DatabaseManager) (specialist_name : option string)
    : list Stat.t :=
  match specialist_stats_collection db with
  | None => []
  | Some c =>
      match specialist_name with
      | Some n =>
          if bool_decide (n = "") then c
          else List.filter (fun stat => bool_decide (Stat.specialist_name stat = n)) c
      | None => c
      end
  end.

(** Lines 428-448: the entry of one date of the window. *)
Definition day_entry (stats : list Stat.t) (date_str : string) : DayEntry.t :=
  let r :=
    foldl (fun (acc : Z * gmap string Z) specialist_stat =>
             let daily_words := default 0 (Stat.daily_word_counts specialist_stat !! date_str) in
             (acc.1 + daily_words,
              if 0 <? daily_words
              then <[Stat.specialist_name specialist_stat := daily_words]> acc.2
              else acc.2))
          (0, ∅) stats in
  DayEntry.mk date_str (Calendar.display date_str) r.1 r.2.

(** [get_time_spent_last_7_days]; [today] is the day of [datetime.now]. *)
Definition get_time_spent_last_7_days (db : DatabaseManager) (today : Z) : list DayEntry.t :=
  let stats := get_specialist_stats db None in
  match stats with
  | [] => []
  | _ :: _ =>
      let last_7_days := map (fun i => Calendar.strftime_Ymd (today - Z.of_nat i)) (seq 0 7) in
      map (day_entry stats) (rev last_7_days)
  end.

(** ** Day blocks written out in full *)

(** Every character of the string is in the class. *)
Fixpoint all_chars (p : ascii -> bool) (s : string) : bool :=
  match s with
  | EmptyString => true
  | String c s' => p c && all_chars p s'
  end.

(** The string is empty or starts outside the class. *)
Definition stops (p : ascii -> bool) (s : string) : bool :=
  match s with
  | EmptyString => true
  | String c _ => negb (p c)
  end.

(** A day block written out in full: "Day <number>: <text>.<gap>", where
    the number is a non-empty run of digits, the text is non-empty,
    starts with a character that is not white space and holds no full
    stop, and the gap after the full stop is white space: blanks or line
    breaks, or nothing. *)
Record DayBlock := mkBlock { day_num : string; day_text : string; day_gap : string }.

Definition block_ok (b : DayBlock) : bool :=
  match day_num b, day_text b with
  | String _ _, String c _ =>
      all_chars Py.is_digit (day_num b) && negb (Py.is_space c)
      && all_chars (fun c => negb (Ascii.eqb c ".")) (day_text b)
      && all_chars Py.is_space (day_gap b)
  | _, _ => false
  end.

Definition render_block (b : DayBlock) (tail : string) : string :=
  "Day " +:+ day_num b +:+ ": " +:+ day_text b +:+ "." +:+ day_gap b +:+ tail.

Definition render (blocks : list DayBlock) : string := foldr render_block "" blocks.

(** The extractor reports a plan of seven days with nine tasks. *)
Definition seven_days_nine_tasks (ai_response : string) : Prop :=
  exists plan_data tasks,
    extract_daily_tasks_from_response ai_response = (true, plan_data) /\
    PlanData.needs_plan plan_data = Some true /\
    PlanData.timeline_days plan_data = Some 7 /\
    PlanData.tasks plan_data = Some tasks /\ length tasks = 9%nat.

(** ** Sample data *)

Definition sample_plan : Doc.t :=
  Doc.mk default_user "Back Pain Plan" "back pain" 7
         [mkTask "Walk daily" []; mkTask "Stretch" ["2024-01-01"]] true 10 10.

Definition sample_db : DatabaseManager :=
  mkDB (Some {[ "p1" := sample_plan ]}) (Some []).

Definition empty_db : DatabaseManager := mkDB (Some ∅) (Some []).

Definition sample_stats : list Stat.t :=
  [Stat.mk "Ruby" 12 2 19782 {[ "2024-03-01" := 12 ]}].

(** A reply of the language model asking for thirty days. *)
Definition long_reply : PlanData.t :=
  PlanData.mk (Some true) (Some "back pain") (Some "Back Care") (Some 30)
              (Some ["Walk"]) None None None None.

Definition nine_blocks : list DayBlock :=
  [mkBlock "1" "Walk" " "; mkBlock "2" "Stretch" " "; mkBlock "3" "Swim" " ";
   mkBlock "4" "Rest" " "; mkBlock "5" "Yoga" " "; mkBlock "6" "Walk again" " ";
   mkBlock "7" "Stretch again" " "; mkBlock "8" "Swim again" " ";
   mkBlock "9" "Rest again" " "].

(** Nine day blocks, one on each line, with and without a full stop at
    the end of the line. *)
Definition nine_line_blocks : list DayBlock :=
  [mkBlock "1" "Walk" Py.nl; mkBlock "2" "Stretch" Py.nl; mkBlock "3" "Swim" Py.nl;
   mkBlock "4" "Rest" Py.nl; mkBlock "5" "Yoga" Py.nl; mkBlock "6" "Walk again" Py.nl;
   mkBlock "7" "Stretch again" Py.nl; mkBlock "8" "Swim again" Py.nl;
   mkBlock "9" "Rest again" ""].

Definition nine_lines : string :=
  Py.join Py.nl
    ["Day 1: Walk"; "Day 2: Stretch"; "Day 3: Swim"; "Day 4: Rest"; "Day 5: Yoga";
     "Day 6: Walk again"; "Day 7: Stretch again"; "Day 8: Swim again"; "Day 9: Rest again"].

Definition nine_days : string :=
  "Day 1: Walk. Day 2: Stretch. Day 3: Swim. Day 4: Rest. Day 5: Yoga. Day 6: Walk again. Day 7: Stretch again. Day 8: Swim again. Day 9: Rest again. ".

Definition retired_plan : Doc.t :=
  Doc.mk default_user "Neck Care Program" "neck pain" 5 [mkTask "Neck rolls" []] false 3 4.

Definition mixed_db : DatabaseManager :=
  mkDB (Some {[ "p1" := sample_plan; "p2" := retired_plan ]}) (Some []).





(** ** Vocabulary of the properties *)

(** Task by task, the names stay and the dates of [ts] are dates of [ts']. *)
Definition tasks_grow (ts ts' : list TaskProgress) : Prop :=
  Forall2 (fun t t' => task_name t' = task_name t /\ progress t ⊆ progress t') ts ts'.

(** Every plan of [db] is a plan of [db'] whose tasks have grown. *)
Definition completions_grow (db db' : DatabaseManager) : Prop :=
  forall c plan_id d,
    plans_collection db = Some c -> c !! plan_id = Some d ->
    exists c' d', plans_collection db' = Some c' /\ c' !! plan_id = Some d' /\
                  tasks_grow (Doc.tasks d) (Doc.tasks d').

(** A plan is active in the store. *)
Definition is_active (db : DatabaseManager) (plan_id : string) : Prop :=
  exists c d, plans_collection db = Some c /\ c !! plan_id = Some d /\ Doc.active d = true.

(** Every document belongs to the one user the code writes documents for. *)
Definition single_user (db : DatabaseManager) : Prop :=
  forall c plan_id d,
    plans_collection db = Some c -> c !! plan_id = Some d -> Doc.user_id d = default_user.

(** No character of the string is white space. *)
Fixpoint no_space (w : string) : bool :=
  match w with
  | EmptyString => true
  | String c w' => negb (Py.is_space c) && no_space w'
  end.

(** The task is recorded as done on the date. *)
Definition marked (db : DatabaseManager) (plan_id name date : string) : Prop :=
  exists dates, completion_dates db plan_id name = Some dates /\ date ∈ dates.

(** ** Vocabulary of the further properties *)

(** Each task of each stored plan records a date at most once. *)
Definition dates_unique (db : DatabaseManager) : Prop :=
  forall c plan_id d task,
    plans_collection db = Some c -> c !! plan_id = Some d -> task ∈ Doc.tasks d ->
    NoDup (progress task).

(** Every stored plan lasts at most seven days. *)
Definition timelines_capped (db : DatabaseManager) : Prop :=
  forall c plan_id d,
    plans_collection db = Some c -> c !! plan_id = Some d -> Doc.timeline_days d <= 7.

(** The plan [get_active_plans] lists for a document that
    [create_health_plan] has just stored. *)
Definition new_plan (uuid plan_name condition : string) (timeline_days : Z)
    (tasks : list string) (now : Z) : Plan.t :=
  Plan.mk uuid plan_name condition (Z.min timeline_days 7)
          (map (fun task => mkTask task []) tasks) now now.

(** The order [get_active_plans] returns plans in. *)
Definition listed_before (p q : Plan.t) : Prop := Plan.created_at q <= Plan.created_at p.

(** Two versions of a document that differ in the dates of the tasks and
    in [updated_at] at most. *)
Definition same_but_progress (d d' : Doc.t) : Prop :=
  Doc.user_id d' = Doc.user_id d /\ Doc.plan_name d' = Doc.plan_name d /\
  Doc.condition d' = Doc.condition d /\ Doc.timeline_days d' = Doc.timeline_days d /\
  Doc.active d' = Doc.active d /\ Doc.created_at d' = Doc.created_at d /\
  tasks_grow (Doc.tasks d) (Doc.tasks d').

(** The two stores hold the same plans under the same ids, up to the
    dates of the tasks and [updated_at]. *)
Definition same_plans (db db' : DatabaseManager) : Prop :=
  match plans_collection db, plans_collection db' with
  | Some c, Some c' =>
      forall plan_id,
        match c !! plan_id, c' !! plan_id with
        | Some d, Some d' => same_but_progress d d'
        | None, None => True
        | _, _ => False
        end
  | None, None => True
  | _, _ => False
  end.

(** Lines 316-328 of [routes/plans.py]: the plan a request to mark all
    tasks is about. *)
Definition report_target (request : ProgressReportRequest) (plans : list Plan.t)
    : option Plan.t :=
  match specific_plan_condition request with
  | Some target_condition =>
      if bool_decide (target_condition = "")
      then target_by_message (Py.lower (message request)) plans
      else target_by_condition target_condition plans
  | None => target_by_message (Py.lower (message request)) plans
  end.

(** The names of the tasks of a plan that are not done on the date. *)
Definition pending_names (today : string) (p : Plan.t) : list string :=
  map task_name (filter (fun task => today ∉ progress task) (Plan.tasks p)).

(** In every active plan the names of the tasks are distinct. *)
Definition task_names_distinct (db : DatabaseManager) : Prop :=
  forall p, p ∈ get_active_plans db -> NoDup (map task_name (Plan.tasks p)).

(** Lines 120-122 of [plan_generator.py]: the white space of a task text
    is trimmed and collapsed. *)
Definition normalize_spaces (task_content : string) : string :=
  Py.join " " (Py.split (Py.strip task_content)).

(** The string starts with a character that is not white space. *)
Definition starts_word (s : string) : bool :=
  match s with
  | EmptyString => false
  | String c _ => negb (Py.is_space c)
  end.

(** ** The specialist counters ([database.py], lines 334-385) *)

(** Lines 343-376: [find_one] gives the first counter of the specialist,
    which [update_one] replaces; without one [insert_one] appends a new
    counter. *)
Fixpoint count_words (specialist_name : string) (word_count : Z) (today : string) (now : Z)
    (c : list Stat.t) : list Stat.t :=
  match c with
  | [] => [Stat.mk specialist_name word_count 1 now {[today := word_count]}]
  | existing_stats :: c' =>
      if bool_decide (Stat.specialist_name existing_stats = specialist_name) then
        let new_total_words := Stat.total_words_generated existing_stats + word_count in
        let new_total_messages := Stat.total_messages_sent existing_stats + 1 in
        let daily_counts := Stat.daily_word_counts existing_stats in
        let daily_counts :=
          <[today := default 0 (daily_counts !! today) + word_count]> daily_counts in
        Stat.mk (Stat.specialist_name existing_stats) new_total_words new_total_messages now
                daily_counts :: c'
      else existing_stats :: count_words specialist_name word_count today now c'
  end.

(** [update_specialist_word_count]; [today] is the day and [now] the
    instant of [datetime.now]. *)
Definition update_specialist_word_count (db : DatabaseManager)
    (specialist_name message : string) (today now : Z) : DatabaseManager * bool :=
  match specialist_stats_collection db with
  | None => (db, false)
  | Some c =>
      let word_count := Z.of_nat (length (Py.split message)) in
      let today := Calendar.strftime_Ymd today in
      (mkDB (plans_collection db) (Some (count_words specialist_name word_count today now c)),
       true)
  end.

(** ** The chat log and the progress report as a whole *)

(** [store_chat_message] ([database.py], lines 112-164).  The chat
    collection and the counters are set together (lines 59-61); after
    the message is logged, a message of role [ai] with a specialist's
    name is counted for that specialist.  [today] is the day and [now]
    the instant of the clock. *)
Definition store_chat_message (db : DatabaseManager) (message role : string)
    (specialist_name : option string) (today now : Z) : DatabaseManager :=
  match specialist_name with
  | Some specialist_name =>
      if bool_decide (role = "ai") && negb (bool_decide (specialist_name = "")) then
        (update_specialist_word_count db specialist_name message today now).1
      else db
  | None => db
  end.

(** Lines 359-360 of [routes/plans.py]: the lines of the reply that
    name the tasks, numbered from [i]. *)
Fixpoint report_lines (i : nat) (tasks : list string) (response : string) : string :=
  match tasks with
  | [] => response
  | task :: tasks' =>
      report_lines (S i) tasks'
        (response +:+ "✅ " +:+ Py.str i +:+ ". " +:+ Py.take 60 task
         +:+ (if 60 <? Py.len task then "..." else "") +:+ Py.nl)
  end.

(** Lines 356-367: the reply of the route. *)
Definition report_response (updated_tasks : list string) (today : string) : string :=
  match updated_tasks with
  | _ :: _ =>
      let response :=
        "Excellent! I've marked " +:+ Py.str (length updated_tasks)
        +:+ " tasks as completed for today (" +:+ today +:+ "):" +:+ Py.nl +:+ Py.nl in
      let response := report_lines 1 (take 5 updated_tasks) response in
      let response :=
        if (5 <? length updated_tasks)%nat then
          response +:+ "... and " +:+ Py.str (length updated_tasks - 5) +:+ " more tasks!"
          +:+ Py.nl
        else response in
      response +:+ Py.nl +:+ "Fantastic progress! Keep up the excellent work! 💪🎉"
  | [] =>
      "I understand. Remember that consistency is key, and it's okay to have challenging days. Try to do what you can, and don't be too hard on yourself. Tomorrow is a new opportunity! 🌟"
  end.

(** [daily_progress_report] ([routes/plans.py], lines 291-375): the
    store afterwards and [updated_tasks].  [today] is the local date of
    the request and [now] its instant; [utc_today] is the day on which
    the reply is counted for Ruby. *)
Definition daily_progress_report (db : DatabaseManager) (request : ProgressReportRequest)
    (today : string) (now utc_today : Z) : DatabaseManager * list string :=
  let db := store_chat_message db (message request) "user" None utc_today now in
  let r := report_updated_tasks db request today now in
  let updated_tasks := r.2 in
  let response := report_response updated_tasks today in
  (store_chat_message r.1 response "ai" (Some "Ruby") utc_today now, updated_tasks).

(** One call of [update_specialist_word_count]: the specialist, the
    message, the day and the instant. *)
Record Counted := mkCounted {
  counted_specialist : string;
  counted_message : string;
  counted_day : Z;
  counted_at : Z
}.

Definition count_message (db : DatabaseManager) (u : Counted) : DatabaseManager :=
  (update_specialist_word_count db (counted_specialist u) (counted_message u)
                                (counted_day u) (counted_at u)).1.

(** The words of a breakdown by specialist, added up. *)
Definition breakdown_words (m : gmap string Z) : Z :=
  map_fold (fun _ words total => words + total) 0 m.

(** What the counters of a store satisfy: one counter per specialist, no
    negative count of a day, and a total that is the sum of the days. *)
Definition counters_ok (c : list Stat.t) : Prop :=
  NoDup (map Stat.specialist_name c) /\
  forall stat, stat ∈ c ->
    (forall date_str n, Stat.daily_word_counts stat !! date_str = Some n -> 0 <= n) /\
    Stat.total_words_generated stat = breakdown_words (Stat.daily_word_counts stat) /\
    1 <= Stat.total_messages_sent stat.

Definition counters_consistent (db : DatabaseManager) : Prop :=
  forall c, specialist_stats_collection db = Some c -> counters_ok c.

(** ** Progress statistics ([routes/plans.py], lines 104-152) *)

(** The response of [get_plan_progress]; [progress_percentage], a
    floating-point function of [completed_tasks] and [total_tasks], is
    left out.  An entry of [daily_progress] is a date with its
    [completed] and [total]. *)
Module PlanProgress.
Record t := mk {
  plan_id : string;
  plan_name : string;
  condition : string;
  timeline_days : Z;
  total_tasks : Z;
  completed_tasks : Z;
  daily_progress : list (string * (Z * Z))
}.
End PlanProgress.

(** Lines 120-122: one date of one task is counted. *)
Definition count_completion (total_tasks : Z) (daily_progress : gmap string (Z * Z))
    (date : string) : gmap string (Z * Z) :=
  let stats := default (0, total_tasks) (daily_progress !! date) in
  <[date := (stats.1 + 1, stats.2)]> daily_progress.

(** Lines 114-122: the dictionary [daily_progress]. *)
Definition daily_progress_of (tasks : list TaskProgress) : gmap string (Z * Z) :=
  let total_tasks := Z.of_nat (length tasks) in
  foldl (fun daily_progress task =>
           foldl (count_completion total_tasks) daily_progress (progress task))
        ∅ tasks.

(** The order of [sorted(daily_progress.items())]: the dates are the
    keys of a dictionary, so no two items have the same date and the
    order of the strings decides. *)
Definition date_le (a b : string * (Z * Z)) : Prop := String.leb a.1 b.1 = true.

#[global] Instance date_le_dec : RelDecision date_le.
Proof. intros a b. unfold date_le. apply _. Defined.

(** [get_plan_progress]: the response, or the status and the detail of
    the [HTTPException]. *)
Definition get_plan_progress (db : DatabaseManager) (plan_id : string)
    : PlanProgress.t + (Z * string) :=
  let plans := get_active_plans db in
  match List.find (fun p => bool_decide (Plan.id p = plan_id)) plans with
  | None => inr (404, "Plan not found")
  | Some plan =>
      let total_tasks := Z.of_nat (length (Plan.tasks plan)) in
      let tasks_with_progress :=
        Z.of_nat (length (filter (fun task => progress task <> []) (Plan.tasks plan))) in
      let daily_progress_list :=
        merge_sort date_le (map_to_list (daily_progress_of (Plan.tasks plan))) in
      inl (PlanProgress.mk (Plan.id plan) (Plan.plan_name plan) (Plan.condition plan)
                           (Plan.timeline_days plan) total_tasks
                           (if 0 <? total_tasks then tasks_with_progress else 0)
                           daily_progress_list)
  end.

(** The number of tasks done on a date. *)
Definition done_on (date : string) (tasks : list TaskProgress) : Z :=
  Z.of_nat (length (filter (fun task => date ∈ progress task) tasks)).

(** ** The daily check ([routes/plans.py], lines 226-261) *)

(** Lines 237-245: the tasks of the active plans not done today, each
    with the id and the name of its plan. *)
Definition pending_tasks (db : DatabaseManager) (today : string)
    : list (string * string * string) :=
  flat_map (fun plan =>
              map (fun task => (Plan.id plan, Plan.plan_name plan, task_name task))
                  (filter (fun task => today ∉ progress task) (Plan.tasks plan)))
           (get_active_plans db).

(** The three answers of [check_daily_progress]: no active plan
    ([should_ask] false), tasks pending ([should_ask] true, with the
    tasks and the date), all tasks done ([should_ask] false). *)
Inductive DailyCheck :=
| NoActivePlans
| PendingTasks (pending : list (string * string * string)) (date : string)
| AllCompleted.

Definition check_daily_progress (db : DatabaseManager) (today : string) : DailyCheck :=
  match get_active_plans db with
  | [] => NoActivePlans
  | _ :: _ =>
      match pending_tasks db today with
      | [] => AllCompleted
      | _ :: _ => PendingTasks (pending_tasks db today) today
      end
  end.

(** ** Vocabulary of the plan generator *)

(** A plan as it is when just created: an active plan of the user with
    at least one task, no task done, and at most seven days. *)
Definition fresh_plan (d : Doc.t) : Prop :=
  Doc.user_id d = default_user /\ Doc.active d = true /\ Doc.tasks d <> [] /\
  Forall (fun task => progress task = []) (Doc.tasks d) /\ Doc.timeline_days d <= 7.

(** The store [db'] holds every document of [db] as it was, and at most
    one more: a fresh plan under [uuid]. *)
Definition only_adds (uuid : string) (db db' : DatabaseManager) : Prop :=
  specialist_stats_collection db' = specialist_stats_collection db /\
  match plans_collection db, plans_collection db' with
  | Some c, Some c' =>
      forall plan_id,
        c' !! plan_id = c !! plan_id \/
        (plan_id = uuid /\ c !! plan_id = None /\
         exists d, c' !! plan_id = Some d /\ fresh_plan d)
  | None, None => True
  | _, _ => False
  end.

(** ** The dashboard ([routes/plans.py], lines 169-221) *)

(** One entry of [recent_activity]; its [type] is always
    ["task_completed"]. *)
Module Activity.
Record t := mk {
  date : string;
  plan_name : string;
  task_name : string
}.
End Activity.

(** The summary; [overall_progress], a rounded floating-point function
    of [completed_tasks] and [total_tasks], is left out. *)
Module Dashboard.
Record t := mk {
  total_active_plans : Z;
  total_tasks : Z;
  completed_tasks : Z;
  recent_activity : list Activity.t
}.
End Dashboard.

(** [l[-3:]] *)
Definition last3 {A} (l : list A) : list A := drop (length l - 3) l.

(** Lines 196-203: the last three completions of each task of a plan. *)
Definition plan_activity (plan : Plan.t) : list Activity.t :=
  flat_map (fun task =>
              map (fun date => Activity.mk date (Plan.plan_name plan) (task_name task))
                  (last3 (progress task)))
           (Plan.tasks plan).

(** [recent_activity.sort(key=lambda x: x["date"], reverse=True)]: the
    sort is stable, so an entry goes before the entries after it that
    are not more recent. *)
Fixpoint insert_recent (x : Activity.t) (l : list Activity.t) : list Activity.t :=
  match l with
  | [] => [x]
  | y :: l' =>
      if String.ltb (Activity.date x) (Activity.date y) then y :: insert_recent x l'
      else x :: y :: l'
  end.

Definition sort_recent (l : list Activity.t) : list Activity.t := foldr insert_recent [] l.

(** [get_dashboard_summary] *)
Definition get_dashboard_summary (db : DatabaseManager) : Dashboard.t :=
  let plans := get_active_plans db in
  match plans with
  | [] => Dashboard.mk 0 0 0 []
  | _ :: _ =>
      let total_tasks :=
        foldl (fun total plan => total + Z.of_nat (length (Plan.tasks plan))) 0 plans in
      let completed_tasks :=
        foldl (fun completed plan =>
                 completed
                 + Z.of_nat (length (filter (fun task => progress task <> []) (Plan.tasks plan))))
              0 plans in
      let recent_activity := flat_map plan_activity plans in
      Dashboard.mk (Z.of_nat (length plans)) total_tasks completed_tasks
                   (take 10 (sort_recent recent_activity))
  end.

(** An entry is at least as recent as another. *)
Definition not_older (a b : Activity.t) : Prop :=
  String.leb (Activity.date b) (Activity.date a) = true.

(** ** The weekly summary ([routes/analytics.py], lines 22-49) *)

(** The summary of [get_time_spent_analytics]; [total_time_minutes] and
    [average_daily_time_minutes], sums and quotients of floating-point
    numbers, are left out. *)
Module TimeSummary.
Record t := mk {
  total_words_generated : Z;
  days_with_activity : Z;
  specialist_word_totals : gmap string Z
}.
End TimeSummary.

(** Line 36: the words of a specialist on one day are added to the
    specialist's total. *)
Definition add_words (specialist : string) (words : Z) (specialist_totals : gmap string Z)
    : gmap string Z :=
  <[specialist := default 0 (specialist_totals !! specialist) + words]> specialist_totals.

(** [get_time_spent_analytics]: [daily_time_data] and the summary. *)
Definition get_time_spent_analytics (db : DatabaseManager) (today : Z)
    : list DayEntry.t * TimeSummary.t :=
  let time_data := get_time_spent_last_7_days db today in
  let total_words := foldl (fun total day => total + DayEntry.total_words day) 0 time_data in
  let specialist_totals :=
    foldl (fun specialist_totals day =>
             map_fold add_words specialist_totals (DayEntry.specialist_breakdown day))
          ∅ time_data in
  (time_data,
   TimeSummary.mk total_words
                  (Z.of_nat (length (filter (fun d => 0 < DayEntry.total_words d) time_data)))
                  specialist_totals).

(** A plan is stored and not active. *)
Definition is_inactive (db : DatabaseManager) (plan_id : string) : Prop :=
  exists c d, plans_collection db = Some c /\ c !! plan_id = Some d /\ Doc.active d = false.

(** * Properties *)

(** ** The completion list of one plan *)



Lemma tasks_grow_refl ts : tasks_grow ts ts.
Proof. apply Forall2_same_length_lookup_2; [done|]. intros i x y Hx Hy. by simplify_eq. Qed.

Lemma tasks_grow_trans ts1 ts2 ts3 :
  tasks_grow ts1 ts2 -> tasks_grow ts2 ts3 -> tasks_grow ts1 ts3.
Proof.
  intros H. revert ts3. induction H as [|t1 t2 l1 l2 [Hn Hp] _ IH]; intros ts3 H23.
  - inversion H23. constructor.
  - inversion H23 as [|? t3 ? l3 [Hn' Hp'] Hrest]; subst.
    constructor; [|by apply IH]. split; [congruence|]. by etrans.
Qed.

Lemma completions_grow_refl db : completions_grow db db.
Proof. intros c pid d Hc Hd. exists c, d. auto using tasks_grow_refl. Qed.

Lemma completions_grow_trans db1 db2 db3 :
  completions_grow db1 db2 -> completions_grow db2 db3 -> completions_grow db1 db3.
Proof.
  intros H12 H23 c pid d Hc Hd.
  destruct (H12 _ _ _ Hc Hd) as (c2 & d2 & Hc2 & Hd2 & Hg).
  destruct (H23 _ _ _ Hc2 Hd2) as (c3 & d3 & Hc3 & Hd3 & Hg').
  exists c3, d3. eauto using tasks_grow_trans.
Qed.

Lemma mark_first_grows name date ts : tasks_grow ts (mark_first name date ts).
Proof.
  induction ts as [|t ts IH]; simpl; [constructor|].
  case_bool_decide.
  - constructor; [|apply tasks_grow_refl].
    case_bool_decide; simpl; [done|]. split; [done|]. set_solver.
  - constructor; [done|apply IH].
Qed.

Lemma find_task_mark_first name date ts task :
  find_task name ts = Some task ->
  find_task name (mark_first name date ts) =
    Some (if bool_decide (date ∈ progress task) then task
          else mkTask (task_name task) (progress task ++ [date])).
Proof.
  unfold find_task. induction ts as [|t ts IH]; simpl; [done|].
  destruct (bool_decide (task_name t = name)) eqn:Ht; simpl.
  - intros [= ->]. destruct (bool_decide (date ∈ progress task)); simpl; by rewrite Ht.
  - rewrite Ht. apply IH.
Qed.

Lemma find_task_mark_first_None name date ts :
  find_task name ts = None -> mark_first name date ts = ts.
Proof.
  unfold find_task. induction ts as [|t ts IH]; simpl; [done|].
  destruct (bool_decide (task_name t = name)); [done|]. intros H. by rewrite IH.
Qed.

Lemma find_task_mark_first_ne name name' date ts :
  name' <> name -> find_task name' (mark_first name date ts) = find_task name' ts.
Proof.
  intros Hne. unfold find_task. induction ts as [|t ts IH]; simpl; [done|].
  destruct (bool_decide (task_name t = name)) eqn:Ht; simpl.
  - apply bool_decide_eq_true in Ht.
    destruct (bool_decide (date ∈ progress t)); simpl;
      rewrite bool_decide_eq_false_2; congruence.
  - by rewrite IH.
Qed.

Lemma find_one_Some c plan_id d :
  find_one c plan_id = Some d <-> c !! plan_id = Some d /\ Doc.user_id d = default_user.
Proof.
  unfold find_one. destruct (c !! plan_id) as [d'|]; [|split; [done|intros [? _]; done]].
  destruct (decide (Doc.user_id d' = default_user)) as [Hu|Hu].
  - rewrite bool_decide_eq_true_2 by done. split; [intros [= ->]; done|intros [[= ->] _]; done].
  - rewrite bool_decide_eq_false_2 by done. split; [done|intros [[= ->] ?]; done].
Qed.

Lemma find_one_alter_set_tasks c plan_id ts now plan :
  find_one c plan_id = Some plan ->
  find_one (alter (Doc.set_tasks ts now) plan_id c) plan_id = Some (Doc.set_tasks ts now plan).
Proof.
  intros [Hc Hu]%find_one_Some. apply find_one_Some.
  rewrite lookup_alter_eq, Hc. done.
Qed.

Lemma find_one_alter_ne c plan_id plan_id' f :
  plan_id' <> plan_id -> find_one (alter f plan_id c) plan_id' = find_one c plan_id'.
Proof. intros Hne. unfold find_one. by rewrite lookup_alter_ne. Qed.

(** ** [update_task_progress] *)

Lemma update_task_progress_found db c plan_id name date now plan :
  plans_collection db = Some c -> find_one c plan_id = Some plan ->
  update_task_progress db plan_id name date now =
    (with_plans db (alter (Doc.set_tasks (mark_first name date (Doc.tasks plan)) now) plan_id c),
     true).
Proof. intros Hc Hp. unfold update_task_progress. by rewrite Hc, Hp. Qed.

Lemma update_task_progress_missing db plan_id name date now :
  (forall c, plans_collection db = Some c -> find_one c plan_id = None) ->
  update_task_progress db plan_id name date now = (db, false).
Proof.
  intros H. unfold update_task_progress.
  destruct (plans_collection db) as [c|]; [|done]. by rewrite (H c).
Qed.

(** What the call returns is decided by the plan alone. *)
Lemma update_task_progress_result db plan_id name date now :
  (update_task_progress db plan_id name date now).2 = true <->
  exists c plan, plans_collection db = Some c /\ find_one c plan_id = Some plan.
Proof.
  unfold update_task_progress.
  destruct (plans_collection db) as [c|]; simpl; [|split; [done|intros (?&?&?&?); done]].
  destruct (find_one c plan_id) as [plan|] eqn:Hp; simpl.
  - split; [eauto|done].
  - split; [done|]. intros (c' & plan & [= <-] & ?). congruence.
Qed.

Lemma completion_dates_update db plan_id name date now old :
  completion_dates db plan_id name = Some old ->
  completion_dates (update_task_progress db plan_id name date now).1 plan_id name =
    Some (if bool_decide (date ∈ old) then old else old ++ [date]).
Proof.
  unfold completion_dates. intros H.
  destruct (plans_collection db) as [c|] eqn:Hc; simpl in H; [|done].
  destruct (find_one c plan_id) as [plan|] eqn:Hp; simpl in H; [|done].
  destruct (find_task name (Doc.tasks plan)) as [task|] eqn:Ht; simpl in H; [|done].
  injection H as <-.
  rewrite (update_task_progress_found _ _ _ _ _ _ _ Hc Hp). simpl.
  rewrite (find_one_alter_set_tasks _ _ _ _ _ Hp). simpl.
  rewrite (find_task_mark_first _ _ _ _ Ht). simpl.
  by destruct (bool_decide (date ∈ progress task)).
Qed.

Lemma completion_dates_update_ne db plan_id name date now plan_id' name' :
  plan_id' <> plan_id \/ name' <> name ->
  completion_dates (update_task_progress db plan_id name date now).1 plan_id' name' =
    completion_dates db plan_id' name'.
Proof.
  intros Hne. unfold completion_dates, update_task_progress.
  destruct (plans_collection db) as [c|] eqn:Hc; simpl; [|by rewrite Hc].
  destruct (find_one c plan_id) as [plan|] eqn:Hp; simpl; [|by rewrite Hc].
  destruct (decide (plan_id' = plan_id)) as [->|Hid].
  - destruct Hne as [|Hname]; [done|].
    rewrite (find_one_alter_set_tasks _ _ _ _ _ Hp), Hp. simpl.
    by rewrite find_task_mark_first_ne.
  - by rewrite find_one_alter_ne.
Qed.

(** C1. Marking the same task of the same plan complete for the same
    date twice: both calls return [True], and the dates recorded for the
    task after the second call are the list recorded after the first (the
    same elements, the same length), which holds the date. *)
Theorem update_task_progress_idempotent db plan_id name date now1 now2 old :
  completion_dates db plan_id name = Some old ->
  let r1 := update_task_progress db plan_id name date now1 in
  let r2 := update_task_progress r1.1 plan_id name date now2 in
  r1.2 = true /\ r2.2 = true /\
  exists dates,
    completion_dates r1.1 plan_id name = Some dates /\
    completion_dates r2.1 plan_id name = Some dates /\
    date ∈ dates.
Proof.
  intros Hold r1 r2.
  pose proof (completion_dates_update db plan_id name date now1 old Hold) as H1.
  fold r1 in H1.
  set (dates := if bool_decide (date ∈ old) then old else old ++ [date]) in H1.
  assert (Hin : date ∈ dates).
  { unfold dates. case_bool_decide; [done|]. set_solver. }
  pose proof (completion_dates_update r1.1 plan_id name date now2 dates H1) as H2.
  fold r2 in H2. rewrite bool_decide_eq_true_2 in H2 by done.
  assert (Hres : forall db' now l, completion_dates db' plan_id name = Some l ->
                   (update_task_progress db' plan_id name date now).2 = true).
  { intros db' now l Hl. apply update_task_progress_result.
    unfold completion_dates in Hl.
    destruct (plans_collection db') as [c|]; simpl in Hl; [|done].
    destruct (find_one c plan_id) as [plan|] eqn:Hp; simpl in Hl; [|done].
    exists c, plan. auto. }
  split; [exact (Hres db now1 old Hold)|].
  split; [exact (Hres r1.1 now2 dates H1)|].
  exists dates. auto.
Qed.

Lemma update_task_progress_idempotent_witness :
  let r1 := update_task_progress sample_db "p1" "Walk daily" "2024-01-02" 11 in
  let r2 := update_task_progress r1.1 "p1" "Walk daily" "2024-01-02" 12 in
  r1.2 = true /\ r2.2 = true /\
  exists dates,
    completion_dates r1.1 "p1" "Walk daily" = Some dates /\
    completion_dates r2.1 "p1" "Walk daily" = Some dates /\
    "2024-01-02" ∈ dates.
Proof.
  apply (update_task_progress_idempotent sample_db "p1" "Walk daily" "2024-01-02" 11 12 []).
  reflexivity.
Defined.

(** ** Completion dates are never removed *)

Lemma update_task_progress_grows db plan_id name date now :
  completions_grow db (update_task_progress db plan_id name date now).1.
Proof.
  unfold update_task_progress.
  destruct (plans_collection db) as [c|] eqn:Hc; simpl; [|apply completions_grow_refl].
  destruct (find_one c plan_id) as [plan|] eqn:Hp; simpl; [|apply completions_grow_refl].
  intros c0 pid d Hc0 Hd. rewrite Hc in Hc0. injection Hc0 as <-.
  destruct (decide (pid = plan_id)) as [->|Hne].
  - apply find_one_Some in Hp as [Hp _]. rewrite Hp in Hd. injection Hd as <-.
    eexists _, _. split; [reflexivity|].
    rewrite lookup_alter_eq, Hp. simpl. split; [reflexivity|]. apply mark_first_grows.
  - exists (alter (Doc.set_tasks (mark_first name date (Doc.tasks plan)) now) plan_id c), d.
    rewrite lookup_alter_ne by done. auto using tasks_grow_refl.
Qed.

Lemma deactivate_plan_grows db plan_id now :
  completions_grow db (deactivate_plan db plan_id now).1.
Proof.
  unfold deactivate_plan.
  destruct (plans_collection db) as [c|] eqn:Hc; simpl; [|apply completions_grow_refl].
  destruct (find_one c plan_id) as [plan|] eqn:Hp; simpl; [|apply completions_grow_refl].
  intros c0 pid d Hc0 Hd. rewrite Hc in Hc0. injection Hc0 as <-.
  destruct (decide (pid = plan_id)) as [->|Hne].
  - apply find_one_Some in Hp as [Hp _]. rewrite Hp in Hd. injection Hd as <-.
    eexists _, _. split; [reflexivity|].
    rewrite lookup_insert_eq. split; [reflexivity|]. apply tasks_grow_refl.
  - exists (<[plan_id := Doc.set_inactive now plan]> c), d.
    rewrite lookup_insert_ne by done. auto using tasks_grow_refl.
Qed.

Lemma create_health_plan_grows db plan_name condition timeline_days tasks uuid1 uuid2 now :
  completions_grow db
    (create_health_plan db plan_name condition timeline_days tasks uuid1 uuid2 now).1.
Proof.
  unfold create_health_plan.
  destruct (plans_collection db) as [c|] eqn:Hc; simpl; [|apply completions_grow_refl].
  destruct (c !! uuid1) as [d1|] eqn:Hu; simpl; [apply completions_grow_refl|].
  intros c0 pid d Hc0 Hd. rewrite Hc in Hc0. injection Hc0 as <-.
  eexists _, d. split; [reflexivity|].
  rewrite lookup_insert_ne by congruence. auto using tasks_grow_refl.
Qed.

Lemma run_grows db op : completions_grow db (run db op).
Proof.
  destruct op as [[| |] now]; simpl;
    auto using create_health_plan_grows, update_task_progress_grows, deactivate_plan_grows.
Qed.

(** C10. Whatever operations of the store run, one after the other
    ([create_health_plan], [update_task_progress], [deactivate_plan]),
    every plan present before is present afterwards with the same tasks,
    and each task keeps every completion date it had. *)
Theorem completion_dates_only_grow (ops : list (Op * Z)) (db : DatabaseManager) :
  completions_grow db (foldl run db ops).
Proof.
  revert db. induction ops as [|op ops IH]; intros db; simpl.
  - apply completions_grow_refl.
  - eapply completions_grow_trans; [apply run_grows|apply IH].
Qed.

(** ** What [update_task_progress] returns *)

(** C2. A plan that exists but has no task of the given name: the call
    returns [True] all the same, and records nothing. *)
Theorem update_task_progress_unknown_task :
  find_one {[ "p1" := sample_plan ]} "p1" = Some sample_plan /\
  find_task "Swim" (Doc.tasks sample_plan) = None /\
  update_task_progress sample_db "p1" "Swim" "2024-01-02" 11 =
    (mkDB (Some {[ "p1" := Doc.set_tasks (Doc.tasks sample_plan) 11 sample_plan ]}) (Some []),
     true).
Proof. vm_compute. auto. Qed.

(** An unknown plan id, on the other hand, returns [False]. *)
Lemma update_task_progress_unknown_plan db plan_id name date now c :
  plans_collection db = Some c -> find_one c plan_id = None ->
  update_task_progress db plan_id name date now = (db, false).
Proof. intros Hc Hp. unfold update_task_progress. by rewrite Hc, Hp. Qed.

(** ** The ceiling on [timeline_days] *)

Lemma stored_timeline_create db c plan_name condition t tasks uuid1 uuid2 now :
  plans_collection db = Some c -> c !! uuid1 = None ->
  let r := create_health_plan db plan_name condition t tasks uuid1 uuid2 now in
  r.2 = uuid1 /\ stored_timeline r.1 uuid1 = Some (Z.min t 7).
Proof.
  intros Hc Hu. unfold create_health_plan. rewrite Hc, Hu. simpl.
  split; [done|]. unfold stored_timeline. simpl. by rewrite lookup_insert_eq.
Qed.

Lemma stored_timeline_create_and_store db c plan_data uuid1 uuid2 now id :
  plans_collection db = Some c -> c !! uuid1 = None ->
  let r := create_and_store_plan db plan_data uuid1 uuid2 now in
  r.2 = Some id ->
  stored_timeline r.1 id = Some (Z.min (default 7 (PlanData.timeline_days plan_data)) 7).
Proof.
  intros Hc Hu. unfold create_and_store_plan.
  destruct (negb _); simpl; [done|].
  destruct (default [] (PlanData.tasks plan_data)) as [|task tasks]; simpl; [done|].
  match goal with |- context [create_health_plan ?a ?b ?d ?e ?f ?g ?h ?i] =>
    destruct (stored_timeline_create a c b d e f g h i Hc Hu) as [Hid Hst] end.
  intros [= <-]. rewrite Hid, Hst. f_equal. lia.
Qed.

Lemma extract_timeline ai_response :
  (extract_daily_tasks_from_response ai_response).1 = true ->
  exists n tasks,
    (1 <= n)%nat /\ length tasks = n /\
    PlanData.needs_plan (extract_daily_tasks_from_response ai_response).2 = Some true /\
    PlanData.error (extract_daily_tasks_from_response ai_response).2 = None /\
    PlanData.tasks (extract_daily_tasks_from_response ai_response).2 = Some tasks /\
    PlanData.timeline_days (extract_daily_tasks_from_response ai_response).2 =
      Some (Z.min (Z.of_nat n) 7).
Proof.
  unfold extract_daily_tasks_from_response.
  destruct (Re.findall day_pattern ai_response) as [|m ms]; simpl; [done|].
  intros _. eexists (S (length ms)), _. repeat split; try reflexivity; try lia.
  simpl. by rewrite length_map.
Qed.

(** C3, counterexample.  A plan created with [timeline_days = 0], directly
    or from a reply of the language model that says so, is stored with
    0 days. *)
Lemma timeline_days_below_one :
  (exists t,
     stored_timeline
       (create_health_plan empty_db "Rest" "stress" 0 ["Breathe"] "u1" "u2" 5).1 "u1" = Some t /\
     ~ (1 <= t <= 7)) /\
  (exists t,
     stored_timeline
       (create_and_store_plan empty_db
          (PlanData.mk (Some true) (Some "stress") (Some "Rest") (Some (-2))
                       (Some ["Breathe"]) None None None None) "u1" "u2" 5).1 "u1" = Some t /\
     ~ (1 <= t <= 7)).
Proof. split; [exists 0|exists (-2)]; (split; [vm_compute; reflexivity|lia]). Qed.

(** C3, as the code has it.  A plan that is stored carries
    [min(timeline_days, 7)]: at most 7 for every integer supplied, and
    within 1..7 whenever the integer supplied is at least 1.  This holds
    for direct creation, for [create_and_store_plan] on any plan data (7
    when the data names no timeline), and a plan stored from the
    day-pattern extractor is always within 1..7. *)
Theorem timeline_days_capped db c uuid1 uuid2 now :
  plans_collection db = Some c -> c !! uuid1 = None ->
  (forall plan_name condition t tasks,
     let r := create_health_plan db plan_name condition t tasks uuid1 uuid2 now in
     exists s, stored_timeline r.1 r.2 = Some s /\ s = Z.min t 7 /\ s <= 7 /\
               (1 <= t -> 1 <= s)) /\
  (forall plan_data id,
     let r := create_and_store_plan db plan_data uuid1 uuid2 now in
     r.2 = Some id ->
     exists s, stored_timeline r.1 id = Some s /\
               s = Z.min (default 7 (PlanData.timeline_days plan_data)) 7 /\ s <= 7 /\
               (1 <= default 7 (PlanData.timeline_days plan_data) -> 1 <= s)) /\
  (forall ai_response,
     let e := extract_daily_tasks_from_response ai_response in
     e.1 = true ->
     let r := create_and_store_plan db e.2 uuid1 uuid2 now in
     exists id s, r.2 = Some id /\ stored_timeline r.1 id = Some s /\ 1 <= s <= 7).
Proof.
  intros Hc Hu. split; [|split].
  - intros plan_name condition t tasks r.
    destruct (stored_timeline_create db c plan_name condition t tasks uuid1 uuid2 now Hc Hu)
      as [Hid Hst].
    exists (Z.min t 7). subst r. rewrite Hid. repeat split; [done|lia|lia].
  - intros plan_data id r Hr. eexists. split.
    + by eapply stored_timeline_create_and_store.
    + lia.
  - intros ai_response e He r.
    destruct (extract_timeline ai_response He) as (n & tasks & Hn & Hlen & Hneeds & _ & Htasks & Ht).
    fold e in Hneeds, Htasks, Ht.
    assert (Hr : r.2 = Some uuid1).
    { subst r. unfold create_and_store_plan. rewrite Hneeds, Htasks. simpl.
      destruct tasks as [|task tasks]; [simpl in Hlen; lia|]. simpl.
      unfold create_health_plan. by rewrite Hc, Hu. }
    exists uuid1, (Z.min (Z.of_nat n) 7). split; [done|]. split; [|lia].
    subst r. erewrite stored_timeline_create_and_store by eassumption.
    rewrite Ht. simpl. f_equal. lia.
Qed.

Lemma timeline_days_capped_witness :
  (exists s,
     stored_timeline (create_health_plan empty_db "Rest" "stress" 9 ["Breathe"] "u1" "u2" 5).1
       "u1" = Some s /\ s = 7) /\
  (exists id s,
     (create_and_store_plan empty_db (extract_daily_tasks_from_response nine_days).2
        "u1" "u2" 5).2 = Some id /\
     stored_timeline
       (create_and_store_plan empty_db (extract_daily_tasks_from_response nine_days).2
          "u1" "u2" 5).1 id = Some s /\
     1 <= s <= 7).
Proof.
  destruct (timeline_days_capped empty_db ∅ "u1" "u2" 5) as (Hdirect & _ & Hday);
    [reflexivity|reflexivity|].
  split.
  - destruct (Hdirect "Rest" "stress" 9 ["Breathe"]) as (s & Hs & Heq & _).
    exists s. split; [exact Hs|]. rewrite Heq. reflexivity.
  - apply (Hday nine_days). vm_compute. reflexivity.
Defined.

(** ** [timeline_days] in the result of the two extractors *)

(** C4, counterexample.  A reply of the language model whose JSON asks
    for thirty days comes back from [analyze_for_plan_generation] as it
    is: [needs_plan] is true and [timeline_days] is 30. *)
Lemma analyze_for_plan_generation_uncapped :
  exists plan_data t,
    analyze_for_plan_generation (JsonObject long_reply) = (true, plan_data) /\
    PlanData.timeline_days plan_data = Some t /\ ~ (t <= 7).
Proof. exists long_reply, 30. repeat split. lia. Qed.

(** C4, as the code has it.  The day-pattern path never reports more than
    7 days (and never fewer than 1) when it reports a plan.  The
    language-model path hands on the decoded JSON object unchanged, its
    [timeline_days] included; that value is cut down to 7 only when
    [create_and_store_plan] stores the plan. *)
Theorem extraction_timeline_days :
  (forall ai_response,
     let e := extract_daily_tasks_from_response ai_response in
     e.1 = true -> exists t, PlanData.timeline_days e.2 = Some t /\ 1 <= t <= 7) /\
  (forall plan_data,
     analyze_for_plan_generation (JsonObject plan_data) =
       (default false (PlanData.needs_plan plan_data), plan_data)) /\
  (forall db c plan_data uuid1 uuid2 now id,
     plans_collection db = Some c -> c !! uuid1 = None ->
     (create_and_store_plan db plan_data uuid1 uuid2 now).2 = Some id ->
     exists s, stored_timeline (create_and_store_plan db plan_data uuid1 uuid2 now).1 id = Some s /\
               s <= 7).
Proof.
  split; [|split].
  - intros ai_response e He.
    destruct (extract_timeline ai_response He) as (n & tasks & Hn & _ & _ & _ & _ & Ht).
    exists (Z.min (Z.of_nat n) 7). split; [done|lia].
  - done.
  - intros db c plan_data uuid1 uuid2 now id Hc Hu Hid. eexists. split.
    + by eapply stored_timeline_create_and_store.
    + lia.
Qed.

Lemma extraction_timeline_days_witness :
  (exists t,
     PlanData.timeline_days (extract_daily_tasks_from_response nine_days).2 = Some t /\
     1 <= t <= 7) /\
  (exists s,
     stored_timeline (create_and_store_plan empty_db long_reply "u1" "u2" 5).1 "u1" = Some s /\
     s <= 7).
Proof.
  destruct extraction_timeline_days as (Hday & _ & Hstore). split.
  - apply (Hday nine_days). vm_compute. reflexivity.
  - apply (Hstore empty_db ∅ long_reply "u1" "u2" 5 "u1"); reflexivity.
Defined.

(** ** The day pattern on day blocks written out in full *)

Lemma append_cons a w s : String a w +:+ s = String a (w +:+ s).
Proof. reflexivity. Qed.

Lemma append_nil s : "" +:+ s = s.
Proof. reflexivity. Qed.

Lemma rmatch_cls p c s n cs k :
  p c = true -> Re.rmatch (Re.Cls p) (Re.mkSt n (String c s) cs) k = k (Re.mkSt (S n) s cs).
Proof. intros H. simpl. by rewrite H. Qed.

Lemma star_loop_cls_max p k w : forall s n cs fuel r,
  (String.length w <= fuel)%nat -> all_chars p w = true -> stops p s = true ->
  k (Re.mkSt (String.length w + n) s cs) = Some r ->
  Re.star_loop (Re.rmatch (Re.Cls p)) k fuel (Re.mkSt n (w +:+ s) cs) = Some r.
Proof.
  induction w as [|a w IH]; intros s n cs fuel r Hfuel Hall Hstop Hk.
  - simpl in Hk. rewrite append_nil.
    destruct fuel as [|fuel]; simpl; [done|].
    destruct s as [|c s]; simpl; [done|]. simpl in Hstop.
    apply negb_true_iff in Hstop. by rewrite Hstop.
  - simpl in Hall. apply andb_true_iff in Hall as [Ha Hall].
    destruct fuel as [|fuel]; [simpl in Hfuel; lia|].
    cbn [Re.star_loop]. rewrite append_cons, rmatch_cls by done. cbn [Re.pos].
    assert (Hlt : (n <? S n)%nat = true) by (apply Nat.ltb_lt; lia). rewrite Hlt.
    rewrite (IH s (S n) cs fuel r); [done|simpl in Hfuel; lia|done|done|].
    simpl in Hk. by rewrite Nat.add_succ_r.
Qed.

Lemma length_append (a b : string) : String.length (a +:+ b) = (String.length a + String.length b)%nat.
Proof. induction a; simpl; [done|]. by rewrite IHa. Qed.

Lemma rmatch_star_cls_max p k w s n cs r :
  all_chars p w = true -> stops p s = true ->
  k (Re.mkSt (String.length w + n) s cs) = Some r ->
  Re.rmatch (Re.Star (Re.Cls p)) (Re.mkSt n (w +:+ s) cs) k = Some r.
Proof.
  intros Hall Hstop Hk. cbn [Re.rmatch Re.rest]. apply star_loop_cls_max; try done.
  rewrite length_append. lia.
Qed.

Lemma star_loop_Some body fuel st : exists st', Re.star_loop body Some fuel st = Some st'.
Proof.
  revert st. induction fuel as [|fuel IH]; intros st; simpl; [eauto|].
  match goal with |- context [body st ?f] => destruct (body st f) end; eauto.
Qed.

Lemma star_loop_cls_Some p fuel st :
  exists st', Re.star_loop (Re.rmatch (Re.Cls p)) Some fuel st = Some st' /\
              Re.caps st' = Re.caps st.
Proof.
  revert st. induction fuel as [|fuel IH]; intros st; cbn [Re.star_loop]; [eauto|].
  destruct st as [n s cs]. destruct s as [|c s]; [simpl; eauto|].
  destruct (p c) eqn:Hc.
  - rewrite rmatch_cls by done. cbn [Re.pos].
    assert (Hlt : (n <? S n)%nat = true) by (apply Nat.ltb_lt; lia). rewrite Hlt.
    destruct (IH (Re.mkSt (S n) s cs)) as (st' & -> & Hcaps). eauto.
  - simpl. rewrite Hc. eauto.
Qed.

Lemma rmatch_seq r1 r2 st k :
  Re.rmatch (Re.Seq r1 r2) st k = Re.rmatch r1 st (fun st1 => Re.rmatch r2 st1 k).
Proof. reflexivity. Qed.

Lemma rmatch_cat_cons r rs st k :
  Re.rmatch (Re.cat (r :: rs)) st k = Re.rmatch r st (fun st1 => Re.rmatch (Re.cat rs) st1 k).
Proof. reflexivity. Qed.

Lemma rmatch_cat_nil st k : Re.rmatch (Re.cat []) st k = k st.
Proof. reflexivity. Qed.

Lemma rmatch_grp g r st k :
  Re.rmatch (Re.Grp g r) st k =
  Re.rmatch r st (fun st1 => k (Re.mkSt (Re.pos st1) (Re.rest st1)
                                   ((g, (Re.pos st, Re.pos st1)) :: Re.caps st1))).
Proof. reflexivity. Qed.

Lemma rmatch_alt_left r1 r2 st k res :
  Re.rmatch r1 st k = Some res -> Re.rmatch (Re.Alt r1 r2) st k = Some res.
Proof. intros H. cbn [Re.rmatch]. by rewrite H. Qed.

Lemma rmatch_ahead r st k st1 :
  Re.rmatch r st Some = Some st1 ->
  Re.rmatch (Re.Ahead r) st k = k (Re.mkSt (Re.pos st) (Re.rest st) (Re.caps st1)).
Proof. intros H. cbn [Re.rmatch]. by rewrite H. Qed.

Lemma digit_not_space c : Py.is_digit c = true -> Py.is_space c = false.
Proof. destruct c as [[] [] [] [] [] [] [] []]; simpl; done. Qed.

Ltac re_step :=
  first [ rewrite rmatch_cat_cons | rewrite rmatch_cat_nil | rewrite rmatch_seq
        | rewrite rmatch_grp | rewrite rmatch_cls by (reflexivity || assumption) ];
  cbv beta; cbn [Re.pos Re.rest Re.caps String.length Nat.add].

Ltac re_star w :=
  eapply (rmatch_star_cls_max _ _ w); [reflexivity || assumption|try reflexivity|];
  cbv beta; cbn [Re.pos Re.rest Re.caps String.length Nat.add].

(** The look-ahead that closes a day block succeeds in front of the
    next block and at the end of the text. *)
Lemma lookahead_next_block bs n cs :
  forallb block_ok bs = true ->
  exists st1,
    Re.rmatch (Re.Alt (Re.cat [Re.lit_i "Day"; Re.Star Re.space; Re.Plus Re.digit]) Re.Eol)
      (Re.mkSt n (render bs) cs) Some = Some st1 /\
    Re.caps st1 = cs.
Proof.
  intros Hbs. destruct bs as [|[num text gap] bs]; [by eexists|].
  simpl in Hbs. apply andb_true_iff in Hbs as [Hb _]. unfold block_ok in Hb. simpl in Hb.
  destruct num as [|d num]; [done|]. destruct text as [|t0 text]; [done|].
  apply andb_true_iff in Hb as [Hb _]. apply andb_true_iff in Hb as [Hb _].
  apply andb_true_iff in Hb as [Hnum _].
  simpl in Hnum. apply andb_true_iff in Hnum as [Hd Hnum].
  unfold render. simpl foldr. unfold render_block at 1. simpl day_num. simpl day_text.
  rewrite !append_cons, !append_nil.
  match goal with |- context [Re.mkSt _ (String _ (String _ (String _ (String _ (String _ ?s))))) _] =>
    destruct (star_loop_cls_Some Py.is_digit (String.length s)
                (Re.mkSt (S (S (S (S (S n))))) s cs)) as (st1 & Hst1 & Hcaps) end.
  simpl in Hcaps. exists st1. split; [|done]. apply rmatch_alt_left.
  unfold Re.lit_i, Re.chr_i, Re.space, Re.digit, Re.Plus. cbn [map list_ascii_of_string].
  repeat re_step.
  re_star " ".
  - simpl. by rewrite digit_not_space.
  - repeat re_step. exact Hst1.
Qed.
Lemma rmatch_ahead_next_block bs n cs k :
  forallb block_ok bs = true ->
  Re.rmatch (Re.Ahead (Re.Alt (Re.cat [Re.lit_i "Day"; Re.Star Re.space; Re.Plus Re.digit])
                              Re.Eol))
    (Re.mkSt n (render bs) cs) k = k (Re.mkSt n (render bs) cs).
Proof.
  intros Hbs. destruct (lookahead_next_block bs n cs Hbs) as (st1 & Hst1 & Hcaps).
  rewrite (rmatch_ahead _ _ _ _ Hst1). simpl. by rewrite Hcaps.
Qed.

Lemma stops_render p bs : p "D"%char = false -> stops p (render bs) = true.
Proof. intros Hp. destruct bs as [|b bs]; [done|]. simpl. by rewrite Hp. Qed.

Lemma space_not_D gap :
  all_chars Py.is_space gap = true ->
  all_chars (fun c => negb (Ascii.eqb (Py.lower_char c) (Py.lower_char "D"))) gap = true.
Proof.
  induction gap as [|c gap IH]; [done|]. simpl. intros [Hc Hgap]%andb_true_iff.
  rewrite (IH Hgap), andb_true_r. clear -Hc.
  by destruct c as [[] [] [] [] [] [] [] []].
Qed.

(** One day block is one match, which ends where the next block starts. *)
Lemma rmatch_day_block b bs n :
  block_ok b = true -> forallb block_ok bs = true ->
  exists m cs,
    (n < m)%nat /\
    Re.rmatch day_pattern (Re.mkSt n (render (b :: bs)) []) Some =
      Some (Re.mkSt m (render bs) cs).
Proof.
  intros Hb Hbs. destruct b as [num text gap]. unfold block_ok in Hb. simpl in Hb.
  destruct num as [|d num]; [done|]. destruct text as [|t0 text]; [done|].
  apply andb_true_iff in Hb as [Hb Hgap]. apply space_not_D in Hgap.
  apply andb_true_iff in Hb as [Hb Htext]. apply andb_true_iff in Hb as [Hnum Ht0].
  simpl in Hnum, Htext. apply andb_true_iff in Hnum as [Hd Hnum].
  apply andb_true_iff in Htext as [Ht0dot Htext]. apply negb_true_iff in Ht0.
  unfold day_pattern.
  set (ahead := Re.Ahead _).
  change (render (mkBlock (String d num) (String t0 text) gap :: bs)) with
    (String "D" (String "a" (String "y" (String " " (String d
       (num +:+ String ":" (String " " (String t0
          (text +:+ String "." (gap +:+ render bs))))))))))%char.
  unfold Re.lit_i, Re.chr_i, Re.chr, Re.space, Re.digit, Re.Plus, Re.Opt, Re.none_of, Re.none_of_i.
  cbn [map list_ascii_of_string].
  eexists _, _. split; cycle 1.
  - repeat re_step.
    re_star " ".
    { simpl. by rewrite digit_not_space. }
    repeat re_step.
    re_star num.
    repeat re_step.
    re_star " ".
    { simpl. by rewrite Ht0. }
    repeat re_step.
    re_star text.
    apply rmatch_alt_left.
    repeat re_step.
    re_star gap.
    { by apply stops_render. }
    repeat re_step.
    subst ahead. rewrite rmatch_ahead_next_block by done.
    repeat re_step. reflexivity.
  - lia.
Qed.


Lemma length_findall_from_blocks text bs : forall fuel n,
  forallb block_ok bs = true -> (length bs < fuel)%nat ->
  length (Re.findall_from day_pattern text fuel (Re.mkSt n (render bs) [])) = length bs.
Proof.
  induction bs as [|b bs IH]; intros fuel n Hok Hfuel.
  - destruct fuel as [|fuel]; [simpl in Hfuel; lia|]. reflexivity.
  - destruct fuel as [|fuel]; [simpl in Hfuel; lia|].
    simpl in Hok. apply andb_true_iff in Hok as [Hb Hbs].
    destruct (rmatch_day_block b bs n Hb Hbs) as (m & cs & Hlt & Hm).
    cbn [Re.findall_from]. cbn [Re.rest].
    assert (Hs : Re.search_from day_pattern (String.length (render (b :: bs)))
                   (Re.mkSt n (render (b :: bs)) []) = Some (n, Re.mkSt m (render bs) cs)).
    { destruct (String.length (render (b :: bs))); cbn [Re.search_from]; by rewrite Hm. }
    rewrite Hs. cbn [Re.pos Re.rest length].
    apply Nat.ltb_lt in Hlt. rewrite Hlt. rewrite IH; [done|done|simpl in Hfuel; lia].
Qed.

Lemma length_render bs : (length bs <= String.length (render bs))%nat.
Proof.
  induction bs as [|b bs IH]; [simpl; lia|].
  change (render (b :: bs)) with
    (String "D" ("ay " +:+ day_num b +:+ ": " +:+ day_text b +:+ "." +:+ day_gap b
                 +:+ render bs))%char.
  cbn [String.length length]. rewrite !length_append. lia.
Qed.

Lemma length_findall_blocks bs :
  forallb block_ok bs = true ->
  length (Re.findall day_pattern (render bs)) = length bs.
Proof.
  intros Hok. unfold Re.findall. apply length_findall_from_blocks; [done|].
  pose proof (length_render bs). lia.
Qed.

(** C9, counterexample.  Nine day blocks, "Day 1:" to "Day 9:", one on
    each line and none with a full stop: the day pattern reads a block on
    to the first full stop or, without one, to the end of the text, so it
    finds one block, and the extractor reports a plan of one day with one
    task. *)
Lemma nine_lines_one_block :
  map fst (Re.findall day_pattern nine_lines) = ["1"] /\
  (exists plan_data task,
     extract_daily_tasks_from_response nine_lines = (true, plan_data) /\
     PlanData.timeline_days plan_data = Some 1 /\
     PlanData.tasks plan_data = Some [task]) /\
  ~ seven_days_nine_tasks nine_lines.
Proof.
  split; [vm_compute; reflexivity|]. split.
  - eexists _, _. vm_compute. repeat split; reflexivity.
  - intros (plan_data & tasks & Hex & _ & Hdays & _).
    vm_compute in Hex. injection Hex as <-. discriminate Hdays.
Qed.

(** C9, as the code has it.  On a text that writes its day blocks out
    with a full stop each, "Day <number>: <text>." followed by white
    space or nothing, the extractor reports a plan with one task for each
    block and as many days as there are blocks, at most 7: nine blocks
    give [has_plan] true, [timeline_days] 7 and nine tasks. *)
Theorem nine_day_blocks_capped blocks :
  forallb block_ok blocks = true ->
  (blocks <> [] ->
   exists plan_data tasks,
     extract_daily_tasks_from_response (render blocks) = (true, plan_data) /\
     PlanData.needs_plan plan_data = Some true /\
     PlanData.timeline_days plan_data = Some (Z.min (Z.of_nat (length blocks)) 7) /\
     PlanData.tasks plan_data = Some tasks /\ length tasks = length blocks) /\
  (length blocks = 9%nat -> seven_days_nine_tasks (render blocks)).
Proof.
  intros Hok. pose proof (length_findall_blocks blocks Hok) as Hlen.
  unfold seven_days_nine_tasks, extract_daily_tasks_from_response.
  destruct (Re.findall day_pattern (render blocks)) as [|m ms] eqn:Hm.
  - split; [intros Hne|intros H9].
    + destruct blocks; [done|discriminate Hlen].
    + rewrite H9 in Hlen. discriminate Hlen.
  - split; [intros _|intros H9];
      eexists _, (map (fun m => clean_task m.1 m.2) (m :: ms));
      (split; [reflexivity|]);
      cbn [PlanData.needs_plan PlanData.timeline_days PlanData.tasks];
      (split; [reflexivity|]); rewrite length_map, Hlen.
    + by rewrite <- Hlen.
    + split; [f_equal; lia|]. split; [reflexivity|done].
Qed.

Lemma nine_day_blocks_capped_witness :
  render nine_blocks = nine_days /\
  map fst (Re.findall day_pattern nine_days) = ["1"; "2"; "3"; "4"; "5"; "6"; "7"; "8"; "9"] /\
  seven_days_nine_tasks (render nine_blocks) /\
  seven_days_nine_tasks (render nine_line_blocks).
Proof.
  split; [reflexivity|]. split; [vm_compute; reflexivity|]. split.
  - apply (nine_day_blocks_capped nine_blocks); reflexivity.
  - apply (nine_day_blocks_capped nine_line_blocks); reflexivity.
Defined.

(** The general rule behind it. *)
Lemma timeline_days_is_capped_count ai_response :
  (extract_daily_tasks_from_response ai_response).1 = true ->
  PlanData.timeline_days (extract_daily_tasks_from_response ai_response).2 =
    Some (Z.min (Z.of_nat (length (Re.findall day_pattern ai_response))) 7).
Proof.
  unfold extract_daily_tasks_from_response.
  by destruct (Re.findall day_pattern ai_response).
Qed.

(** The example of the specification: two day blocks. *)
Example two_day_blocks :
  exists plan_data,
    extract_daily_tasks_from_response "Day 1: Walk 10 minutes. Day 2: Stretch for 5 minutes."
      = (true, plan_data) /\
    PlanData.timeline_days plan_data = Some 2 /\
    PlanData.tasks plan_data =
      Some ["Day 1: Walk 10 minutes."; "Day 2: Stretch for 5 minutes."].
Proof. eexists. vm_compute. auto. Qed.

(** A day block ends at the first full stop after it at the earliest:
    blocks without one are read as a single block. *)
Example day_blocks_without_full_stop :
  Re.findall day_pattern "Day 1: Walk
Day 2: Stretch
Day 3: Swim" = [("1", "Walk
Day 2: Stretch
Day 3: Swim")].
Proof. vm_compute. reflexivity. Qed.

(** ** The trailing window of the analytics *)

Lemma day_entry_fold stats date_str (acc : Z * gmap string Z) :
  (forall stat, stat ∈ stats -> Stat.daily_word_counts stat !! date_str = None) ->
  foldl (fun (acc : Z * gmap string Z) specialist_stat =>
           let daily_words := default 0 (Stat.daily_word_counts specialist_stat !! date_str) in
           (acc.1 + daily_words,
            if 0 <? daily_words
            then <[Stat.specialist_name specialist_stat := daily_words]> acc.2
            else acc.2)) acc stats = acc.
Proof.
  revert acc. induction stats as [|stat stats IH]; intros acc Hnone; simpl; [done|].
  rewrite (Hnone stat) by set_solver. simpl.
  rewrite IH by set_solver. destruct acc as [n m]. simpl. f_equal. lia.
Qed.

Lemma day_entry_total stats date_str :
  DayEntry.total_words (day_entry stats date_str) =
  foldr Z.add 0 (map (fun stat => default 0 (Stat.daily_word_counts stat !! date_str)) stats).
Proof.
  unfold day_entry. simpl.
  assert (H : forall (acc : Z * gmap string Z),
    (foldl (fun (acc : Z * gmap string Z) specialist_stat =>
           let daily_words := default 0 (Stat.daily_word_counts specialist_stat !! date_str) in
           (acc.1 + daily_words,
            if 0 <? daily_words
            then <[Stat.specialist_name specialist_stat := daily_words]> acc.2
            else acc.2)) acc stats).1 =
    acc.1 + foldr Z.add 0
              (map (fun stat => default 0 (Stat.daily_word_counts stat !! date_str)) stats)).
  { induction stats as [|stat stats IH]; intros acc; simpl; [lia|].
    rewrite IH. simpl. lia. }
  rewrite H. simpl. lia.
Qed.

(** C6, counterexample.  With no specialist counter recorded the window
    is empty: it has no entry, not seven. *)
Lemma no_counters_no_window :
  get_time_spent_last_7_days empty_db 19783 = [] /\
  length (get_time_spent_last_7_days empty_db 19783) <> 7%nat.
Proof. split; [reflexivity|simpl; lia]. Qed.

(** C6, as the code has it.  As soon as one specialist counter exists,
    the window has exactly seven entries, for the seven days ending
    today, oldest first; the words of a day are the sum over the
    specialists of what each recorded for it (nothing counts as 0), and a
    day for which no specialist recorded anything is present with 0 words
    and an empty breakdown.  With no counter at all the window is
    empty. *)
Theorem trailing_window_seven_days db today :
  let window := get_time_spent_last_7_days db today in
  let stats := get_specialist_stats db None in
  (stats = [] -> window = []) /\
  (stats <> [] ->
   length window = 7%nat /\
   map DayEntry.date window =
     map (fun k => Calendar.strftime_Ymd (today - 6 + k)) [0; 1; 2; 3; 4; 5; 6] /\
   forall e, e ∈ window ->
     DayEntry.total_words e =
       foldr Z.add 0 (map (fun stat => default 0 (Stat.daily_word_counts stat !! DayEntry.date e))
                          stats) /\
     ((forall stat, stat ∈ stats -> Stat.daily_word_counts stat !! DayEntry.date e = None) ->
      DayEntry.total_words e = 0 /\ DayEntry.specialist_breakdown e = ∅)).
Proof.
  intros window stats. subst window. unfold get_time_spent_last_7_days. fold stats.
  split; [by intros ->|]. intros Hne.
  destruct stats as [|stat0 stats0] eqn:Hstats; [done|]. rewrite <- Hstats. clear Hne.
  split; [reflexivity|]. split.
  - simpl. repeat f_equal; lia.
  - intros e [date_str [-> _]]%list_elem_of_fmap. simpl. split.
    + apply day_entry_total.
    + intros Hnone. unfold day_entry. simpl. by rewrite day_entry_fold.
Qed.

Lemma trailing_window_seven_days_witness :
  length (get_time_spent_last_7_days (mkDB None (Some sample_stats)) 19783) = 7%nat /\
  map DayEntry.date (get_time_spent_last_7_days (mkDB None (Some sample_stats)) 19783) =
    ["2024-02-24"; "2024-02-25"; "2024-02-26"; "2024-02-27"; "2024-02-28";
     "2024-02-29"; "2024-03-01"].
Proof.
  destruct (trailing_window_seven_days (mkDB None (Some sample_stats)) 19783) as [_ H].
  destruct H as (Hlen & Hdates & _); [done|].
  split; [exact Hlen|]. rewrite Hdates. vm_compute. reflexivity.
Defined.

(** ** Only active plans are candidates *)

Lemma elem_of_find_active c kd :
  kd ∈ find_active c <->
  c !! kd.1 = Some kd.2 /\ Doc.user_id kd.2 = default_user /\ Doc.active kd.2 = true.
Proof.
  unfold find_active. rewrite merge_sort_Permutation, list_elem_of_filter.
  destruct kd as [k d]. rewrite elem_of_map_to_list. simpl. tauto.
Qed.

Lemma elem_of_get_active_plans db p :
  p ∈ get_active_plans db <->
  exists c d, plans_collection db = Some c /\ c !! Plan.id p = Some d /\
              Doc.user_id d = default_user /\ Doc.active d = true /\
              p = Plan.of_doc (Plan.id p, d).
Proof.
  unfold get_active_plans. destruct (plans_collection db) as [c|].
  - rewrite list_elem_of_In, in_map_iff. split.
    + intros ([k d] & <- & Hin). apply list_elem_of_In, elem_of_find_active in Hin.
      simpl in *. exists c, d. tauto.
    + intros (c' & d & [= <-] & Hd & Hu & Ha & Hp).
      exists (Plan.id p, d). split; [done|].
      apply list_elem_of_In, elem_of_find_active. simpl. tauto.
  - split; [by intros ?%elem_of_nil|]. intros (c & d & ? & _). done.
Qed.

(** The document stored under an id. *)
Lemma doc_update_task_progress_ne db plan_id name date now c id :
  id <> plan_id -> plans_collection db = Some c ->
  exists c', plans_collection (update_task_progress db plan_id name date now).1 = Some c' /\
             c' !! id = c !! id.
Proof.
  intros Hne Hc. unfold update_task_progress. rewrite Hc.
  destruct (find_one c plan_id); simpl; [|eauto].
  eexists. split; [reflexivity|]. by rewrite lookup_alter_ne.
Qed.

Lemma doc_mark_all_pending p today now acc c id :
  id <> Plan.id p -> plans_collection acc.1 = Some c ->
  exists c', plans_collection (mark_all_pending p today now acc).1 = Some c' /\
             c' !! id = c !! id.
Proof.
  intros Hne. unfold mark_all_pending. generalize (Plan.tasks p) as ts.
  intros ts. revert acc c. induction ts as [|t ts IH]; intros acc c Hc; simpl; [eauto|].
  destruct (bool_decide (today ∈ progress t)); [by apply IH|].
  destruct (doc_update_task_progress_ne acc.1 (Plan.id p) (task_name t) today now c id Hne Hc)
    as (c1 & Hc1 & Hid).
  destruct (IH (mark_and_collect (Plan.id p) today now acc (task_name t)) c1 Hc1)
    as (c2 & Hc2 & Hid2).
  exists c2. split; [done|]. congruence.
Qed.

Lemma doc_mark_reported message_lower today now plans acc c id :
  (forall p, p ∈ plans -> id <> Plan.id p) -> plans_collection acc.1 = Some c ->
  exists c', plans_collection (mark_reported message_lower today now plans acc).1 = Some c' /\
             c' !! id = c !! id.
Proof.
  unfold mark_reported. revert acc c.
  induction plans as [|p plans IH]; intros acc c Hne Hc; simpl; [eauto|].
  assert (Hin : exists c1,
    plans_collection
      (foldl (fun acc task =>
                if bool_decide (today ∈ progress task) then acc
                else if task_reported message_lower (task_name task)
                     then mark_and_collect (Plan.id p) today now acc (task_name task)
                     else acc) acc (Plan.tasks p)).1 = Some c1 /\ c1 !! id = c !! id).
  { assert (Hp : id <> Plan.id p) by (apply Hne; set_solver).
    clear IH Hne. generalize (Plan.tasks p) as ts. intros ts. revert acc c Hc.
    induction ts as [|t ts IHts]; intros acc c Hc; simpl; [eauto|].
    destruct (bool_decide (today ∈ progress t)); [by apply IHts|].
    destruct (task_reported message_lower (task_name t)); [|by apply IHts].
    destruct (doc_update_task_progress_ne acc.1 (Plan.id p) (task_name t) today now c id Hp Hc)
      as (c1 & Hc1 & Hid).
    destruct (IHts (mark_and_collect (Plan.id p) today now acc (task_name t)) c1 Hc1)
      as (c2 & Hc2 & Hid2).
    exists c2. split; [done|]. congruence. }
  destruct Hin as (c1 & Hc1 & Hid1).
  destruct (IH _ c1 (fun q Hq => Hne q ltac:(set_solver)) Hc1) as (c2 & Hc2 & Hid2).
  exists c2. split; [done|]. congruence.
Qed.

Lemma doc_mark_mentioned user_lower today now plans acc c id :
  (forall p, p ∈ plans -> id <> Plan.id p) -> plans_collection acc.1 = Some c ->
  exists c', plans_collection (mark_mentioned user_lower today now plans acc).1 = Some c' /\
             c' !! id = c !! id.
Proof.
  unfold mark_mentioned. revert acc c.
  induction plans as [|p plans IH]; intros acc c Hne Hc; simpl; [eauto|].
  match goal with |- context [foldl ?g (foldl ?f acc (Plan.tasks p)) plans] =>
    assert (Hin : exists c1, plans_collection (foldl f acc (Plan.tasks p)).1 = Some c1 /\
                             c1 !! id = c !! id) end.
  { assert (Hp : id <> Plan.id p) by (apply Hne; apply list_elem_of_here).
    clear IH Hne. generalize (Plan.tasks p) as ts. intros ts. revert acc c Hc.
    induction ts as [|t ts IHts]; intros acc c Hc; simpl; [eauto|].
    destruct (bool_decide (today ∈ progress t)); [by apply IHts|].
    destruct (existsb _ (long_words _)); [|by apply IHts].
    destruct (doc_update_task_progress_ne acc.1 (Plan.id p) (task_name t) today now c id Hp Hc)
      as (c1 & Hc1 & Hid).
    match goal with |- context [foldl _ ?acc' ts] =>
      destruct (IHts acc' c1 Hc1) as (c2 & Hc2 & Hid2) end.
    exists c2. split; [done|]. congruence. }
  destruct Hin as (c1 & Hc1 & Hid1).
  destruct (IH _ c1 (fun q Hq => Hne q (list_elem_of_further _ _ _ Hq)) Hc1) as (c2 & Hc2 & Hid2).
  exists c2. split; [done|]. congruence.
Qed.

Lemma doc_process_progress db ai_response user_message today now c id :
  (forall p, p ∈ get_active_plans db -> id <> Plan.id p) -> plans_collection db = Some c ->
  exists c',
    plans_collection (process_progress_from_ai_response db ai_response user_message today now).1
      = Some c' /\
    c' !! id = c !! id.
Proof.
  unfold process_progress_from_ai_response. intros Hne Hc.
  destruct (get_active_plans db) as [|p0 plans0]; [eauto|].
  destruct (existsb _ completion_words); [|eauto].
  by apply doc_mark_mentioned.
Qed.

Lemma find_elem_of {A} (f : A -> bool) (l : list A) (x : A) :
  List.find f l = Some x -> x ∈ l /\ f x = true.
Proof. intros [H1 H2]%find_some. by rewrite list_elem_of_In. Qed.


Lemma get_active_plans_active db p : p ∈ get_active_plans db -> is_active db (Plan.id p).
Proof.
  intros (c & d & Hc & Hd & _ & Ha & _)%elem_of_get_active_plans. by exists c, d.
Qed.

Lemma inactive_not_listed db c plan_id d p :
  plans_collection db = Some c -> c !! plan_id = Some d -> Doc.active d = false ->
  p ∈ get_active_plans db -> plan_id <> Plan.id p.
Proof.
  intros Hc Hd Ha Hp Heq.
  destruct (get_active_plans_active _ _ Hp) as (c' & d' & Hc' & Hd' & Ha').
  subst plan_id. congruence.
Qed.

Lemma doc_deactivate_plan_ne db plan_id now c id :
  id <> plan_id -> plans_collection db = Some c ->
  exists c', plans_collection (deactivate_plan db plan_id now).1 = Some c' /\
             c' !! id = c !! id.
Proof.
  intros Hne Hc. unfold deactivate_plan. rewrite Hc.
  destruct (find_one c plan_id); simpl; [|eauto].
  eexists. split; [reflexivity|]. by rewrite lookup_insert_ne.
Qed.


Lemma single_user_empty : single_user empty_db.
Proof. intros c plan_id d [= <-]. by rewrite lookup_empty. Qed.

Lemma single_user_run db op : single_user db -> single_user (run db op).
Proof.
  intros Hdb c' id d'. destruct op as [[pn cond t ts u1 u2|pid name date|pid] now]; simpl.
  - unfold create_health_plan. destruct (plans_collection db) as [c|] eqn:Hc; [|simpl; rewrite Hc; done].
    destruct (c !! u1) eqn:Hu; simpl; [rewrite Hc; intros [= <-]; by apply Hdb|].
    intros [= <-]. destruct (decide (u1 = id)) as [->|Hne].
    + rewrite lookup_insert_eq. by intros [= <-].
    + rewrite lookup_insert_ne by done. by apply Hdb.
  - unfold update_task_progress. destruct (plans_collection db) as [c|] eqn:Hc; [|simpl; rewrite Hc; done].
    destruct (find_one c pid) as [plan|] eqn:Hp; simpl; [|rewrite Hc; intros [= <-]; by apply Hdb].
    intros [= <-]. destruct (decide (pid = id)) as [->|Hne].
    + apply find_one_Some in Hp as [Hp Hu]. rewrite lookup_alter_eq, Hp. by intros [= <-].
    + rewrite lookup_alter_ne by done. by apply Hdb.
  - unfold deactivate_plan. destruct (plans_collection db) as [c|] eqn:Hc; [|simpl; rewrite Hc; done].
    destruct (find_one c pid) as [plan|] eqn:Hp; simpl; [|rewrite Hc; intros [= <-]; by apply Hdb].
    intros [= <-]. destruct (decide (pid = id)) as [->|Hne].
    + apply find_one_Some in Hp as [Hp Hu]. rewrite lookup_insert_eq. by intros [= <-].
    + rewrite lookup_insert_ne by done. by apply Hdb.
Qed.

(** ** The progress report and the plans *)

Lemma plans_store_chat_message db message role specialist_name today now :
  plans_collection (store_chat_message db message role specialist_name today now)
  = plans_collection db.
Proof.
  unfold store_chat_message. destruct specialist_name as [name|]; [|done].
  destruct (_ && _); [|done]. unfold update_specialist_word_count.
  by destruct (specialist_stats_collection db).
Qed.

Lemma get_active_plans_plans db db' :
  plans_collection db' = plans_collection db -> get_active_plans db' = get_active_plans db.
Proof. unfold get_active_plans. by intros ->. Qed.

Lemma completion_dates_plans db db' plan_id name :
  plans_collection db' = plans_collection db ->
  completion_dates db' plan_id name = completion_dates db plan_id name.
Proof. unfold completion_dates. by intros ->. Qed.

Lemma marked_plans db db' plan_id name date :
  plans_collection db' = plans_collection db ->
  marked db' plan_id name date <-> marked db plan_id name date.
Proof. intros H. unfold marked. by rewrite (completion_dates_plans db db' _ _ H). Qed.

Lemma same_plans_plans db0 db db' :
  plans_collection db' = plans_collection db -> same_plans db0 db -> same_plans db0 db'.
Proof. unfold same_plans. by intros ->. Qed.

Lemma check_daily_progress_plans db db' today :
  plans_collection db' = plans_collection db ->
  check_daily_progress db' today = check_daily_progress db today.
Proof.
  intros H. unfold check_daily_progress, pending_tasks.
  by rewrite (get_active_plans_plans db db' H).
Qed.

(** The route marks what lines 305-354 mark: the two calls of
    [store_chat_message] leave the plans alone. *)
Lemma daily_progress_report_plans db request today now utc_today :
  plans_collection (daily_progress_report db request today now utc_today).1
  = plans_collection (report_updated_tasks db request today now).1.
Proof. unfold daily_progress_report. cbn [fst snd]. apply plans_store_chat_message. Qed.

Lemma daily_progress_report_tasks db request today now utc_today :
  (daily_progress_report db request today now utc_today).2
  = (report_updated_tasks db request today now).2.
Proof. reflexivity. Qed.

(** C7. [get_active_plans] lists exactly the plans whose [active] flag
    is true (of the user the store serves; every document the code
    writes is of that user).  A plan whose flag is false is therefore
    not among the plans any consumer sees: it is not the target of the
    deactivation matcher, of the duplicate check or of the reconciler's
    target resolution, and neither [daily_progress_report] nor the
    deactivation branch of the chat route changes its document. *)
Theorem deactivated_plans_never_considered db :
  (forall p, p ∈ get_active_plans db <->
     exists c d, plans_collection db = Some c /\ c !! Plan.id p = Some d /\
                 Doc.user_id d = default_user /\ Doc.active d = true /\
                 p = Plan.of_doc (Plan.id p, d)) /\
  (single_user db ->
   forall c plan_id d, plans_collection db = Some c -> c !! plan_id = Some d ->
     (Plan.of_doc (plan_id, d) ∈ get_active_plans db <-> Doc.active d = true)) /\
  (forall c plan_id d,
     plans_collection db = Some c -> c !! plan_id = Some d -> Doc.active d = false ->
     (forall p, p ∈ get_active_plans db -> Plan.id p <> plan_id) /\
     (forall message p,
        deactivation_target message (get_active_plans db) = Some p -> Plan.id p <> plan_id) /\
     (forall text p,
        existing_plan_for text (get_active_plans db) = Some p -> Plan.id p <> plan_id) /\
     (forall target_condition p,
        target_by_condition target_condition (get_active_plans db) = Some p ->
        Plan.id p <> plan_id) /\
     (forall message_lower p,
        target_by_message message_lower (get_active_plans db) = Some p ->
        Plan.id p <> plan_id) /\
     (forall request today now utc_today,
        exists c',
          plans_collection (daily_progress_report db request today now utc_today).1
            = Some c' /\
          c' !! plan_id = Some d) /\
     (forall message now,
        exists c', plans_collection (chat_deactivation db message now).1 = Some c' /\
                   c' !! plan_id = Some d) /\
     (forall message today now,
        exists c', plans_collection (chat_mark_progress db message today now).1 = Some c' /\
                   c' !! plan_id = Some d) /\
     (forall ai_response user_message today now,
        exists c',
          plans_collection
            (process_progress_from_ai_response db ai_response user_message today now).1
            = Some c' /\
          c' !! plan_id = Some d)).
Proof.
  split; [apply elem_of_get_active_plans|]. split.
  { intros Hsingle c plan_id d Hc Hd. rewrite elem_of_get_active_plans. simpl. split.
    - intros (c' & d' & Hc' & Hd' & _ & Ha & Heq). congruence.
    - intros Ha. exists c, d. repeat split; try done. by eapply Hsingle. }
  intros c plan_id d Hc Hd Ha.
  assert (Hlisted : forall p, p ∈ get_active_plans db -> Plan.id p <> plan_id).
  { intros p Hp Heq. by eapply inactive_not_listed. }
  assert (Hfound : forall (f : Plan.t -> bool) p,
            List.find f (get_active_plans db) = Some p -> Plan.id p <> plan_id).
  { intros f p [Hp _]%find_elem_of. by apply Hlisted. }
  split; [exact Hlisted|].
  split; [intros message p; apply Hfound|].
  split; [intros text p; apply Hfound|].
  split; [intros tc p; apply Hfound|].
  split; [intros ml p; apply Hfound|].
  split.
  { intros request today now utc_today. rewrite daily_progress_report_plans.
    unfold report_updated_tasks. destruct (directed request).
    + match goal with |- context [match ?t with Some _ => _ | None => _ end] =>
        destruct t as [target|] eqn:Ht end; [|eauto].
      assert (Htarget : Plan.id target <> plan_id).
      { destruct (specific_plan_condition request) as [tc|];
          [destruct (bool_decide (tc = ""))|];
          by apply Hfound in Ht. }
      destruct (doc_mark_all_pending target today now (db, []) c plan_id) as (c' & Hc' & Hid);
        [done|done|].
      exists c'. split; [done|]. congruence.
    + destruct (doc_mark_reported (Py.lower (message request)) today now
                  (get_active_plans db) (db, []) c plan_id) as (c' & Hc' & Hid);
        [|done|].
      * intros p Hp Heq. by apply (Hlisted p Hp).
      * exists c'. split; [done|]. congruence. }
  split; [|split].
  - intros message now. unfold chat_deactivation.
    destruct (deactivation_target message (get_active_plans db)) as [target|] eqn:Ht; [|eauto].
    assert (Htarget : plan_id <> Plan.id target).
    { intros Heq. by apply (Hfound _ _ Ht). }
    destruct (doc_deactivate_plan_ne db (Plan.id target) now c plan_id Htarget Hc)
      as (c' & Hc' & Hid).
    exists c'. destruct (deactivate_plan db (Plan.id target) now).2; simpl;
      (split; [done|congruence]).
  - intros message today now. unfold chat_mark_progress.
    destruct (existsb _ _); [|eauto].
    destruct (chat_progress_target message (get_active_plans db)) as [target|] eqn:Ht; [|eauto].
    assert (Htarget : plan_id <> Plan.id target).
    { intros Heq. by apply (Hfound _ _ Ht). }
    destruct (doc_mark_all_pending target today now (db, []) c plan_id Htarget Hc)
      as (c' & Hc' & Hid).
    exists c'. split; [done|congruence].
  - intros ai_response user_message today now.
    destruct (doc_process_progress db ai_response user_message today now c plan_id)
      as (c' & Hc' & Hid); [|done|].
    + intros p Hp Heq. by apply (Hlisted p Hp).
    + exists c'. split; [done|congruence].
Qed.

Lemma deactivated_plans_never_considered_witness :
  get_active_plans mixed_db = [Plan.of_doc ("p1", sample_plan)] /\
  (forall p, p ∈ get_active_plans mixed_db -> Plan.id p <> "p2") /\
  (exists c',
     plans_collection
       (daily_progress_report mixed_db (mkRequest "yes done, finished, all good" false None)
          "2024-01-02" 11 19724).1 = Some c' /\
     c' !! "p2" = Some retired_plan).
Proof.
  split; [vm_compute; reflexivity|].
  destruct (deactivated_plans_never_considered mixed_db) as (_ & _ & H).
  destruct (H {[ "p1" := sample_plan; "p2" := retired_plan ]} "p2" retired_plan)
    as (Hlisted & _ & _ & _ & _ & Hreport & _);
    [reflexivity|vm_compute; reflexivity|reflexivity|].
  split; [exact Hlisted|].
  exact (Hreport (mkRequest "yes done, finished, all good" false None) "2024-01-02" 11 19724).
Defined.

(** ** Words, case and substrings *)


Lemma is_space_lower_char c : Py.is_space (Py.lower_char c) = Py.is_space c.
Proof. destruct c as [[] [] [] [] [] [] [] []]; reflexivity. Qed.

Lemma split_space c s : Py.is_space c = true -> Py.split (String c s) = Py.split s.
Proof. intros H. simpl. by rewrite H. Qed.

Lemma split_word c s :
  Py.is_space c = false ->
  exists w ws, Py.split (String c s) = String c w :: ws /\
    ((s = EmptyString \/ exists c' s', s = String c' s' /\ Py.is_space c' = true) /\
       w = EmptyString /\ ws = Py.split s
     \/ exists c' s', s = String c' s' /\ Py.is_space c' = false /\ Py.split s = w :: ws).
Proof.
  intros Hc. revert c Hc. induction s as [|c' s' IH]; intros c Hc.
  - exists EmptyString, []. simpl. rewrite Hc. split; [done|]. left. auto.
  - destruct (Py.is_space c') eqn:Hc'.
    + exists EmptyString, (Py.split (String c' s')). split.
      * change (Py.split (String c (String c' s'))) with
          (if Py.is_space c then Py.split (String c' s')
           else if Py.is_space c' then String c EmptyString :: Py.split (String c' s')
                else match Py.split (String c' s') with
                     | w :: ws => String c w :: ws
                     | [] => [String c EmptyString]
                     end).
        by rewrite Hc, Hc'.
      * left. split; [right; eauto|done].
    + destruct (IH c' Hc') as (w & ws & Hsplit & _).
      exists (String c' w), ws. split.
      * change (Py.split (String c (String c' s'))) with
          (if Py.is_space c then Py.split (String c' s')
           else if Py.is_space c' then String c EmptyString :: Py.split (String c' s')
                else match Py.split (String c' s') with
                     | w :: ws => String c w :: ws
                     | [] => [String c EmptyString]
                     end).
        by rewrite Hc, Hc', Hsplit.
      * right. exists c', s'. auto.
Qed.

Lemma split_no_space s w : w ∈ Py.split s -> no_space w = true.
Proof.
  revert w. induction s as [|c s IH]; intros w; [by intros ?%elem_of_nil|].
  destruct (Py.is_space c) eqn:Hc.
  - rewrite split_space by done. apply IH.
  - destruct (split_word c s Hc) as (w1 & ws & Hs & Hcase). rewrite Hs.
    intros [->|Hin]%elem_of_cons.
    + simpl. rewrite Hc. simpl.
      destruct Hcase as [(_ & -> & _)|(c1 & s1 & -> & _ & Hsplit)]; [done|].
      apply IH. rewrite Hsplit. set_solver.
    + apply IH. destruct Hcase as [(_ & _ & ->)|(c1 & s1 & -> & _ & Hsplit)]; [done|].
      rewrite Hsplit. set_solver.
Qed.

Lemma startswith_cons c w s : Py.startswith (String c w) (String c s) = Py.startswith w s.
Proof. simpl. by rewrite Ascii.eqb_refl. Qed.

Lemma contains_tail w c s : Py.contains w s = true -> Py.contains w (String c s) = true.
Proof.
  intros H. change (Py.contains w (String c s)) with (Py.startswith w (String c s) || Py.contains w s).
  rewrite H. apply orb_true_r.
Qed.

Lemma contains_startswith w s : Py.startswith w s = true -> Py.contains w s = true.
Proof. intros H. destruct s; simpl; by rewrite H. Qed.





Lemma long_words_spec s w :
  w ∈ long_words s -> w ∈ Py.split s /\ 3 < Py.len w.
Proof.
  unfold long_words. rewrite list_elem_of_In, filter_In, <- list_elem_of_In.
  intros [? ?%Z.ltb_lt]. done.
Qed.



(** ** The plan matcher and plans without a long word *)




(** ** The reconciler without a target plan *)



Lemma dates_mark_and_collect plan_id name today now acc plan_id' name' old :
  completion_dates acc.1 plan_id name = Some old ->
  exists new,
    completion_dates (mark_and_collect plan_id' today now acc name').1 plan_id name = Some new /\
    (today ∈ new <-> (today ∈ old) \/ (plan_id' = plan_id /\ name' = name)).
Proof.
  intros Hold. unfold mark_and_collect. simpl.
  destruct (decide (plan_id' = plan_id /\ name' = name)) as [[-> ->]|Hne].
  - rewrite (completion_dates_update _ _ _ _ _ _ Hold). eexists. split; [reflexivity|].
    case_bool_decide as Hin.
    + tauto.
    + split; [auto|]. intros _. apply elem_of_app. right. by apply list_elem_of_singleton.
  - rewrite completion_dates_update_ne.
    + exists old. split; [done|]. tauto.
    + destruct (decide (plan_id = plan_id')) as [->|]; [|auto].
      right. intros ->. by apply Hne.
Qed.

Lemma dates_mark_reported_tasks message_lower plan_id name today now plan_id' ts acc old :
  completion_dates acc.1 plan_id name = Some old ->
  exists new,
    completion_dates
      (foldl (fun acc task =>
                if bool_decide (today ∈ progress task) then acc
                else if task_reported message_lower (task_name task)
                     then mark_and_collect plan_id' today now acc (task_name task)
                     else acc) acc ts).1 plan_id name = Some new /\
    (today ∈ new <->
     (today ∈ old) \/
     (plan_id' = plan_id /\
      exists t, t ∈ ts /\ task_name t = name /\ (today ∉ progress t) /\
                task_reported message_lower name = true)).
Proof.
  revert acc old. induction ts as [|t ts IH]; intros acc old Hold; simpl.
  - exists old. split; [done|]. split; [auto|]. intros [?|(_ & t & Ht%elem_of_nil & _)]; done.
  - assert (Hstep : exists mid,
      completion_dates
        (if bool_decide (today ∈ progress t) then acc
         else if task_reported message_lower (task_name t)
              then mark_and_collect plan_id' today now acc (task_name t)
              else acc).1 plan_id name = Some mid /\
      (today ∈ mid <->
       (today ∈ old) \/
       (plan_id' = plan_id /\ task_name t = name /\ (today ∉ progress t) /\
        task_reported message_lower name = true))).
    { case_bool_decide as Hdone; [exists old; split; [done|tauto]|].
      destruct (task_reported message_lower (task_name t)) eqn:Hrep.
      - destruct (dates_mark_and_collect plan_id name today now acc plan_id' (task_name t) old Hold)
          as (mid & Hmid & Hiff).
        exists mid. split; [done|]. rewrite Hiff. split.
        + intros [?|[-> <-]]; auto.
        + intros [?|(-> & <- & _)]; auto.
      - exists old. split; [done|]. split; [auto|].
        intros [?|(_ & <- & _ & Hrep')]; [done|congruence]. }
    destruct Hstep as (mid & Hmid & Hiff).
    destruct (IH _ mid Hmid) as (new & Hnew & Hiff').
    exists new. split; [done|]. rewrite Hiff', Hiff.
    setoid_rewrite elem_of_cons.
    generalize (task_reported message_lower name = true). clear. firstorder (subst; eauto).
Qed.

Lemma dates_mark_reported message_lower plan_id name today now plans acc old :
  completion_dates acc.1 plan_id name = Some old ->
  exists new,
    completion_dates (mark_reported message_lower today now plans acc).1 plan_id name = Some new /\
    (today ∈ new <->
     (today ∈ old) \/
     exists p t, p ∈ plans /\ Plan.id p = plan_id /\ t ∈ Plan.tasks p /\
                 task_name t = name /\ (today ∉ progress t) /\
                 task_reported message_lower name = true).
Proof.
  unfold mark_reported. revert acc old.
  induction plans as [|p plans IH]; intros acc old Hold; simpl.
  - exists old. split; [done|]. split; [auto|].
    intros [?|(p & t & Hp%elem_of_nil & _)]; done.
  - destruct (dates_mark_reported_tasks message_lower plan_id name today now (Plan.id p)
                (Plan.tasks p) acc old Hold) as (mid & Hmid & Hiff).
    destruct (IH _ mid Hmid) as (new & Hnew & Hiff').
    exists new. split; [done|]. rewrite Hiff', Hiff.
    setoid_rewrite elem_of_cons.
    generalize (task_reported message_lower name = true). clear. firstorder (subst; eauto).
Qed.

Lemma find_task_NoDup ts t :
  NoDup (map task_name ts) -> t ∈ ts -> find_task (task_name t) ts = Some t.
Proof.
  unfold find_task. induction ts as [|t0 ts IH]; intros Hnd Hin; [by apply elem_of_nil in Hin|].
  simpl in *. apply NoDup_cons in Hnd as [Hnotin Hnd].
  apply elem_of_cons in Hin as [->|Hin].
  - by rewrite bool_decide_eq_true_2.
  - rewrite bool_decide_eq_false_2; [by apply IH|].
    intros Heq. apply Hnotin. rewrite Heq. apply list_elem_of_In, in_map. by apply list_elem_of_In.
Qed.

Lemma completion_dates_active db p t :
  p ∈ get_active_plans db -> NoDup (map task_name (Plan.tasks p)) -> t ∈ Plan.tasks p ->
  completion_dates db (Plan.id p) (task_name t) = Some (progress t).
Proof.
  intros (c & d & Hc & Hd & Hu & Ha & Hp)%elem_of_get_active_plans Hnd Ht.
  unfold completion_dates. rewrite Hc. simpl.
  rewrite (proj2 (find_one_Some c (Plan.id p) d)) by done. simpl.
  assert (Htasks : Plan.tasks p = Doc.tasks d) by (by rewrite Hp).
  rewrite <- Htasks, (find_task_NoDup _ _ Hnd Ht). done.
Qed.

(** The variant of [utils.py], which no route calls, knows no clause (b):
    without a long word of the task's name in the message it marks
    nothing.  Its clause (a) looks for the words of the task's name in
    the message. *)
Example process_progress_needs_a_task_word :
  process_progress_from_ai_response sample_db "Well done!" "yes done, finished, all good"
    "2024-01-02" 11 = (sample_db, 0) /\
  (process_progress_from_ai_response sample_db "Well done!" "did walking" "2024-01-02" 11).2 = 1.
Proof. split; vm_compute; reflexivity. Qed.




(** * Further properties *)

(** ** Creating, listing and deactivating plans *)

Lemma create_health_plan_fresh db c plan_name condition t tasks uuid1 uuid2 now :
  plans_collection db = Some c -> c !! uuid1 = None ->
  create_health_plan db plan_name condition t tasks uuid1 uuid2 now =
    (with_plans db
       (<[uuid1 := Doc.mk default_user plan_name condition (Z.min t 7)
                     (map (fun task => mkTask task []) tasks) true now now]> c),
     uuid1).
Proof.
  intros Hc Hu. unfold create_health_plan. rewrite Hc, Hu. by rewrite map_map.
Qed.

Lemma elem_of_get_active_plans_create db c plan_name condition t tasks uuid1 uuid2 now p :
  plans_collection db = Some c -> c !! uuid1 = None ->
  p ∈ get_active_plans (create_health_plan db plan_name condition t tasks uuid1 uuid2 now).1 <->
  p ∈ get_active_plans db \/ p = new_plan uuid1 plan_name condition t tasks now.
Proof.
  intros Hc Hu. rewrite (create_health_plan_fresh _ _ _ _ _ _ _ _ _ Hc Hu).
  rewrite !elem_of_get_active_plans. simpl. split.
  - intros (c' & d & [= <-] & Hd & Hu' & Ha & Hp).
    destruct (decide (Plan.id p = uuid1)) as [Heq|Hne].
    + right. rewrite Heq, lookup_insert_eq in Hd. injection Hd as <-.
      rewrite Hp, Heq. reflexivity.
    + left. rewrite lookup_insert_ne in Hd by done. by exists c, d.
  - intros [(c' & d & Hc' & Hd & Hu' & Ha & Hp)| ->].
    + rewrite Hc in Hc'. injection Hc' as <-.
      eexists _, d. split; [reflexivity|]. rewrite lookup_insert_ne by congruence. done.
    + eexists _, _. split; [reflexivity|]. simpl. rewrite lookup_insert_eq. done.
Qed.

(** X1. A plan created under a fresh id is listed at once by
    [get_active_plans], with the name, condition and capped timeline it
    was given and with every task without a completion date; the plans
    listed before stay listed, and nothing else is. *)
Theorem create_health_plan_listed db c plan_name condition t tasks uuid1 uuid2 now :
  plans_collection db = Some c -> c !! uuid1 = None ->
  let r := create_health_plan db plan_name condition t tasks uuid1 uuid2 now in
  r.2 = uuid1 /\
  forall p, p ∈ get_active_plans r.1 <->
            p ∈ get_active_plans db \/ p = new_plan uuid1 plan_name condition t tasks now.
Proof.
  intros Hc Hu r. subst r. split.
  - by rewrite (create_health_plan_fresh _ _ _ _ _ _ _ _ _ Hc Hu).
  - intros p. by apply (elem_of_get_active_plans_create db c).
Qed.

Lemma create_health_plan_listed_witness :
  get_active_plans
    (create_health_plan sample_db "Rest" "stress" 9 ["Breathe"; "Sleep"] "u1" "u2" 50).1 =
    [new_plan "u1" "Rest" "stress" 9 ["Breathe"; "Sleep"] 50; Plan.of_doc ("p1", sample_plan)] /\
  new_plan "u1" "Rest" "stress" 9 ["Breathe"; "Sleep"] 50
    ∈ get_active_plans
        (create_health_plan sample_db "Rest" "stress" 9 ["Breathe"; "Sleep"] "u1" "u2" 50).1.
Proof.
  split; [vm_compute; reflexivity|].
  destruct (create_health_plan_listed sample_db {[ "p1" := sample_plan ]}
              "Rest" "stress" 9 ["Breathe"; "Sleep"] "u1" "u2" 50) as [_ H];
    [reflexivity|reflexivity|].
  apply H. right. reflexivity.
Defined.

Lemma deactivate_plan_found db c plan_id d now :
  plans_collection db = Some c -> find_one c plan_id = Some d ->
  deactivate_plan db plan_id now =
    (with_plans db (<[plan_id := Doc.set_inactive now d]> c),
     bool_decide (Doc.set_inactive now d <> d)).
Proof. intros Hc Hd. unfold deactivate_plan. by rewrite Hc, Hd. Qed.

Lemma elem_of_get_active_plans_deactivated db c plan_id d now p :
  plans_collection db = Some c -> find_one c plan_id = Some d ->
  p ∈ get_active_plans (with_plans db (<[plan_id := Doc.set_inactive now d]> c)) <->
  p ∈ get_active_plans db /\ Plan.id p <> plan_id.
Proof.
  intros Hc Hd. rewrite !elem_of_get_active_plans. simpl. split.
  - intros (c' & d' & [= <-] & Hd' & Hu' & Ha & Hp).
    destruct (decide (Plan.id p = plan_id)) as [Heq|Hne].
    + rewrite Heq, lookup_insert_eq in Hd'. injection Hd' as <-. simpl in Ha. done.
    + rewrite lookup_insert_ne in Hd' by done. split; [|done]. by exists c, d'.
  - intros [(c' & d' & Hc' & Hd' & Hu' & Ha & Hp) Hne].
    rewrite Hc in Hc'. injection Hc' as <-.
    eexists _, d'. split; [reflexivity|]. rewrite lookup_insert_ne by congruence. done.
Qed.

Lemma set_inactive_changes now d : Doc.active d = true -> Doc.set_inactive now d <> d.
Proof. intros Ha Heq. apply (f_equal Doc.active) in Heq. simpl in Heq. congruence. Qed.

(** X2. Deactivating a plan takes it, and only it, off the list of
    [get_active_plans]; its tasks and their dates stay in the store.  On
    an active plan the call returns [True]; on an unknown id it returns
    [False] and changes nothing. *)
Theorem deactivate_plan_unlisted db c plan_id now :
  plans_collection db = Some c ->
  let r := deactivate_plan db plan_id now in
  (find_one c plan_id = None -> r = (db, false)) /\
  (forall d, find_one c plan_id = Some d ->
     (Doc.active d = true -> r.2 = true) /\
     (forall p, p ∈ get_active_plans r.1 <-> p ∈ get_active_plans db /\ Plan.id p <> plan_id) /\
     (forall name, completion_dates r.1 plan_id name = completion_dates db plan_id name)).
Proof.
  intros Hc r. subst r. split.
  - intros Hnone. unfold deactivate_plan. by rewrite Hc, Hnone.
  - intros d Hd. rewrite (deactivate_plan_found _ _ _ _ _ Hc Hd). simpl.
    pose proof (proj1 (find_one_Some _ _ _) Hd) as [Hlook Huser].
    split; [|split].
    + intros Ha. by apply bool_decide_eq_true, set_inactive_changes.
    + intros p. by apply elem_of_get_active_plans_deactivated.
    + intros name. unfold completion_dates. rewrite Hc. simpl. rewrite Hd. simpl.
      unfold find_one. rewrite lookup_insert_eq. simpl.
      rewrite bool_decide_eq_true_2 by done. done.
Qed.

Lemma deactivate_plan_unlisted_witness :
  deactivate_plan sample_db "nobody" 20 = (sample_db, false) /\
  (deactivate_plan sample_db "p1" 20).2 = true /\
  get_active_plans (deactivate_plan sample_db "p1" 20).1 = [] /\
  completion_dates (deactivate_plan sample_db "p1" 20).1 "p1" "Stretch" = Some ["2024-01-01"].
Proof.
  destruct (deactivate_plan_unlisted sample_db {[ "p1" := sample_plan ]} "nobody" 20) as [H _];
    [reflexivity|].
  destruct (deactivate_plan_unlisted sample_db {[ "p1" := sample_plan ]} "p1" 20) as [_ H'];
    [reflexivity|].
  destruct (H' sample_plan) as (Hret & _ & Hdates); [reflexivity|].
  split; [apply H; reflexivity|]. split; [apply Hret; reflexivity|].
  split; [vm_compute; reflexivity|]. rewrite Hdates. reflexivity.
Defined.

(** X3. [get_active_plans] returns the plans newest first: each plan of
    the list was created no earlier than every plan after it. *)
Theorem get_active_plans_newest_first db :
  StronglySorted listed_before (get_active_plans db).
Proof.
  unfold get_active_plans. destruct (plans_collection db) as [c|]; [|constructor].
  unfold find_active.
  assert (Htotal : Total newer_first).
  { intros a b. unfold newer_first. lia. }
  assert (Htrans : Transitive newer_first).
  { intros a b d. unfold newer_first. lia. }
  apply (StronglySorted_fmap Plan.of_doc newer_first listed_before).
  - intros a b H. exact H.
  - by apply StronglySorted_merge_sort.
Qed.

(** ** Invariants of the store *)

Lemma mark_first_dates_unique name date ts :
  Forall (fun task => NoDup (progress task)) ts ->
  Forall (fun task => NoDup (progress task)) (mark_first name date ts).
Proof.
  induction 1 as [|t ts Ht Hts IH]; simpl; [constructor|].
  destruct (bool_decide (task_name t = name)); [|by constructor].
  constructor; [|done].
  case_bool_decide as Hin; simpl; [done|].
  apply NoDup_app. split; [done|]. split; [|apply NoDup_singleton].
  intros x Hx ->%list_elem_of_singleton. done.
Qed.

Lemma dates_unique_run db op : dates_unique db -> dates_unique (run db op).
Proof.
  intros Hdb c' id d' task. destruct op as [[pn cond t ts u1 u2|pid name date|pid] now]; simpl.
  - unfold create_health_plan. destruct (plans_collection db) as [c|] eqn:Hc;
      [|simpl; rewrite Hc; done].
    destruct (c !! u1) eqn:Hu; simpl; [rewrite Hc; intros [= <-]; by apply Hdb|].
    intros [= <-]. destruct (decide (u1 = id)) as [->|Hne].
    + rewrite lookup_insert_eq. intros [= <-]. simpl.
      rewrite map_map. simpl. intros (x & -> & _)%list_elem_of_fmap. simpl. constructor.
    + rewrite lookup_insert_ne by done. by apply Hdb.
  - unfold update_task_progress. destruct (plans_collection db) as [c|] eqn:Hc;
      [|simpl; rewrite Hc; done].
    destruct (find_one c pid) as [plan|] eqn:Hp; simpl; [|rewrite Hc; intros [= <-]; by apply Hdb].
    intros [= <-]. destruct (decide (pid = id)) as [->|Hne].
    + apply find_one_Some in Hp as [Hp Hu]. rewrite lookup_alter_eq, Hp. intros [= <-]. simpl.
      intros Hin. revert task Hin. apply Forall_forall, mark_first_dates_unique.
      apply Forall_forall. intros task Hin. by eapply Hdb.
    + rewrite lookup_alter_ne by done. by apply Hdb.
  - unfold deactivate_plan. destruct (plans_collection db) as [c|] eqn:Hc;
      [|simpl; rewrite Hc; done].
    destruct (find_one c pid) as [plan|] eqn:Hp; simpl; [|rewrite Hc; intros [= <-]; by apply Hdb].
    intros [= <-]. destruct (decide (pid = id)) as [->|Hne].
    + apply find_one_Some in Hp as [Hp Hu]. rewrite lookup_insert_eq. intros [= <-]. simpl.
      by eapply Hdb.
    + rewrite lookup_insert_ne by done. by apply Hdb.
Qed.

(** X4. A task never records the same date twice: if that holds of a
    store, it holds after any sequence of [create_health_plan],
    [update_task_progress] and [deactivate_plan]; so it holds of every
    store built up from the empty one. *)
Theorem completion_dates_stay_unique :
  (forall ops db, dates_unique db -> dates_unique (foldl run db ops)) /\
  (forall ops, dates_unique (foldl run empty_db ops)).
Proof.
  assert (H : forall ops db, dates_unique db -> dates_unique (foldl run db ops)).
  { induction ops as [|op ops IH]; intros db Hdb; simpl; [done|].
    by apply IH, dates_unique_run. }
  split; [exact H|]. intros ops. apply H.
  intros c id d task [= <-]. by rewrite lookup_empty.
Qed.

Lemma completion_dates_stay_unique_witness :
  completion_dates
    (foldl run empty_db
       [(Create "Rest" "stress" 3 ["Breathe"] "u1" "u2", 1);
        (Update "u1" "Breathe" "2024-01-02", 2);
        (Update "u1" "Breathe" "2024-01-02", 3)]) "u1" "Breathe" = Some ["2024-01-02"] /\
  dates_unique
    (foldl run sample_db [(Update "p1" "Stretch" "2024-01-01", 2)]).
Proof.
  split; [vm_compute; reflexivity|].
  apply (proj1 completion_dates_stay_unique).
  intros c id d task [= <-] Hd Hin.
  destruct (decide (id = "p1")) as [->|Hne].
  - vm_compute in Hd. injection Hd as <-. simpl in Hin.
    repeat (apply elem_of_cons in Hin as [->|Hin]; [simpl; repeat constructor;
      intros H; by repeat (apply elem_of_cons in H as [H|H]; [discriminate|]);
      apply elem_of_nil in H|]).
    by apply elem_of_nil in Hin.
  - rewrite lookup_singleton_ne in Hd by done. done.
Defined.

Lemma timelines_capped_run db op : timelines_capped db -> timelines_capped (run db op).
Proof.
  intros Hdb c' id d'. destruct op as [[pn cond t ts u1 u2|pid name date|pid] now]; simpl.
  - unfold create_health_plan. destruct (plans_collection db) as [c|] eqn:Hc;
      [|simpl; rewrite Hc; done].
    destruct (c !! u1) eqn:Hu; simpl; [rewrite Hc; intros [= <-]; by apply Hdb|].
    intros [= <-]. destruct (decide (u1 = id)) as [->|Hne].
    + rewrite lookup_insert_eq. intros [= <-]. simpl. lia.
    + rewrite lookup_insert_ne by done. by apply Hdb.
  - unfold update_task_progress. destruct (plans_collection db) as [c|] eqn:Hc;
      [|simpl; rewrite Hc; done].
    destruct (find_one c pid) as [plan|] eqn:Hp; simpl; [|rewrite Hc; intros [= <-]; by apply Hdb].
    intros [= <-]. destruct (decide (pid = id)) as [->|Hne].
    + apply find_one_Some in Hp as [Hp Hu]. rewrite lookup_alter_eq, Hp. intros [= <-]. simpl.
      by eapply Hdb.
    + rewrite lookup_alter_ne by done. by apply Hdb.
  - unfold deactivate_plan. destruct (plans_collection db) as [c|] eqn:Hc;
      [|simpl; rewrite Hc; done].
    destruct (find_one c pid) as [plan|] eqn:Hp; simpl; [|rewrite Hc; intros [= <-]; by apply Hdb].
    intros [= <-]. destruct (decide (pid = id)) as [->|Hne].
    + apply find_one_Some in Hp as [Hp Hu]. rewrite lookup_insert_eq. intros [= <-]. simpl.
      by eapply Hdb.
    + rewrite lookup_insert_ne by done. by apply Hdb.
Qed.

(** X5. No sequence of store operations leaves a plan of more than seven
    days in a store that held none; every plan [get_active_plans] lists
    from a store built up from the empty one has [timeline_days] at most
    7. *)
Theorem timeline_days_stay_capped :
  (forall ops db, timelines_capped db -> timelines_capped (foldl run db ops)) /\
  (forall ops p, p ∈ get_active_plans (foldl run empty_db ops) -> Plan.timeline_days p <= 7).
Proof.
  assert (H : forall ops db, timelines_capped db -> timelines_capped (foldl run db ops)).
  { induction ops as [|op ops IH]; intros db Hdb; simpl; [done|].
    by apply IH, timelines_capped_run. }
  split; [exact H|]. intros ops p (c & d & Hc & Hd & _ & _ & ->)%elem_of_get_active_plans.
  simpl. eapply (H ops empty_db); [|exact Hc|exact Hd].
  intros c0 id d0 [= <-]. by rewrite lookup_empty.
Qed.

Lemma timeline_days_stay_capped_witness :
  map Plan.timeline_days
    (get_active_plans
       (foldl run empty_db
          [(Create "Rest" "stress" 30 ["Breathe"] "u1" "u2", 1);
           (Create "Walks" "back pain" 2 ["Walk"] "u3" "u4", 2);
           (Update "u1" "Breathe" "2024-01-02", 3)])) = [2; 7] /\
  timelines_capped (foldl run empty_db [(Create "Rest" "stress" 30 ["Breathe"] "u1" "u2", 1)]).
Proof.
  split; [vm_compute; reflexivity|].
  apply (proj1 timeline_days_stay_capped).
  intros c id d [= <-]. by rewrite lookup_empty.
Defined.

(** ** What marking progress leaves alone *)

Lemma same_but_progress_refl d : same_but_progress d d.
Proof. repeat split. apply tasks_grow_refl. Qed.

Lemma same_but_progress_trans d1 d2 d3 :
  same_but_progress d1 d2 -> same_but_progress d2 d3 -> same_but_progress d1 d3.
Proof.
  intros (?&?&?&?&?&?&?) (?&?&?&?&?&?&?).
  repeat split; try congruence. by eapply tasks_grow_trans.
Qed.

Lemma same_plans_refl db : same_plans db db.
Proof.
  unfold same_plans. destruct (plans_collection db) as [c|]; [|done].
  intros id. destruct (c !! id); [apply same_but_progress_refl|done].
Qed.

Lemma same_plans_trans db1 db2 db3 :
  same_plans db1 db2 -> same_plans db2 db3 -> same_plans db1 db3.
Proof.
  unfold same_plans.
  destruct (plans_collection db1) as [c1|], (plans_collection db2) as [c2|],
    (plans_collection db3) as [c3|]; try done.
  intros H12 H23 id. specialize (H12 id). specialize (H23 id).
  destruct (c1 !! id), (c2 !! id), (c3 !! id); try done.
  by eapply same_but_progress_trans.
Qed.

Lemma same_plans_update_task_progress db plan_id name date now :
  same_plans db (update_task_progress db plan_id name date now).1.
Proof.
  unfold update_task_progress.
  destruct (plans_collection db) as [c|] eqn:Hc; simpl; [|apply same_plans_refl].
  destruct (find_one c plan_id) as [plan|] eqn:Hp; simpl; [|apply same_plans_refl].
  unfold same_plans. rewrite Hc. simpl. intros id.
  destruct (decide (id = plan_id)) as [->|Hne].
  - apply find_one_Some in Hp as [Hp _]. rewrite lookup_alter_eq, Hp. simpl.
    repeat split. simpl. apply mark_first_grows.
  - rewrite lookup_alter_ne by done.
    destruct (c !! id); [apply same_but_progress_refl|done].
Qed.

Lemma same_plans_mark_and_collect plan_id today now acc name :
  same_plans acc.1 (mark_and_collect plan_id today now acc name).1.
Proof. apply same_plans_update_task_progress. Qed.

Lemma same_plans_mark_all_pending p today now acc :
  same_plans acc.1 (mark_all_pending p today now acc).1.
Proof.
  unfold mark_all_pending. generalize (Plan.tasks p) as ts. intros ts. revert acc.
  induction ts as [|t ts IH]; intros acc; simpl; [apply same_plans_refl|].
  destruct (bool_decide (today ∈ progress t)); [apply IH|].
  eapply same_plans_trans; [|apply IH]. apply same_plans_mark_and_collect.
Qed.

Lemma same_plans_mark_reported message_lower today now plans acc :
  same_plans acc.1 (mark_reported message_lower today now plans acc).1.
Proof.
  unfold mark_reported. revert acc.
  induction plans as [|p plans IH]; intros acc; simpl; [apply same_plans_refl|].
  eapply same_plans_trans; [|apply IH].
  generalize (Plan.tasks p) as ts. intros ts. revert acc. clear IH.
  induction ts as [|t ts IH]; intros acc; simpl; [apply same_plans_refl|].
  destruct (bool_decide (today ∈ progress t)); [apply IH|].
  destruct (task_reported message_lower (task_name t)); [|apply IH].
  eapply same_plans_trans; [|apply IH]. apply same_plans_mark_and_collect.
Qed.

Lemma same_plans_mark_mentioned user_lower today now plans acc :
  same_plans acc.1 (mark_mentioned user_lower today now plans acc).1.
Proof.
  unfold mark_mentioned. revert acc.
  induction plans as [|p plans IH]; intros acc; simpl; [apply same_plans_refl|].
  eapply same_plans_trans; [|apply IH].
  generalize (Plan.tasks p) as ts. intros ts. revert acc. clear IH.
  induction ts as [|t ts IH]; intros acc; simpl; [apply same_plans_refl|].
  destruct (bool_decide (today ∈ progress t)); [apply IH|].
  destruct (existsb _ (long_words _)); [|apply IH].
  eapply same_plans_trans; [|apply IH]. apply same_plans_update_task_progress.
Qed.

Lemma same_plans_report_updated_tasks db request today now :
  same_plans db (report_updated_tasks db request today now).1.
Proof.
  unfold report_updated_tasks. destruct (directed request).
  - match goal with |- context [match ?t with Some _ => _ | None => _ end] =>
      destruct t as [target|] end; [|apply same_plans_refl].
    apply (same_plans_mark_all_pending target today now (db, [])).
  - apply (same_plans_mark_reported _ today now _ (db, [])).
Qed.

(** X6. Marking progress only ever adds dates.  [update_task_progress],
    [daily_progress_report], the progress marking of the chat route and
    [process_progress_from_ai_response] leave the store with the same
    plans under the same ids, each with the owner, name, condition,
    timeline, active flag and creation time it had and with the same
    tasks in the same order; only completion dates and [updated_at]
    change. *)
Theorem marking_progress_keeps_plans db :
  (forall plan_id name date now,
     same_plans db (update_task_progress db plan_id name date now).1) /\
  (forall request today now utc_today,
     same_plans db (daily_progress_report db request today now utc_today).1) /\
  (forall message today now, same_plans db (chat_mark_progress db message today now).1) /\
  (forall ai_response user_message today now,
     same_plans db (process_progress_from_ai_response db ai_response user_message today now).1).
Proof.
  split; [intros; apply same_plans_update_task_progress|].
  split.
  { intros request today now utc_today.
    apply (same_plans_plans _ _ _ (daily_progress_report_plans _ _ _ _ _)).
    apply same_plans_report_updated_tasks. }
  split.
  - intros message today now. unfold chat_mark_progress.
    destruct (existsb _ _); [|apply same_plans_refl].
    destruct (chat_progress_target _ _) as [target|]; [|apply same_plans_refl].
    apply (same_plans_mark_all_pending target today now (db, [])).
  - intros ai_response user_message today now. unfold process_progress_from_ai_response.
    destruct (get_active_plans db) as [|p ps]; [apply same_plans_refl|].
    destruct (existsb _ completion_words); [|apply same_plans_refl].
    apply (same_plans_mark_mentioned _ today now _ (db, 0)).
Qed.

(** ** Marking all tasks of one plan *)

Lemma completion_dates_found db plan_id name dates :
  completion_dates db plan_id name = Some dates ->
  exists c plan, plans_collection db = Some c /\ find_one c plan_id = Some plan.
Proof.
  unfold completion_dates. destruct (plans_collection db) as [c|]; simpl; [|done].
  destruct (find_one c plan_id) as [plan|] eqn:Hp; simpl; [|done]. eauto.
Qed.

Lemma mark_all_pending_fold plan_id name today now ts : forall acc old,
  completion_dates acc.1 plan_id name = Some old ->
  exists new,
    completion_dates
      (foldl (fun acc task =>
                if bool_decide (today ∈ progress task) then acc
                else mark_and_collect plan_id today now acc (task_name task)) acc ts).1
      plan_id name = Some new /\
    (today ∈ new <->
     (today ∈ old) \/ exists t, t ∈ ts /\ task_name t = name /\ (today ∉ progress t)).
Proof.
  induction ts as [|t ts IH]; intros acc old Hold; simpl.
  - exists old. split; [done|].
    split; [auto|]. intros [?|(t & Ht%elem_of_nil & _)]; done.
  - destruct (decide (today ∈ progress t)) as [Hdone|Hpending].
    + rewrite bool_decide_eq_true_2 by done.
      destruct (IH acc old Hold) as (new & Hnew & Hiff).
      exists new. split; [done|]. rewrite Hiff.
      setoid_rewrite elem_of_cons. clear -Hdone.
      split; (intros [?|(t0 & Hin & Hn & Hpend)]; [by left|]).
      * right. exists t0. auto.
      * destruct Hin as [->|Hin]; [done|]. right. exists t0. auto.
    + rewrite bool_decide_eq_false_2 by done.
      destruct (dates_mark_and_collect plan_id name today now acc plan_id (task_name t) old Hold)
        as (mid & Hmid & Hiff).
      destruct (IH _ mid Hmid) as (new & Hnew & Hiff').
      exists new. split; [done|]. rewrite Hiff', Hiff.
      setoid_rewrite elem_of_cons. clear -Hpending.
      split.
      * intros [[?|[_ Hn]]|(t0 & Hin & Hn & Hpend)]; [by left| |].
        -- right. exists t. auto.
        -- right. exists t0. auto.
      * intros [?|(t0 & [->|Hin] & Hn & Hpend)]; [by left; left| |].
        -- left. right. auto.
        -- right. exists t0. auto.
Qed.

Lemma mark_and_collect_found plan_id today now acc name c plan :
  plans_collection acc.1 = Some c -> find_one c plan_id = Some plan ->
  mark_and_collect plan_id today now acc name =
    (with_plans acc.1
       (alter (Doc.set_tasks (mark_first name today (Doc.tasks plan)) now) plan_id c),
     acc.2 ++ [name]).
Proof.
  intros Hc Hp. unfold mark_and_collect.
  by rewrite (update_task_progress_found _ _ _ _ _ _ _ Hc Hp).
Qed.

Lemma mark_all_pending_names plan_id today now ts : forall acc c plan,
  plans_collection acc.1 = Some c -> find_one c plan_id = Some plan ->
  (foldl (fun acc task =>
            if bool_decide (today ∈ progress task) then acc
            else mark_and_collect plan_id today now acc (task_name task)) acc ts).2 =
  acc.2 ++ map task_name (filter (fun task => today ∉ progress task) ts).
Proof.
  induction ts as [|t ts IH]; intros acc c plan Hc Hp; simpl; [by rewrite app_nil_r|].
  destruct (decide (today ∈ progress t)) as [Hdone|Hpending].
  - rewrite bool_decide_eq_true_2 by done. rewrite filter_cons_False by auto. by eapply IH.
  - rewrite bool_decide_eq_false_2 by done. rewrite filter_cons_True by done.
    rewrite (mark_and_collect_found _ _ _ _ _ _ _ Hc Hp).
    erewrite IH; [|reflexivity|by apply find_one_alter_set_tasks].
    simpl. by rewrite <- app_assoc.
Qed.

Lemma mark_all_pending_marks db p today now :
  p ∈ get_active_plans db -> NoDup (map task_name (Plan.tasks p)) ->
  let r := mark_all_pending p today now (db, []) in
  (forall task, task ∈ Plan.tasks p -> marked r.1 (Plan.id p) (task_name task) today) /\
  r.2 = pending_names today p.
Proof.
  intros Hp Hnd r. split.
  - intros task Htask.
    pose proof (completion_dates_active db p task Hp Hnd Htask) as Hold.
    destruct (mark_all_pending_fold (Plan.id p) (task_name task) today now (Plan.tasks p)
                (db, []) (progress task) Hold) as (new & Hnew & Hiff).
    exists new. split; [exact Hnew|]. apply Hiff.
    destruct (decide (today ∈ progress task)); [by left|]. right. by exists task.
  - subst r. unfold mark_all_pending, pending_names.
    apply elem_of_get_active_plans in Hp as (c & d & Hc & Hd & Hu & _ & _).
    rewrite (mark_all_pending_names (Plan.id p) today now (Plan.tasks p) (db, []) c d);
      [done|done|]. by apply find_one_Some.
Qed.

(** X7. Marking all tasks of a plan: when [daily_progress_report] is
    asked to mark all tasks and finds its target plan, or the chat route
    finds the plan it marks, every task of that plan is marked complete
    for today afterwards (the names of its tasks being distinct), and the
    tasks reported as updated are exactly those that were not yet done
    today, in the order of the plan. *)
Theorem marking_all_marks_every_task db p today now :
  p ∈ get_active_plans db -> NoDup (map task_name (Plan.tasks p)) ->
  (forall request utc_today,
     directed request = true -> report_target request (get_active_plans db) = Some p ->
     let r := daily_progress_report db request today now utc_today in
     (forall task, task ∈ Plan.tasks p -> marked r.1 (Plan.id p) (task_name task) today) /\
     r.2 = pending_names today p) /\
  (forall message,
     existsb (fun keyword => Py.contains keyword (Py.lower message))
             ["mark"; "completed"; "finished"; "done"; "progress"] = true ->
     chat_progress_target message (get_active_plans db) = Some p ->
     let r := chat_mark_progress db message today now in
     (forall task, task ∈ Plan.tasks p -> marked r.1 (Plan.id p) (task_name task) today) /\
     r.2 = pending_names today p).
Proof.
  intros Hp Hnd. split.
  - intros request utc_today Hdir Htarget r. subst r.
    rewrite daily_progress_report_tasks.
    setoid_rewrite (marked_plans _ _ _ _ _ (daily_progress_report_plans _ _ _ _ _)).
    unfold report_updated_tasks. rewrite Hdir.
    unfold report_target in Htarget. rewrite Htarget.
    by apply mark_all_pending_marks.
  - intros message Hkey Htarget r. subst r. unfold chat_mark_progress.
    rewrite Hkey, Htarget. by apply mark_all_pending_marks.
Qed.

Lemma marking_all_marks_every_task_witness :
  marked (daily_progress_report sample_db
            (mkRequest "please mark all back pain tasks" false None)
            "2024-01-02" 11 19724).1 "p1" "Walk daily" "2024-01-02" /\
  marked (daily_progress_report sample_db
            (mkRequest "please mark all back pain tasks" false None)
            "2024-01-02" 11 19724).1 "p1" "Stretch" "2024-01-02" /\
  (daily_progress_report sample_db (mkRequest "please mark all back pain tasks" false None)
                         "2024-01-02" 11 19724).2 = ["Walk daily"; "Stretch"].
Proof.
  set (request := mkRequest "please mark all back pain tasks" false None).
  destruct (marking_all_marks_every_task sample_db (Plan.of_doc ("p1", sample_plan))
              "2024-01-02" 11) as [H _].
  - vm_compute. apply list_elem_of_here.
  - vm_compute. repeat constructor; intros Hin;
      repeat (apply elem_of_cons in Hin as [Hin|Hin]; [discriminate|]); by apply elem_of_nil in Hin.
  - destruct (H request 19724) as [Hall Hnames];
      [vm_compute; reflexivity|vm_compute; reflexivity|].
    split; [apply (Hall (mkTask "Walk daily" [])); apply list_elem_of_here|].
    split; [apply (Hall (mkTask "Stretch" ["2024-01-01"]));
            apply list_elem_of_further, list_elem_of_here|].
    exact Hnames.
Defined.

(** ** Reporting the same progress twice *)

Lemma mark_reported_nothing message_lower today now plans acc :
  (forall p t, p ∈ plans -> t ∈ Plan.tasks p -> today ∉ progress t ->
               task_reported message_lower (task_name t) = false) ->
  mark_reported message_lower today now plans acc = acc.
Proof.
  unfold mark_reported. revert acc.
  induction plans as [|p plans IH]; intros acc Hno; simpl; [done|].
  assert (Hp : foldl (fun acc task =>
                        if bool_decide (today ∈ progress task) then acc
                        else if task_reported message_lower (task_name task)
                             then mark_and_collect (Plan.id p) today now acc (task_name task)
                             else acc) acc (Plan.tasks p) = acc).
  { assert (Hts : forall t, t ∈ Plan.tasks p -> today ∉ progress t ->
                            task_reported message_lower (task_name t) = false).
    { intros t Ht. apply (Hno p); [apply list_elem_of_here|done]. }
    revert Hts. generalize (Plan.tasks p) as ts. intros ts. revert acc. clear.
    induction ts as [|t ts IHts]; intros acc Hts; simpl; [done|].
    destruct (decide (today ∈ progress t)) as [Hdone|Hpending].
    - rewrite bool_decide_eq_true_2 by done. apply IHts.
      intros t' Ht'. apply Hts. by apply list_elem_of_further.
    - rewrite bool_decide_eq_false_2 by done.
      rewrite (Hts t) by (done || apply list_elem_of_here). apply IHts.
      intros t' Ht'. apply Hts. by apply list_elem_of_further. }
  rewrite Hp. apply IH. intros q t Hq. apply (Hno q). by apply list_elem_of_further.
Qed.

Lemma reported_task_marked db message_lower today now p task :
  p ∈ get_active_plans db -> NoDup (map task_name (Plan.tasks p)) ->
  task ∈ Plan.tasks p -> today ∉ progress task ->
  task_reported message_lower (task_name task) = true ->
  marked (mark_reported message_lower today now (get_active_plans db) (db, [])).1
         (Plan.id p) (task_name task) today.
Proof.
  intros Hp Hnd Htask Hpending Hrep.
  pose proof (completion_dates_active db p task Hp Hnd Htask) as Hold.
  destruct (dates_mark_reported message_lower (Plan.id p) (task_name task) today now
              (get_active_plans db) (db, []) (progress task) Hold) as (new & Hnew & Hin).
  exists new. split; [done|]. apply Hin. right. by exists p, task.
Qed.

Lemma tasks_grow_names ts ts' : tasks_grow ts ts' -> map task_name ts' = map task_name ts.
Proof. induction 1 as [|t t' ts ts' [Hn _] _ IH]; simpl; [done|]. by rewrite Hn, IH. Qed.

Lemma tasks_grow_elem_of ts ts' t' :
  tasks_grow ts ts' -> t' ∈ ts' ->
  exists t, t ∈ ts /\ task_name t' = task_name t /\ progress t ⊆ progress t'.
Proof.
  induction 1 as [|t0 t0' ts ts' [Hn Hp] _ IH]; [by intros ?%elem_of_nil|].
  intros [->|Hin]%elem_of_cons.
  - exists t0. split; [apply list_elem_of_here|done].
  - destruct (IH Hin) as (t & Ht & ?). exists t. split; [by apply list_elem_of_further|done].
Qed.

(** The marking of a second report: with the plans as the first report
    left them, the same message finds nothing left to mark. *)
Lemma report_updated_tasks_again db db1 request today now1 now2 :
  directed request = false -> task_names_distinct db ->
  plans_collection db1 = plans_collection (report_updated_tasks db request today now1).1 ->
  report_updated_tasks db1 request today now2 = (db1, []).
Proof.
  intros Hdir Hdistinct Hpl.
  pose proof (same_plans_plans _ _ _ Hpl (same_plans_report_updated_tasks db request today now1))
    as Hsame.
  assert (Hr1 : report_updated_tasks db request today now1
                = mark_reported (Py.lower (message request)) today now1
                    (get_active_plans db) (db, [])).
  { unfold report_updated_tasks. by rewrite Hdir. }
  unfold report_updated_tasks at 1. rewrite Hdir.
  apply mark_reported_nothing.
  intros p' t' Hp' Ht' Hpending.
  destruct (task_reported (Py.lower (message request)) (task_name t')) eqn:Hrep; [|done].
  exfalso.
  apply elem_of_get_active_plans in Hp' as (c1 & d' & Hc1 & Hd' & Hu' & Ha' & Hp').
  unfold same_plans in Hsame. rewrite Hc1 in Hsame.
  destruct (plans_collection db) as [c|] eqn:Hc; [|done].
  specialize (Hsame (Plan.id p')). rewrite Hd' in Hsame.
  destruct (c !! Plan.id p') as [d|] eqn:Hd; [|done].
  destruct Hsame as (Hu & _ & _ & _ & Ha & _ & Hgrow).
  set (p := Plan.of_doc (Plan.id p', d)).
  assert (Hp : p ∈ get_active_plans db).
  { apply elem_of_get_active_plans. exists c, d. subst p. simpl.
    repeat split; try done; congruence. }
  assert (Htasks' : Plan.tasks p' = Doc.tasks d') by (by rewrite Hp').
  rewrite Htasks' in Ht'.
  destruct (tasks_grow_elem_of _ _ _ Hgrow Ht') as (t & Ht & Hname & Hsub).
  assert (Hpend : today ∉ progress t) by (intros Hin; apply Hpending, Hsub, Hin).
  rewrite Hname in Hrep.
  pose proof (reported_task_marked db _ today now1 p t Hp (Hdistinct p Hp) Ht Hpend Hrep)
    as (dates & Hdates & Htoday).
  rewrite <- Hr1, <- (completion_dates_plans _ _ _ _ Hpl) in Hdates.
  unfold completion_dates in Hdates.
  rewrite Hc1 in Hdates. simpl in Hdates.
  rewrite (proj2 (find_one_Some c1 (Plan.id p') d')) in Hdates by done. simpl in Hdates.
  assert (Hnd' : NoDup (map task_name (Doc.tasks d'))).
  { rewrite (tasks_grow_names _ _ Hgrow). apply (Hdistinct p Hp). }
  rewrite <- Hname, (find_task_NoDup _ _ Hnd' Ht') in Hdates. simpl in Hdates.
  injection Hdates as <-. done.
Qed.

(** X8. Reporting the same progress twice on one day marks nothing the
    second time: when no target plan is named and the task names of
    every active plan are distinct, the second [daily_progress_report]
    with the same message marks no task and leaves the plans as the
    first one left them.  What the second report changes of the store is
    the counter of Ruby, for whom its reply is counted. *)
Theorem daily_progress_report_twice db request today now1 utc_today1 now2 utc_today2 :
  directed request = false -> task_names_distinct db ->
  let r1 := daily_progress_report db request today now1 utc_today1 in
  let r2 := daily_progress_report r1.1 request today now2 utc_today2 in
  r2.2 = [] /\
  plans_collection r2.1 = plans_collection r1.1 /\
  r2.1 = count_message r1.1 (mkCounted "Ruby" (report_response [] today) utc_today2 now2).
Proof.
  intros Hdir Hdistinct r1 r2.
  pose proof (report_updated_tasks_again db r1.1 request today now1 now2 Hdir Hdistinct
                (daily_progress_report_plans _ _ _ _ _)) as Hagain.
  assert (Hr2 : r2 = (count_message r1.1
                        (mkCounted "Ruby" (report_response [] today) utc_today2 now2), [])).
  { subst r2. unfold daily_progress_report at 1. cbn [store_chat_message].
    rewrite Hagain. reflexivity. }
  rewrite Hr2. cbn [fst snd]. split; [done|]. split; [|done].
  apply (plans_store_chat_message r1.1 (report_response [] today) "ai" (Some "Ruby")).
Qed.

Lemma daily_progress_report_twice_witness :
  (daily_progress_report sample_db (mkRequest "yes done, finished, all good" false None)
     "2024-01-02" 11 19724).2 = ["Walk daily"; "Stretch"] /\
  (daily_progress_report
     (daily_progress_report sample_db (mkRequest "yes done, finished, all good" false None)
        "2024-01-02" 11 19724).1
     (mkRequest "yes done, finished, all good" false None) "2024-01-02" 12 19724).2 = [] /\
  specialist_stats_collection
    (daily_progress_report
       (daily_progress_report sample_db (mkRequest "yes done, finished, all good" false None)
          "2024-01-02" 11 19724).1
       (mkRequest "yes done, finished, all good" false None) "2024-01-02" 12 19724).1
  = Some [Stat.mk "Ruby" 58 2 12 {[ "2024-01-02" := 58 ]}].
Proof.
  split; [vm_compute; reflexivity|].
  destruct (daily_progress_report_twice sample_db
              (mkRequest "yes done, finished, all good" false None) "2024-01-02" 11 19724
              12 19724) as (Hnone & _ & Hstore).
  - vm_compute. reflexivity.
  - intros p Hp. vm_compute in Hp. apply list_elem_of_singleton in Hp as ->.
    vm_compute. repeat constructor; intros Hin;
      repeat (apply elem_of_cons in Hin as [Hin|Hin]; [discriminate|]); by apply elem_of_nil in Hin.
  - split; [exact Hnone|]. cbv zeta in Hstore. rewrite Hstore. vm_compute. reflexivity.
Defined.

(** ** The deactivation request of the chat route *)

Lemma find_first {A} (f : A -> bool) (l : list A) (x : A) :
  List.find f l = Some x ->
  exists l1 l2, l = l1 ++ x :: l2 /\ f x = true /\ forall y, y ∈ l1 -> f y = false.
Proof.
  induction l as [|a l IH]; simpl; [done|].
  destruct (f a) eqn:Ha.
  - intros [= ->]. exists [], l. split; [done|]. split; [done|]. by intros y ?%elem_of_nil.
  - intros (l1 & l2 & -> & Hx & Hl1)%IH. exists (a :: l1), l2.
    split; [done|]. split; [done|]. by intros y [->|?]%elem_of_cons; auto.
Qed.

(** X9. The plan step of the chat route on a message with a
    deactivation keyword: the message is handled as a deactivation
    request and as nothing else, whatever other keywords it holds, so the
    step creates no plan.  It deactivates the first active plan, newest
    first, one of whose condition or name words longer than 3 characters
    occurs in the lower-cased message: the step reports the name of that
    plan, the plan is no longer listed and every other plan stays listed.
    When the message mentions no plan the step changes nothing and
    reports nothing.  Without a keyword the step reports no
    deactivation. *)
Theorem chat_deactivation_first_match db message response uuid1 uuid2 now :
  let r := chat_plan_step db message response uuid1 uuid2 now in
  let request :=
    existsb (fun keyword => Py.contains keyword (Py.lower message)) deactivation_keywords in
  (request = true ->
   PlanStep.plan_created r.2 = false /\ PlanStep.plan_id r.2 = None /\
   PlanStep.plan_data r.2 = None /\
   (deactivation_target message (get_active_plans db) = None ->
    r = (db, PlanStep.mk false None None false None)) /\
   (forall target,
      deactivation_target message (get_active_plans db) = Some target ->
      PlanStep.plan_deactivated r.2 = true /\
      PlanStep.deactivated_plan_name r.2 = Some (Plan.plan_name target) /\
      (exists before after,
         get_active_plans db = before ++ target :: after /\
         plan_mentioned message target = true /\
         forall q, q ∈ before -> plan_mentioned message q = false) /\
      (forall p, p ∈ get_active_plans r.1 <->
                 p ∈ get_active_plans db /\ Plan.id p <> Plan.id target))) /\
  (request = false ->
   PlanStep.plan_deactivated r.2 = false /\ PlanStep.deactivated_plan_name r.2 = None).
Proof.
  intros r request. subst r request. unfold chat_plan_step. split.
  - intros ->. cbn [fst snd PlanStep.plan_created PlanStep.plan_id PlanStep.plan_data].
    split; [done|]. split; [done|]. split; [done|]. unfold chat_deactivation. split.
    + by intros ->.
    + intros target Htarget. rewrite Htarget.
      destruct (find_first _ _ _ Htarget) as (before & after & Hlist & Hm & Hbefore).
      assert (Hin : target ∈ get_active_plans db).
      { rewrite Hlist. apply elem_of_app. right. apply list_elem_of_here. }
      apply elem_of_get_active_plans in Hin as (c & d & Hc & Hd & Hu & Ha & Hp).
      assert (Hfind : find_one c (Plan.id target) = Some d) by (by apply find_one_Some).
      rewrite (deactivate_plan_found _ _ _ _ _ Hc Hfind). cbn [fst snd].
      rewrite bool_decide_eq_true_2 by (by apply set_inactive_changes). cbn [fst snd].
      split; [done|]. split; [done|]. split; [by exists before, after|].
      intros p. by apply elem_of_get_active_plans_deactivated.
  - intros ->. destruct (existsb _ progress_keywords); [done|].
    by destruct (has_health_condition_keywords message).
Qed.

Lemma chat_deactivation_first_match_witness :
  (let r := chat_plan_step sample_db "please stop my back pain plan" NoJson "u1" "u2" 30 in
   PlanStep.plan_created r.2 = false /\
   PlanStep.plan_deactivated r.2 = true /\
   PlanStep.deactivated_plan_name r.2 = Some "Back Pain Plan" /\
   get_active_plans r.1 = []) /\
  chat_plan_step sample_db "my back pain will not stop" NoJson "u1" "u2" 30
    = chat_plan_step sample_db "please stop my back pain plan" NoJson "u1" "u2" 30 /\
  chat_plan_step sample_db "please stop my yoga course" NoJson "u1" "u2" 30
    = (sample_db, PlanStep.mk false None None false None).
Proof.
  destruct (chat_deactivation_first_match sample_db "please stop my back pain plan"
              NoJson "u1" "u2" 30) as [H _].
  destruct H as (Hcreated & _ & _ & _ & H); [vm_compute; reflexivity|].
  destruct (H (Plan.of_doc ("p1", sample_plan))) as (Hdone & Hname & _ & _);
    [vm_compute; reflexivity|].
  split; [|split].
  - cbv zeta. split; [exact Hcreated|]. split; [exact Hdone|]. split; [exact Hname|].
    vm_compute. reflexivity.
  - vm_compute. reflexivity.
  - destruct (chat_deactivation_first_match sample_db "please stop my yoga course"
                NoJson "u1" "u2" 30) as [H' _].
    destruct H' as (_ & _ & _ & Hnone & _); [vm_compute; reflexivity|].
    apply Hnone. vm_compute. reflexivity.
Defined.

(** ** The text of an extracted task *)



Lemma split_single c s :
  Py.is_space c = false -> Py.split s = [] -> Py.split (String c s) = [String c EmptyString].
Proof.
  intros Hc Hs. destruct (split_word c s Hc) as (w & ws & Hsplit & Hcase). rewrite Hsplit.
  destruct Hcase as [(_ & -> & ->)|(c1 & s1 & -> & _ & Hs')]; [by rewrite Hs|congruence].
Qed.

Lemma split_cons_word c s w ws :
  Py.is_space c = false -> starts_word s = true -> Py.split s = w :: ws ->
  Py.split (String c s) = String c w :: ws.
Proof.
  intros Hc Hstart Hs. destruct (split_word c s Hc) as (w' & ws' & Hsplit & Hcase). rewrite Hsplit.
  destruct Hcase as [([->|(c1 & s1 & -> & Hc1)] & _ & _)|(c1 & s1 & -> & _ & Hs')].
  - by simpl in Hs.
  - simpl in Hstart. by rewrite Hc1 in Hstart.
  - congruence.
Qed.

Lemma split_cons_break c s :
  Py.is_space c = false -> starts_word s = false ->
  Py.split (String c s) = String c EmptyString :: Py.split s.
Proof.
  intros Hc Hstart. destruct (split_word c s Hc) as (w' & ws' & Hsplit & Hcase). rewrite Hsplit.
  destruct Hcase as [(_ & -> & ->)|(c1 & s1 & -> & Hc1 & _)]; [done|].
  simpl in Hstart. by rewrite Hc1 in Hstart.
Qed.

Lemma no_space_starts_word w : w <> EmptyString -> no_space w = true -> starts_word w = true.
Proof. destruct w as [|a w]; [done|]. simpl. by intros _ [? _]%andb_true_iff. Qed.

(** A word followed by a space and a text splits into the word and the
    words of the text. *)
Lemma split_word_space w rest :
  w <> EmptyString -> no_space w = true ->
  Py.split (w +:+ String " " rest) = w :: Py.split rest.
Proof.
  induction w as [|a w IH]; [done|]. intros _ Hns. simpl in Hns.
  apply andb_true_iff in Hns as [Ha Hns]. apply negb_true_iff in Ha.
  rewrite append_cons. destruct w as [|b w].
  - rewrite append_nil, split_cons_break by done. by rewrite split_space.
  - erewrite split_cons_word; [reflexivity|done| |by apply IH].
    rewrite append_cons. by apply (no_space_starts_word (String b w)).
Qed.

Lemma split_one_word w : w <> EmptyString -> no_space w = true -> Py.split w = [w].
Proof.
  induction w as [|a w IH]; [done|]. intros _ Hns. simpl in Hns.
  apply andb_true_iff in Hns as [Ha Hns]. apply negb_true_iff in Ha.
  destruct w as [|b w]; [by rewrite split_single|].
  erewrite split_cons_word; [reflexivity|done| |by apply IH].
  by apply (no_space_starts_word (String b w)).
Qed.

Lemma split_join ws :
  Forall (fun w => w <> EmptyString /\ no_space w = true) ws ->
  Py.split (Py.join " " ws) = ws.
Proof.
  induction 1 as [|w ws [Hne Hns] Hws IH]; [done|].
  destruct ws as [|w2 ws].
  - simpl. by apply split_one_word.
  - change (Py.join " " (w :: w2 :: ws)) with (w +:+ String " " (Py.join " " (w2 :: ws))).
    rewrite split_word_space by done. by rewrite IH.
Qed.

Lemma split_nonempty s w : w ∈ Py.split s -> w <> EmptyString.
Proof.
  revert w. induction s as [|c s IH]; intros w; [by intros ?%elem_of_nil|].
  destruct (Py.is_space c) eqn:Hc.
  - rewrite split_space by done. apply IH.
  - destruct (split_word c s Hc) as (w1 & ws & Hs & Hcase). rewrite Hs.
    intros [->|Hin]%elem_of_cons; [done|].
    apply IH. destruct Hcase as [(_ & _ & ->)|(c1 & s1 & -> & _ & Hsplit)]; [done|].
    rewrite Hsplit. by apply list_elem_of_further.
Qed.

Lemma split_words_ok s :
  Forall (fun w => w <> EmptyString /\ no_space w = true) (Py.split s).
Proof.
  apply Forall_forall. intros w Hw. split; [by eapply split_nonempty|by eapply split_no_space].
Qed.

Lemma split_lstrip s : Py.split (Py.lstrip s) = Py.split s.
Proof.
  induction s as [|c s IH]; [done|]. simpl Py.lstrip.
  destruct (Py.is_space c) eqn:Hc; [|done]. by rewrite split_space.
Qed.

Lemma rstrip_shape s :
  Py.rstrip s = EmptyString \/
  exists a s' r, s = String a s' /\ Py.rstrip s = String a r.
Proof.
  destruct s as [|a s]; [by left|]. simpl.
  destruct (Py.rstrip s) as [|b r]; [destruct (Py.is_space a); [by left|right; eauto]|].
  right. eauto.
Qed.

Lemma split_rstrip s : Py.split (Py.rstrip s) = Py.split s.
Proof.
  induction s as [|c s IH]; [done|].
  change (Py.rstrip (String c s)) with
    (match Py.rstrip s with
     | EmptyString => if Py.is_space c then EmptyString else String c EmptyString
     | String b r => String c (String b r)
     end).
  destruct (Py.is_space c) eqn:Hc.
  - rewrite (split_space c s) by done.
    destruct (Py.rstrip s) as [|b r] eqn:Hr; [done|]. by rewrite split_space.
  - destruct (Py.rstrip s) as [|b r] eqn:Hr.
    + assert (Hstart : starts_word s = false).
      { destruct s as [|a s']; [done|]. simpl in Hr |- *.
        destruct (Py.rstrip s'); [|done]. by destruct (Py.is_space a). }
      rewrite (split_cons_break c s Hc Hstart), <- IH. by rewrite split_single.
    + destruct (rstrip_shape s) as [Hnil|(a & s' & r' & -> & Hr')]; [congruence|].
      rewrite Hr in Hr'. injection Hr' as -> ->.
      destruct (Py.is_space a) eqn:Ha.
      * rewrite (split_cons_break c (String a r')), (split_cons_break c (String a s'))
          by (simpl; by rewrite ?Ha).
        by rewrite IH.
      * destruct (split_word a r' Ha) as (w & ws & Hs & _).
        assert (Hstart : forall t, starts_word (String a t) = true) by (intros t; simpl; by rewrite Ha).
        rewrite (split_cons_word c (String a r') _ ws Hc (Hstart r') Hs).
        rewrite IH in Hs.
        by rewrite (split_cons_word c (String a s') _ ws Hc (Hstart s') Hs).
Qed.

Lemma split_strip s : Py.split (Py.strip s) = Py.split s.
Proof. unfold Py.strip. by rewrite split_rstrip, split_lstrip. Qed.

(** X10. The cleaning of a task text keeps its words and nothing else:
    the cleaned text has the words of the raw text, in the same order,
    and cleaning a cleaned text changes nothing. *)
Theorem normalize_spaces_keeps_words task_content :
  Py.split (normalize_spaces task_content) = Py.split task_content /\
  normalize_spaces (normalize_spaces task_content) = normalize_spaces task_content.
Proof.
  assert (H : forall s, Py.split (normalize_spaces s) = Py.split s).
  { intros s. unfold normalize_spaces. rewrite split_join by apply split_words_ok.
    apply split_strip. }
  split; [apply H|].
  unfold normalize_spaces at 1. rewrite split_strip, H. unfold normalize_spaces.
  by rewrite split_strip.
Qed.




(** ** The specialist counters *)




Lemma breakdown_words_insert m name words :
  m !! name = None -> breakdown_words (<[name := words]> m) = words + breakdown_words m.
Proof.
  intros Hnone. unfold breakdown_words.
  rewrite map_fold_insert_L; [done| |done]. intros. lia.
Qed.

Lemma breakdown_words_update m name old words :
  m !! name = Some old ->
  breakdown_words (<[name := words]> m) = words - old + breakdown_words m.
Proof.
  intros Hold.
  rewrite <- (insert_delete_eq m name words).
  rewrite <- (insert_id m name old Hold) at 2. rewrite <- (insert_delete_eq m name old).
  rewrite !breakdown_words_insert by apply lookup_delete_eq. lia.
Qed.

Lemma count_words_names name wc today now c other :
  other ∈ map Stat.specialist_name (count_words name wc today now c) ->
  other = name \/ other ∈ map Stat.specialist_name c.
Proof.
  induction c as [|stat c IH]; cbn [count_words].
  - intros ->%list_elem_of_singleton. by left.
  - case_bool_decide as Hname; cbn [map Stat.specialist_name].
    + intros H. by right.
    + intros [->|H]%elem_of_cons; [right; apply list_elem_of_here|].
      destruct (IH H) as [->|H']; [by left|right; by apply list_elem_of_further].
Qed.

Lemma counters_ok_count_words name wc today now c :
  0 <= wc -> counters_ok c -> counters_ok (count_words name wc today now c).
Proof.
  intros Hwc. induction c as [|stat c IH]; intros [Hnames Hstats]; cbn [count_words].
  - split; [apply NoDup_singleton|].
    intros stat ->%list_elem_of_singleton. cbn. split; [|split; [|lia]].
    + intros date_str n [_ <-]%lookup_singleton_Some. done.
    + change ({[today := wc]} : gmap string Z) with (<[today := wc]> (∅ : gmap string Z)).
      rewrite breakdown_words_insert by apply lookup_empty.
      unfold breakdown_words. rewrite map_fold_empty. lia.
  - cbn [map] in Hnames. apply NoDup_cons in Hnames as [Hfresh Hnames].
    destruct (Hstats stat) as (Hpos & Htotal & Hmsgs); [apply list_elem_of_here|].
    case_bool_decide as Hname.
    + split; [cbn [map Stat.specialist_name]; by apply NoDup_cons|].
      intros stat' [->|Hin]%elem_of_cons; [|apply Hstats; by apply list_elem_of_further].
      cbn. split; [|split; [|lia]].
      * intros date_str n. destruct (decide (date_str = today)) as [->|Hd].
        -- rewrite lookup_insert_eq. intros [= <-].
           destruct (Stat.daily_word_counts stat !! today) as [old|] eqn:Hold; simpl; [|lia].
           specialize (Hpos _ _ Hold). lia.
        -- rewrite lookup_insert_ne by done. apply Hpos.
      * rewrite Htotal.
        destruct (Stat.daily_word_counts stat !! today) as [old|] eqn:Hold; simpl.
        -- rewrite (breakdown_words_update _ _ old) by done. lia.
        -- rewrite breakdown_words_insert by done. lia.
    + destruct IH as [Hnames' Hstats'].
      { split; [done|]. intros stat' Hin. apply Hstats. by apply list_elem_of_further. }
      split.
      * cbn [map]. apply NoDup_cons. split; [|done].
        intros [Heq|Hin]%count_words_names; [congruence|done].
      * intros stat' [->|Hin]%elem_of_cons; [by apply Hstats, list_elem_of_here|by apply Hstats'].
Qed.

Lemma counters_consistent_count db u : counters_consistent db -> counters_consistent (count_message db u).
Proof.
  intros Hok c'. unfold count_message, update_specialist_word_count.
  destruct (specialist_stats_collection db) as [c|] eqn:Hc; simpl.
  - intros [= <-]. apply counters_ok_count_words; [lia|by apply Hok].
  - rewrite Hc. done.
Qed.

(** X13. The counters stay consistent.  If a store has one counter per
    specialist, no negative count for a day, and in each counter a total
    of words that is the sum of its days and at least one message, then
    the same holds after any number of calls of
    [update_specialist_word_count]; so it holds of every store whose
    counters were built up from none. *)
Theorem counters_stay_consistent :
  (forall us db, counters_consistent db -> counters_consistent (foldl count_message db us)) /\
  (forall plans us, counters_consistent (foldl count_message (mkDB plans (Some [])) us)).
Proof.
  assert (H : forall us db, counters_consistent db -> counters_consistent (foldl count_message db us)).
  { induction us as [|u us IH]; intros db Hok; [done|]. simpl.
    by apply IH, counters_consistent_count. }
  split; [exact H|]. intros plans us. apply H. intros c [= <-].
  split; [constructor|]. intros stat Hin. by apply elem_of_nil in Hin.
Qed.

Lemma day_entry_breakdown stats date_str (acc : Z * gmap string Z) :
  NoDup (map Stat.specialist_name stats) ->
  (forall stat n, stat ∈ stats -> Stat.daily_word_counts stat !! date_str = Some n -> 0 <= n) ->
  (forall stat, stat ∈ stats -> acc.2 !! Stat.specialist_name stat = None) ->
  let r :=
    foldl (fun (acc : Z * gmap string Z) specialist_stat =>
             let daily_words := default 0 (Stat.daily_word_counts specialist_stat !! date_str) in
             (acc.1 + daily_words,
              if 0 <? daily_words
              then <[Stat.specialist_name specialist_stat := daily_words]> acc.2
              else acc.2)) acc stats in
  r.1 - acc.1 = breakdown_words r.2 - breakdown_words acc.2 /\
  forall name words,
    r.2 !! name = Some words <->
    acc.2 !! name = Some words \/
    (0 < words /\ exists stat, stat ∈ stats /\ Stat.specialist_name stat = name /\
                               Stat.daily_word_counts stat !! date_str = Some words).
Proof.
  revert acc. induction stats as [|stat stats IH]; intros acc Hnames Hpos Hfresh; cbn [foldl].
  - split; [lia|]. intros name words. split; [by left|].
    intros [H|(_ & stat & Hin & _)]; [done|by apply elem_of_nil in Hin].
  - cbn [map] in Hnames. apply NoDup_cons in Hnames as [Hstat Hnames].
    set (daily_words := default 0 (Stat.daily_word_counts stat !! date_str)).
    set (acc' := (acc.1 + daily_words,
                  if 0 <? daily_words
                  then <[Stat.specialist_name stat := daily_words]> acc.2 else acc.2)).
    assert (Hdaily : 0 <= daily_words).
    { subst daily_words. destruct (Stat.daily_word_counts stat !! date_str) as [n|] eqn:Hn;
        simpl; [|lia]. eapply Hpos; [apply list_elem_of_here|done]. }
    destruct (IH acc') as [Hsum Hkeys]; [done| | |].
    { intros stat' n Hin. apply Hpos. by apply list_elem_of_further. }
    { intros stat' Hin. subst acc'. cbn [snd].
      assert (Hne : Stat.specialist_name stat <> Stat.specialist_name stat').
      { intros Heq. apply Hstat. rewrite Heq. by apply list_elem_of_fmap_2. }
      destruct (0 <? daily_words); [rewrite lookup_insert_ne by done|];
        by apply Hfresh, list_elem_of_further. }
    split.
    + subst acc'. cbn [fst snd] in Hsum.
      destruct (0 <? daily_words) eqn:Hd.
      * rewrite breakdown_words_insert in Hsum by apply Hfresh, list_elem_of_here. lia.
      * apply Z.ltb_ge in Hd. lia.
    + intros name words. rewrite Hkeys. subst acc'. cbn [snd]. clear Hkeys Hsum IH.
      split.
      * intros [Hacc|(Hw & stat' & Hin & Hname & Hlook)].
        -- destruct (0 <? daily_words) eqn:Hd; [|by left].
           destruct (decide (Stat.specialist_name stat = name)) as [<-|Hne].
           ++ rewrite lookup_insert_eq in Hacc. injection Hacc as <-. apply Z.ltb_lt in Hd.
              right. split; [done|]. exists stat. split; [apply list_elem_of_here|]. split; [done|].
              subst daily_words. destruct (Stat.daily_word_counts stat !! date_str); simpl in *;
                [done|lia].
           ++ rewrite lookup_insert_ne in Hacc by done. by left.
        -- right. split; [done|]. exists stat'. split; [by apply list_elem_of_further|done].
      * intros [Hacc|(Hw & stat' & Hin & Hname & Hlook)].
        -- left. destruct (0 <? daily_words); [|done].
           rewrite lookup_insert_ne; [done|]. intros <-.
           rewrite Hfresh in Hacc by apply list_elem_of_here. done.
        -- apply elem_of_cons in Hin as [->|Hin].
           ++ left. subst daily_words. rewrite Hlook. simpl.
              destruct (0 <? words) eqn:Hd; [|apply Z.ltb_ge in Hd; lia].
              subst name. by rewrite lookup_insert_eq.
           ++ right. split; [done|]. by exists stat'.
Qed.

Lemma window_entry_breakdown db today :
  counters_consistent db ->
  forall e, e ∈ get_time_spent_last_7_days db today ->
    DayEntry.total_words e = breakdown_words (DayEntry.specialist_breakdown e) /\
    forall name words,
      DayEntry.specialist_breakdown e !! name = Some words <->
      0 < words /\
      exists stat, stat ∈ get_specialist_stats db None /\ Stat.specialist_name stat = name /\
                   Stat.daily_word_counts stat !! DayEntry.date e = Some words.
Proof.
  intros Hok e. unfold get_time_spent_last_7_days.
  destruct (get_specialist_stats db None) as [|stat0 stats0] eqn:Hstats;
    [by intros ?%elem_of_nil|].
  rewrite <- Hstats. intros [date_str [-> _]]%list_elem_of_fmap.
  assert (Hc : counters_ok (get_specialist_stats db None)).
  { unfold get_specialist_stats in *. destruct (specialist_stats_collection db) as [c|] eqn:Hc;
      [by apply Hok|done]. }
  destruct Hc as [Hnames Hstat].
  destruct (day_entry_breakdown (get_specialist_stats db None) date_str (0, ∅)) as [Hsum Hkeys];
    [done| |done|].
  { intros stat n Hin. by apply Hstat. }
  unfold day_entry. cbn [DayEntry.total_words DayEntry.specialist_breakdown DayEntry.date].
  cbn [fst snd] in Hsum, Hkeys. split.
  - unfold breakdown_words at 2 in Hsum. rewrite map_fold_empty in Hsum. lia.
  - intros name words. rewrite Hkeys. rewrite lookup_empty. split; [|by right].
    by intros [?|?].
Qed.

(** X14. In a window over consistent counters each day adds up: the
    words of the day are the sum of its breakdown by specialist, and the
    breakdown lists a specialist with a number of words exactly when
    that specialist's counter records that number, above zero, for the
    day. *)
Theorem breakdown_adds_up db today :
  counters_consistent db ->
  forall e, e ∈ get_time_spent_last_7_days db today ->
    DayEntry.total_words e = breakdown_words (DayEntry.specialist_breakdown e) /\
    forall name words,
      DayEntry.specialist_breakdown e !! name = Some words <->
      0 < words /\
      exists stat, stat ∈ get_specialist_stats db None /\ Stat.specialist_name stat = name /\
                   Stat.daily_word_counts stat !! DayEntry.date e = Some words.
Proof. apply window_entry_breakdown. Qed.

Lemma breakdown_adds_up_witness :
  map (fun e => (DayEntry.total_words e, breakdown_words (DayEntry.specialist_breakdown e)))
      (get_time_spent_last_7_days
         (foldl count_message empty_db [mkCounted "Ruby" "rest and drink water" 19783 5;
                                mkCounted "Carla" "eat well" 19783 6]) 19784) =
    [(0, 0); (0, 0); (0, 0); (0, 0); (0, 0); (6, 6); (0, 0)] /\
  forall e,
    e ∈ get_time_spent_last_7_days
          (foldl count_message empty_db [mkCounted "Ruby" "rest and drink water" 19783 5;
                                 mkCounted "Carla" "eat well" 19783 6]) 19784 ->
    DayEntry.total_words e = breakdown_words (DayEntry.specialist_breakdown e).
Proof.
  split; [vm_compute; reflexivity|]. intros e He.
  apply (breakdown_adds_up
           (foldl count_message empty_db [mkCounted "Ruby" "rest and drink water" 19783 5;
                                  mkCounted "Carla" "eat well" 19783 6]) 19784); [|exact He].
  do 2 apply counters_consistent_count. intros c [= <-].
  split; [constructor|]. intros stat Hin. by apply elem_of_nil in Hin.
Defined.

(** ** Progress statistics *)

Lemma string_leb_trans s1 s2 s3 :
  String.leb s1 s2 = true -> String.leb s2 s3 = true -> String.leb s1 s3 = true.
Proof.
  unfold String.leb. revert s2 s3.
  induction s1 as [|a s1 IH]; intros [|b s2] [|c s3]; simpl; try done.
  unfold Ascii.compare.
  destruct (N.compare_spec (N_of_ascii a) (N_of_ascii b)) as [Hab|Hab|Hab]; [| |done];
    destruct (N.compare_spec (N_of_ascii b) (N_of_ascii c)) as [Hbc|Hbc|Hbc]; try done;
    destruct (N.compare_spec (N_of_ascii a) (N_of_ascii c)) as [Hac|Hac|Hac]; try done;
    try lia.
  apply IH.
Qed.

Lemma date_le_trans : Transitive date_le.
Proof. intros a b c. unfold date_le. apply string_leb_trans. Qed.

Lemma date_le_total : Total date_le.
Proof. intros a b. unfold date_le. apply String.leb_total. Qed.

Lemma count_completion_fold total dates : forall daily_progress date,
  foldl (count_completion total) daily_progress dates !! date =
  let k := Z.of_nat (length (filter (fun d => d = date) dates)) in
  match daily_progress !! date with
  | Some stats => Some (stats.1 + k, stats.2)
  | None => if bool_decide (date ∈ dates) then Some (k, total) else None
  end.
Proof.
  induction dates as [|d dates IH]; intros daily_progress date; cbn [foldl].
  - cbn. destruct (daily_progress !! date) as [[n t]|]; simpl; [do 2 f_equal; lia|done].
  - rewrite IH. unfold count_completion. destruct (decide (d = date)) as [->|Hne].
    + rewrite lookup_insert_eq. rewrite filter_cons_True by done. cbn [length].
      rewrite (bool_decide_eq_true_2 (date ∈ date :: dates)) by apply list_elem_of_here.
      destruct (daily_progress !! date) as [[n t]|]; simpl; do 2 f_equal; lia.
    + rewrite lookup_insert_ne by done. rewrite filter_cons_False by done.
      destruct (daily_progress !! date) as [[n t]|]; [done|].
      apply (f_equal (fun b : bool => if b then _ else _)), bool_decide_ext.
      rewrite elem_of_cons. split; [by right|]. intros [?|?]; [congruence|done].
Qed.

Lemma daily_progress_flat total tasks : forall daily_progress,
  foldl (fun daily_progress task =>
           foldl (count_completion total) daily_progress (progress task))
        daily_progress tasks =
  foldl (count_completion total) daily_progress (concat (map progress tasks)).
Proof.
  induction tasks as [|task tasks IH]; intros daily_progress; [done|].
  cbn [map concat foldl]. by rewrite foldl_app, IH.
Qed.

Lemma filter_date_NoDup (date : string) dates :
  NoDup dates ->
  length (filter (fun d => d = date) dates) = if bool_decide (date ∈ dates) then 1%nat else 0%nat.
Proof.
  induction 1 as [|d dates Hd Hnd IH]; [done|].
  destruct (decide (d = date)) as [->|Hne].
  - rewrite filter_cons_True by done. cbn [length]. rewrite IH.
    rewrite (bool_decide_eq_false_2 _ Hd).
    by rewrite bool_decide_eq_true_2 by apply list_elem_of_here.
  - rewrite filter_cons_False by done. rewrite IH.
    apply (f_equal (fun b : bool => if b then _ else _)), bool_decide_ext.
    rewrite elem_of_cons. split; [by right|]. intros [?|?]; [congruence|done].
Qed.

Lemma done_on_flat date tasks :
  Forall (fun task => NoDup (progress task)) tasks ->
  Z.of_nat (length (filter (fun d => d = date) (concat (map progress tasks)))) =
  done_on date tasks.
Proof.
  unfold done_on. induction 1 as [|task tasks Hnd _ IH]; [done|].
  cbn [map concat]. rewrite filter_app, length_app, Nat2Z.inj_add, IH.
  rewrite (filter_date_NoDup _ _ Hnd).
  destruct (decide (date ∈ progress task)) as [Hin|Hin].
  - rewrite bool_decide_eq_true_2 by done. rewrite filter_cons_True by done.
    cbn [length]. lia.
  - rewrite bool_decide_eq_false_2 by done. rewrite filter_cons_False by done. lia.
Qed.

Lemma elem_of_dates date tasks :
  date ∈ concat (map progress tasks) <-> exists task, task ∈ tasks /\ date ∈ progress task.
Proof.
  induction tasks as [|task0 tasks IH]; cbn [map concat].
  - split; [by intros ?%elem_of_nil|]. by intros (task & ?%elem_of_nil & _).
  - rewrite elem_of_app, IH. split.
    + intros [Hd|(task & Htask & Hd)].
      * exists task0. split; [apply list_elem_of_here|done].
      * exists task. split; [by apply list_elem_of_further|done].
    + intros (task & [->|Htask]%elem_of_cons & Hd); [by left|right; eauto].
Qed.

Lemma daily_progress_of_lookup tasks date :
  Forall (fun task => NoDup (progress task)) tasks ->
  daily_progress_of tasks !! date =
  if bool_decide (date ∈ concat (map progress tasks))
  then Some (done_on date tasks, Z.of_nat (length tasks)) else None.
Proof.
  intros Hnd. unfold daily_progress_of. rewrite daily_progress_flat, count_completion_fold.
  rewrite lookup_empty. cbv zeta. by rewrite (done_on_flat _ _ Hnd).
Qed.

Lemma done_on_bounds date tasks :
  0 <= done_on date tasks <= Z.of_nat (length tasks) /\
  ((exists task, task ∈ tasks /\ date ∈ progress task) -> 1 <= done_on date tasks).
Proof.
  unfold done_on. split.
  - pose proof (length_filter (fun task => date ∈ progress task) tasks). lia.
  - intros (task & Htask & Hd).
    assert (Hin : task ∈ filter (fun task => date ∈ progress task) tasks)
      by (by apply list_elem_of_filter).
    destruct (filter (fun task => date ∈ progress task) tasks); [by apply elem_of_nil in Hin|].
    cbn [length]. lia.
Qed.

(** X15. The progress statistics of a plan.  [get_plan_progress] answers
    404 exactly when no active plan has the id, so also for a plan that
    was deactivated.  For an active plan it counts, in a store where no
    task records a date twice: [completed_tasks] is at most
    [total_tasks]; [daily_progress] has one entry for each date some task
    of the plan records, in the order of the dates, and no other; the
    [total] of an entry is the number of tasks of the plan and its
    [completed] the number of tasks done on that date, which is at least
    1 and at most [total]. *)
Theorem plan_progress_counts db plan_id :
  dates_unique db ->
  match get_plan_progress db plan_id with
  | inr e =>
      e = (404, "Plan not found") /\
      forall p, p ∈ get_active_plans db -> Plan.id p <> plan_id
  | inl r =>
      exists p, p ∈ get_active_plans db /\ Plan.id p = plan_id /\
        PlanProgress.plan_id r = plan_id /\
        PlanProgress.total_tasks r = Z.of_nat (length (Plan.tasks p)) /\
        0 <= PlanProgress.completed_tasks r <= PlanProgress.total_tasks r /\
        StronglySorted date_le (PlanProgress.daily_progress r) /\
        NoDup (map fst (PlanProgress.daily_progress r)) /\
        forall date completed total,
          (date, (completed, total)) ∈ PlanProgress.daily_progress r <->
          (exists task, task ∈ Plan.tasks p /\ date ∈ progress task) /\
          completed = done_on date (Plan.tasks p) /\
          total = PlanProgress.total_tasks r /\
          1 <= completed <= total
  end.
Proof.
  intros Huniq. unfold get_plan_progress.
  destruct (List.find _ (get_active_plans db)) as [p|] eqn:Hfind.
  - apply find_elem_of in Hfind as [Hp Hid]. apply bool_decide_eq_true in Hid.
    exists p. split; [done|]. split; [done|]. cbn. split; [done|]. split; [done|].
    assert (Hnd : Forall (fun task => NoDup (progress task)) (Plan.tasks p)).
    { apply elem_of_get_active_plans in Hp as (c & d & Hc & Hd & _ & _ & ->).
      apply Forall_forall. intros task Htask. by apply (Huniq c (Plan.id p) d). }
    split.
    { pose proof (length_filter (fun task => progress task <> []) (Plan.tasks p)).
      destruct (0 <? Z.of_nat (length (Plan.tasks p))) eqn:Hpos; lia. }
    split; [apply (@StronglySorted_merge_sort _ date_le _ date_le_trans date_le_total)|].
    split.
    { rewrite merge_sort_Permutation. apply NoDup_fst_map_to_list. }
    intros date completed total. rewrite merge_sort_Permutation, elem_of_map_to_list.
    rewrite (daily_progress_of_lookup _ _ Hnd).
    destruct (done_on_bounds date (Plan.tasks p)) as [Hle Hone].
    rewrite <- elem_of_dates in Hone |- *.
    destruct (decide (date ∈ concat (map progress (Plan.tasks p)))) as [Hex|Hex].
    + rewrite bool_decide_eq_true_2 by done. specialize (Hone Hex). split.
      * intros [= <- <-]. split; [done|]. split; [done|]. split; [done|]. lia.
      * intros (_ & -> & -> & _). done.
    + rewrite bool_decide_eq_false_2 by done. split; [done|]. by intros [? _].
  - split; [done|]. intros p Hp Hid.
    eapply find_none in Hfind; [|by apply list_elem_of_In].
    by rewrite bool_decide_eq_true_2 in Hfind.
Qed.

Lemma plan_progress_counts_witness :
  match get_plan_progress
          (foldl run sample_db [(Update "p1" "Walk daily" "2024-01-01", 11);
                                (Update "p1" "Walk daily" "2023-12-31", 12)]) "p1" with
  | inl r =>
      PlanProgress.daily_progress r = [("2023-12-31", (1, 2)); ("2024-01-01", (2, 2))] /\
      0 <= PlanProgress.completed_tasks r <= PlanProgress.total_tasks r
  | inr _ => False
  end /\
  get_plan_progress mixed_db "p2" = inr (404, "Plan not found").
Proof.
  split; [|vm_compute; reflexivity].
  pose proof (plan_progress_counts
                (foldl run sample_db [(Update "p1" "Walk daily" "2024-01-01", 11);
                                      (Update "p1" "Walk daily" "2023-12-31", 12)]) "p1") as H.
  destruct (get_plan_progress _ "p1") as [r|e] eqn:Hr.
  - split; [by vm_compute in Hr; injection Hr as <-|].
    destruct H as (p & _ & _ & _ & _ & Hle & _); [|exact Hle].
    apply dates_unique_run, dates_unique_run.
    intros c id d task [= <-] Hd Hin.
    destruct (decide (id = "p1")) as [->|Hne].
    + vm_compute in Hd. injection Hd as <-. simpl in Hin.
      repeat (apply elem_of_cons in Hin as [->|Hin]; [simpl; repeat constructor;
        by intros ?%elem_of_nil|]). by apply elem_of_nil in Hin.
    + by rewrite lookup_singleton_ne in Hd.
  - vm_compute in Hr. discriminate.
Defined.

(** ** The daily check after marking all tasks *)

Lemma elem_of_pending_tasks db today x :
  x ∈ pending_tasks db today <->
  exists q task, q ∈ get_active_plans db /\ task ∈ Plan.tasks q /\ (today ∉ progress task) /\
                 x = (Plan.id q, Plan.plan_name q, task_name task).
Proof.
  unfold pending_tasks. rewrite list_elem_of_In, in_flat_map. split.
  - intros (q & Hq & Hx). apply list_elem_of_In in Hq.
    apply list_elem_of_In, list_elem_of_fmap in Hx as (task & -> & Hin).
    apply list_elem_of_filter in Hin as [Hpend Htask]. by exists q, task.
  - intros (q & task & Hq & Htask & Hpend & ->). exists q. split; [by apply list_elem_of_In|].
    apply list_elem_of_In, list_elem_of_fmap. exists task. split; [done|].
    by apply list_elem_of_filter.
Qed.

Lemma mark_all_pending_others db p today now q :
  p ∈ get_active_plans db -> Plan.id q <> Plan.id p ->
  q ∈ get_active_plans (mark_all_pending p today now (db, [])).1 <-> q ∈ get_active_plans db.
Proof.
  intros (c & d & Hc & _)%elem_of_get_active_plans Hne.
  destruct (doc_mark_all_pending p today now (db, []) c (Plan.id q) Hne Hc) as (c' & Hc' & Hq).
  rewrite !elem_of_get_active_plans. split.
  - intros (c1 & d1 & Hc1 & Hd1 & Hrest). exists c, d1. split; [done|].
    split; [|done]. congruence.
  - intros (c1 & d1 & Hc1 & Hd1 & Hrest). exists c', d1. split; [done|].
    split; [|done]. congruence.
Qed.

Lemma mark_all_pending_done db p today now q task :
  p ∈ get_active_plans db -> NoDup (map task_name (Plan.tasks p)) ->
  q ∈ get_active_plans (mark_all_pending p today now (db, [])).1 -> Plan.id q = Plan.id p ->
  task ∈ Plan.tasks q -> today ∈ progress task.
Proof.
  intros Hp Hnd Hq Hid Htask.
  destruct (mark_all_pending_marks db p today now Hp Hnd) as [Hmarked _].
  pose proof (same_plans_mark_all_pending p today now (db, [])) as Hsame.
  apply elem_of_get_active_plans in Hp as (c & d & Hc & Hd & _ & _ & Hpd).
  apply elem_of_get_active_plans in Hq as (c' & d' & Hc' & Hd' & Hu' & _ & Hqd).
  unfold same_plans in Hsame. cbn [fst] in Hsame. rewrite Hc, Hc' in Hsame.
  specialize (Hsame (Plan.id p)). rewrite Hid in Hd'. rewrite Hd, Hd' in Hsame.
  destruct Hsame as (_ & _ & _ & _ & _ & _ & Hgrow).
  assert (Htp : Plan.tasks p = Doc.tasks d) by (by rewrite Hpd).
  assert (Htq : Plan.tasks q = Doc.tasks d') by (by rewrite Hqd).
  rewrite Htq in Htask. pose proof (tasks_grow_names _ _ Hgrow) as Hnames.
  assert (Hfind : find_task (task_name task) (Doc.tasks d') = Some task).
  { apply find_task_NoDup; [|done]. by rewrite Hnames, <- Htp. }
  assert (Hin : task_name task ∈ map task_name (Plan.tasks p)).
  { rewrite Htp, <- Hnames. by apply list_elem_of_fmap_2. }
  apply list_elem_of_fmap in Hin as (tp & Hname & Htp').
  destruct (Hmarked tp Htp') as (dates & Hdates & Htoday).
  unfold completion_dates in Hdates. rewrite Hc' in Hdates. cbn in Hdates.
  rewrite (proj2 (find_one_Some c' (Plan.id p) d')) in Hdates by done. cbn in Hdates.
  rewrite <- Hname, Hfind in Hdates. cbn in Hdates. by injection Hdates as <-.
Qed.

Lemma mark_all_pending_check db p today now :
  p ∈ get_active_plans db -> NoDup (map task_name (Plan.tasks p)) ->
  let r := mark_all_pending p today now (db, []) in
  (forall x, x ∈ pending_tasks r.1 today <->
             x ∈ pending_tasks db today /\ x.1.1 <> Plan.id p) /\
  ((forall x, x ∈ pending_tasks db today -> x.1.1 = Plan.id p) ->
   check_daily_progress r.1 today = AllCompleted).
Proof.
  intros Hp Hnd r.
  assert (Hpending : forall x, x ∈ pending_tasks r.1 today <->
                               x ∈ pending_tasks db today /\ x.1.1 <> Plan.id p).
  { intros x. rewrite !elem_of_pending_tasks. split.
    - intros (q & task & Hq & Htask & Hpend & ->). cbn [fst].
      destruct (decide (Plan.id q = Plan.id p)) as [Hid|Hne].
      + destruct Hpend. by eapply (mark_all_pending_done db p today now q task).
      + split; [|done]. exists q, task. split; [|done].
        by apply (mark_all_pending_others db p today now q Hp Hne).
    - intros [(q & task & Hq & Htask & Hpend & ->) Hne]. cbn [fst] in Hne.
      exists q, task. split; [|done].
      by apply (mark_all_pending_others db p today now q Hp Hne). }
  split; [exact Hpending|]. intros Honly. unfold check_daily_progress.
  destruct (get_active_plans r.1) as [|q qs] eqn:Hactive.
  - pose proof (same_plans_mark_all_pending p today now (db, [])) as Hsame.
    apply elem_of_get_active_plans in Hp as (c & d & Hc & Hd & Hu & Ha & Hpd).
    unfold same_plans in Hsame. cbn [fst] in Hsame. rewrite Hc in Hsame. fold r in Hsame.
    destruct (plans_collection r.1) as [c'|] eqn:Hc'; [|done].
    specialize (Hsame (Plan.id p)). rewrite Hd in Hsame.
    destruct (c' !! Plan.id p) as [d'|] eqn:Hd'; [|done].
    destruct Hsame as (Hu' & _ & _ & _ & Ha' & _).
    assert (Hin : Plan.of_doc (Plan.id p, d') ∈ get_active_plans r.1).
    { apply elem_of_get_active_plans. exists c', d'. cbn. repeat split; congruence. }
    rewrite Hactive in Hin. by apply elem_of_nil in Hin.
  - destruct (pending_tasks r.1 today) as [|x xs] eqn:Hxs; [done|].
    destruct (proj1 (Hpending x)) as [Hx Hne]; [apply list_elem_of_here|].
    by apply Honly in Hx.
Qed.

(** X16. After all tasks of a plan were marked, the daily check asks
    for none of them.  When [daily_progress_report] is asked to mark all
    tasks and finds its target plan, or the chat route finds the plan it
    marks, the tasks [check_daily_progress] then finds pending for the
    same day are those that were pending before in the other plans; if
    only tasks of the target plan were pending, it answers that all
    tasks are completed. *)
Theorem marking_all_clears_daily_check db p today now :
  p ∈ get_active_plans db -> NoDup (map task_name (Plan.tasks p)) ->
  (forall request utc_today,
     directed request = true -> report_target request (get_active_plans db) = Some p ->
     let r := daily_progress_report db request today now utc_today in
     (forall x, x ∈ pending_tasks r.1 today <->
                x ∈ pending_tasks db today /\ x.1.1 <> Plan.id p) /\
     ((forall x, x ∈ pending_tasks db today -> x.1.1 = Plan.id p) ->
      check_daily_progress r.1 today = AllCompleted)) /\
  (forall message,
     existsb (fun keyword => Py.contains keyword (Py.lower message))
             ["mark"; "completed"; "finished"; "done"; "progress"] = true ->
     chat_progress_target message (get_active_plans db) = Some p ->
     let r := chat_mark_progress db message today now in
     (forall x, x ∈ pending_tasks r.1 today <->
                x ∈ pending_tasks db today /\ x.1.1 <> Plan.id p) /\
     ((forall x, x ∈ pending_tasks db today -> x.1.1 = Plan.id p) ->
      check_daily_progress r.1 today = AllCompleted)).
Proof.
  intros Hp Hnd. split.
  - intros request utc_today Hdir Htarget r. subst r.
    pose proof (daily_progress_report_plans db request today now utc_today) as Hpl.
    rewrite (check_daily_progress_plans _ _ _ Hpl).
    unfold pending_tasks at 1. rewrite (get_active_plans_plans _ _ Hpl).
    fold (pending_tasks (report_updated_tasks db request today now).1 today).
    unfold report_updated_tasks. rewrite Hdir.
    unfold report_target in Htarget. rewrite Htarget.
    by apply mark_all_pending_check.
  - intros message Hkey Htarget r. subst r. unfold chat_mark_progress.
    rewrite Hkey, Htarget. by apply mark_all_pending_check.
Qed.

Lemma marking_all_clears_daily_check_witness :
  check_daily_progress sample_db "2024-01-02" =
    PendingTasks [("p1", "Back Pain Plan", "Walk daily"); ("p1", "Back Pain Plan", "Stretch")]
                 "2024-01-02" /\
  check_daily_progress
    (daily_progress_report sample_db (mkRequest "please mark all back pain tasks" false None)
                           "2024-01-02" 11 19724).1 "2024-01-02" = AllCompleted.
Proof.
  split; [vm_compute; reflexivity|].
  destruct (marking_all_clears_daily_check sample_db (Plan.of_doc ("p1", sample_plan))
              "2024-01-02" 11) as [H _].
  - vm_compute. apply list_elem_of_here.
  - vm_compute. repeat constructor; intros Hin;
      repeat (apply elem_of_cons in Hin as [Hin|Hin]; [discriminate|]); by apply elem_of_nil in Hin.
  - destruct (H (mkRequest "please mark all back pain tasks" false None) 19724) as [_ Hall];
      [vm_compute; reflexivity|vm_compute; reflexivity|].
    apply Hall. intros x Hx. vm_compute in Hx.
    repeat (apply elem_of_cons in Hx as [->|Hx]; [reflexivity|]). by apply elem_of_nil in Hx.
Defined.

(** ** Plans taken from a reply of a specialist *)

(** The first word of a text that starts with a word starts the text. *)
Lemma split_first_prefix s : forall c s' w ws,
  s = String c s' -> Py.is_space c = false -> Py.split s = w :: ws -> Py.startswith w s = true.
Proof.
  induction s as [|c0 s0 IH]; intros c s' w ws Hs Hc Hsplit; [done|].
  injection Hs as -> ->.
  destruct (split_word c s' Hc) as (w1 & ws1 & Hs1 & Hcase). rewrite Hs1 in Hsplit.
  injection Hsplit as <- <-. rewrite startswith_cons.
  destruct Hcase as [(_ & -> & _)|(c1 & s1 & -> & Hc1 & Hsplit1)]; [by destruct s'|].
  by eapply IH.
Qed.

(** Every word of a text occurs in the text. *)
Lemma split_contains s w : w ∈ Py.split s -> Py.contains w s = true.
Proof.
  induction s as [|c s IH]; [by intros ?%elem_of_nil|].
  destruct (Py.is_space c) eqn:Hc.
  - rewrite split_space by done. intros Hw. by apply contains_tail, IH.
  - destruct (split_word c s Hc) as (w1 & ws & Hs & Hcase). rewrite Hs.
    intros [->|Hw]%elem_of_cons.
    + apply contains_startswith. by eapply split_first_prefix.
    + apply contains_tail, IH.
      destruct Hcase as [(_ & _ & ->)|(c1 & s1 & -> & _ & Hsplit)]; [done|].
      rewrite Hsplit. by apply list_elem_of_further.
Qed.

Lemma find_unique {A} (f : A -> bool) (l : list A) (x : A) :
  x ∈ l -> f x = true -> (forall y, y ∈ l -> f y = true -> y = x) -> List.find f l = Some x.
Proof.
  intros Hx Hfx Hall. destruct (List.find f l) as [y|] eqn:Hfind.
  - apply find_elem_of in Hfind as [Hy Hfy]. f_equal. by apply Hall.
  - eapply find_none in Hfind; [|by apply list_elem_of_In]. congruence.
Qed.

(** What [extract_daily_tasks_from_response] returns with [True]. *)
Lemma extract_daily_tasks_shape ai_response plan_data :
  extract_daily_tasks_from_response ai_response = (true, plan_data) ->
  exists condition plan_name timeline_days task tasks,
    plan_data = PlanData.mk (Some true) (Some condition) (Some plan_name) (Some timeline_days)
                            (Some (task :: tasks)) None None None None.
Proof.
  unfold extract_daily_tasks_from_response.
  destruct (Re.findall day_pattern ai_response) as [|m ms]; [done|].
  intros [= <-]. cbn [map]. eauto 10.
Qed.

Lemma existing_plan_own_condition condition p :
  long_words (Py.lower condition) <> [] -> Plan.condition p = condition ->
  existsb (fun word => Py.contains word (Py.lower condition))
          (long_words (Py.lower (Plan.condition p))) = true.
Proof.
  intros Hlong ->. destruct (long_words (Py.lower condition)) as [|w ws] eqn:Hw; [done|].
  cbn [existsb]. apply orb_true_iff. left. apply split_contains.
  assert (Hin : w ∈ long_words (Py.lower condition)) by (rewrite Hw; apply list_elem_of_here).
  by apply long_words_spec in Hin as [Hin _].
Qed.

(** X17. The same plan is not taken twice from a reply.  When
    [process_ai_response_for_plan] has created a plan from a reply,
    under a fresh id, and the condition it read has a word of more than
    3 characters, processing the same reply again creates nothing: it
    leaves the store as it is and answers with the id and the name of
    the plan created the first time. *)
Theorem ai_plan_not_duplicated db c ai_response uuid1 uuid2 now :
  plans_collection db = Some c -> c !! uuid1 = None ->
  let r1 := process_ai_response_for_plan db ai_response uuid1 uuid2 now in
  r1.2.1.1 = true ->
  long_words (Py.lower (default "" (PlanData.condition r1.2.2))) <> [] ->
  r1.2.1.2 = Some uuid1 /\
  forall uuid3 uuid4 now',
    process_ai_response_for_plan r1.1 ai_response uuid3 uuid4 now' =
    (r1.1, (false, Some uuid1,
            PlanData.of_existing_plan (default "Health Plan" (PlanData.plan_name r1.2.2)))).
Proof.
  intros Hc Hu r1. subst r1. unfold process_ai_response_for_plan.
  destruct (extract_daily_tasks_from_response ai_response) as [has_plan plan_data] eqn:Hext.
  destruct has_plan; [|done].
  destruct (extract_daily_tasks_shape _ _ Hext) as (condition & plan_name & n & task & tasks & ->).
  cbn [andb PlanData.error PlanData.condition]. rewrite bool_decide_eq_true_2 by done.
  change (default "" (Some condition)) with condition.
  destruct (existing_plan_for (Py.lower condition) (get_active_plans db)) as [old|] eqn:Hold;
    [done|].
  unfold create_and_store_plan. cbn [PlanData.needs_plan PlanData.plan_name PlanData.condition
    PlanData.timeline_days PlanData.tasks negb fst snd].
  change (default false (Some true)) with true.
  change (default "Health Plan" (Some plan_name)) with plan_name.
  change (default "General Health" (Some condition)) with condition.
  change (default 7 (Some n)) with n.
  change (default [] (Some (task :: tasks))) with (task :: tasks).
  cbn [negb fst snd].
  set (t := Z.min n 7).
  pose proof (create_health_plan_fresh db c plan_name condition t (task :: tasks) uuid1 uuid2 now
                Hc Hu) as Hcreate.
  intros _ Hlong. split; [by rewrite Hcreate|].
  intros uuid3 uuid4 now'.
  set (db' := (create_health_plan db plan_name condition t (task :: tasks) uuid1 uuid2 now).1).
  assert (Hfind : existing_plan_for (Py.lower condition) (get_active_plans db') =
                  Some (new_plan uuid1 plan_name condition t (task :: tasks) now)).
  { apply find_unique.
    - apply (elem_of_get_active_plans_create db c); [done|done|by right].
    - by apply existing_plan_own_condition.
    - intros q Hq Hmatch.
      apply (elem_of_get_active_plans_create db c) in Hq as [Hq|Hq]; [|done|done|done].
      eapply find_none in Hold; [|by apply list_elem_of_In]. cbv beta zeta in Hold, Hmatch.
      congruence. }
  rewrite Hfind. reflexivity.
Qed.

Lemma ai_plan_not_duplicated_witness :
  (process_ai_response_for_plan empty_db nine_days "u1" "u2" 1).2.1.2 = Some "u1" /\
  process_ai_response_for_plan (process_ai_response_for_plan empty_db nine_days "u1" "u2" 1).1
                               nine_days "u3" "u4" 2 =
  ((process_ai_response_for_plan empty_db nine_days "u1" "u2" 1).1,
   (false, Some "u1", PlanData.of_existing_plan "Health Management Plan")).
Proof.
  destruct (ai_plan_not_duplicated empty_db ∅ nine_days "u1" "u2" 1) as [Hid Hagain];
    [reflexivity|reflexivity|vm_compute; reflexivity|vm_compute; discriminate|].
  split; [exact Hid|]. exact (Hagain "u3" "u4" 2).
Defined.

(** ** What the plan generator does to the store *)

Lemma only_adds_refl uuid db : only_adds uuid db db.
Proof.
  split; [done|]. destruct (plans_collection db) as [c|]; [|done]. intros plan_id. by left.
Qed.

Lemma only_adds_create_health_plan db plan_name condition t task tasks uuid1 uuid2 now :
  only_adds uuid1 db
    (create_health_plan db plan_name condition t (task :: tasks) uuid1 uuid2 now).1.
Proof.
  unfold create_health_plan. destruct (plans_collection db) as [c|] eqn:Hc;
    [|apply only_adds_refl].
  destruct (c !! uuid1) as [d|] eqn:Hu; [apply only_adds_refl|].
  split; [done|]. cbn. rewrite Hc. intros plan_id.
  destruct (decide (plan_id = uuid1)) as [->|Hne].
  - right. split; [done|]. split; [done|]. eexists. split; [apply lookup_insert_eq|].
    repeat split; cbn; [done| |lia].
    constructor; [done|]. rewrite map_map. apply Forall_forall.
    by intros task' (? & -> & _)%list_elem_of_fmap.
  - left. by rewrite lookup_insert_ne.
Qed.

Lemma only_adds_create_and_store_plan db plan_data uuid1 uuid2 now :
  let r := create_and_store_plan db plan_data uuid1 uuid2 now in
  only_adds uuid1 db r.1 /\ (r.2 = None -> r.1 = db).
Proof.
  unfold create_and_store_plan.
  destruct (negb (default false (PlanData.needs_plan plan_data))); cbn zeta;
    [split; [apply only_adds_refl|done]|].
  destruct (default [] (PlanData.tasks plan_data)) as [|task tasks];
    [split; [apply only_adds_refl|done]|].
  split; [apply only_adds_create_health_plan|done].
Qed.

(** X18. The plan generator only adds.  Whatever the message, the reply
    of the language model or the reply of the specialist,
    [process_message_for_plan] and [process_ai_response_for_plan] leave
    every stored plan and every counter as it was and add at most one
    document, under the first id drawn: an active plan of the user with
    at least one task, no task done and at most seven days.  When they
    answer that no plan was created, or give no plan id, the store is
    unchanged; and a message with a progress keyword is answered as a
    progress request without looking at the reply of the model. *)
Theorem plan_generator_only_adds db uuid1 uuid2 now :
  (forall user_message response,
     let r := process_message_for_plan db user_message response uuid1 uuid2 now in
     only_adds uuid1 db r.1 /\
     (r.2.1.1 = false \/ r.2.1.2 = None -> r.1 = db) /\
     (existsb (fun keyword => Py.contains keyword (Py.lower user_message)) progress_keywords
        = true ->
      r = (db, (false, None, PlanData.of_progress_request)))) /\
  (forall ai_response,
     let r := process_ai_response_for_plan db ai_response uuid1 uuid2 now in
     only_adds uuid1 db r.1 /\ (r.2.1.1 = false \/ r.2.1.2 = None -> r.1 = db)).
Proof.
  split.
  - intros user_message response r. subst r. unfold process_message_for_plan.
    destruct (existsb _ progress_keywords) eqn:Hkey.
    { split; [apply only_adds_refl|]. done. }
    split; [|split; [|done]].
    + destruct (existing_plan_for _ _); [apply only_adds_refl|].
      destruct (analyze_for_plan_generation response) as [needs_plan plan_data].
      destruct (needs_plan && _); [|apply only_adds_refl].
      apply only_adds_create_and_store_plan.
    + destruct (existing_plan_for _ _); [done|].
      destruct (analyze_for_plan_generation response) as [needs_plan plan_data].
      destruct (needs_plan && _); [|done]. cbn [fst snd].
      intros [?|Hnone]; [done|]. by apply only_adds_create_and_store_plan.
  - intros ai_response r. subst r. unfold process_ai_response_for_plan.
    destruct (extract_daily_tasks_from_response ai_response) as [has_plan plan_data].
    destruct (has_plan && _); [|split; [apply only_adds_refl|done]].
    destruct (existing_plan_for _ _); [split; [apply only_adds_refl|done]|].
    split; [apply only_adds_create_and_store_plan|]. cbn [fst snd].
    intros [?|Hnone]; [done|]. by apply only_adds_create_and_store_plan.
Qed.

(** X19. [process_message_for_plan] can answer that a plan was created
    when none was: if the model asks for a plan but names no task, and
    the message has no progress keyword and matches no active plan, the
    answer is [plan_created] true with no plan id, and nothing is
    stored. *)
Theorem plan_created_without_plan db user_message plan_data uuid1 uuid2 now :
  existsb (fun keyword => Py.contains keyword (Py.lower user_message)) progress_keywords
    = false ->
  existing_plan_for (Py.lower user_message) (get_active_plans db) = None ->
  PlanData.needs_plan plan_data = Some true -> PlanData.error plan_data = None ->
  default [] (PlanData.tasks plan_data) = [] ->
  process_message_for_plan db user_message (JsonObject plan_data) uuid1 uuid2 now =
    (db, (true, None, plan_data)).
Proof.
  intros Hkey Hnone Hneeds Herr Htasks. unfold process_message_for_plan.
  rewrite Hkey, Hnone. cbn [analyze_for_plan_generation]. rewrite Hneeds. cbn [default id andb].
  rewrite bool_decide_eq_true_2 by done.
  unfold create_and_store_plan. by rewrite Hneeds, Htasks.
Qed.

Lemma plan_created_without_plan_witness :
  process_message_for_plan sample_db "my knee hurts"
    (JsonObject (PlanData.mk (Some true) (Some "knee pain") (Some "Knee Care") (Some 7)
                             (Some []) None None None None)) "u1" "u2" 20 =
  (sample_db,
   (true, None,
    PlanData.mk (Some true) (Some "knee pain") (Some "Knee Care") (Some 7)
                (Some []) None None None None)).
Proof.
  apply (plan_created_without_plan sample_db "my knee hurts"
           (PlanData.mk (Some true) (Some "knee pain") (Some "Knee Care") (Some 7)
                        (Some []) None None None None) "u1" "u2" 20);
    vm_compute; reflexivity.
Defined.

(** ** The dashboard *)

Lemma string_ltb_leb s1 s2 : String.ltb s1 s2 = true -> String.leb s1 s2 = true.
Proof. unfold String.ltb, String.leb. by destruct (String.compare s1 s2). Qed.

Lemma string_ltb_false s1 s2 : String.ltb s1 s2 = false -> String.leb s2 s1 = true.
Proof.
  unfold String.ltb, String.leb. rewrite (String.compare_antisym s1 s2).
  by destruct (String.compare s2 s1).
Qed.

Lemma not_older_trans a b c : not_older a b -> not_older b c -> not_older a c.
Proof. unfold not_older. intros Hab Hbc. by eapply string_leb_trans. Qed.

Lemma insert_recent_Permutation x l : insert_recent x l ≡ₚ x :: l.
Proof.
  induction l as [|y l IH]; simpl; [done|].
  destruct (String.ltb _ _); [|done]. rewrite IH. apply Permutation_swap.
Qed.

Lemma sort_recent_Permutation l : sort_recent l ≡ₚ l.
Proof.
  induction l as [|x l IH]; simpl; [done|]. by rewrite insert_recent_Permutation, IH.
Qed.

Lemma insert_recent_sorted x l :
  StronglySorted not_older l -> StronglySorted not_older (insert_recent x l).
Proof.
  induction 1 as [|y l Hl IH Hy]; simpl; [repeat constructor|].
  destruct (String.ltb (Activity.date x) (Activity.date y)) eqn:Hxy.
  - constructor; [done|]. rewrite insert_recent_Permutation. constructor; [|done].
    by apply string_ltb_leb.
  - apply string_ltb_false in Hxy. constructor; [by constructor|].
    constructor; [done|]. eapply Forall_impl; [exact Hy|].
    intros z Hz. by apply (not_older_trans x y z).
Qed.

Lemma sort_recent_sorted l : StronglySorted not_older (sort_recent l).
Proof. induction l as [|x l IH]; simpl; [constructor|]. by apply insert_recent_sorted. Qed.

Lemma StronglySorted_take_drop {A} (R : relation A) (l : list A) n :
  StronglySorted R l ->
  StronglySorted R (take n l) /\ forall a b, a ∈ take n l -> b ∈ drop n l -> R a b.
Proof.
  intros Hl. rewrite <- (take_drop n l) in Hl at 1.
  apply StronglySorted_app in Hl as (Hall & Htake & _). split; [done|].
  intros a b Ha Hb. by apply Hall.
Qed.

Lemma elem_of_last3 {A} (x : A) (l : list A) : x ∈ last3 l -> x ∈ l.
Proof. unfold last3. intros (i & Hi)%list_elem_of_lookup. rewrite lookup_drop in Hi.
  by eapply list_elem_of_lookup_2. Qed.

Lemma elem_of_plan_activity plan a :
  a ∈ plan_activity plan ->
  Activity.plan_name a = Plan.plan_name plan /\
  exists task, task ∈ Plan.tasks plan /\ Activity.task_name a = task_name task /\
               Activity.date a ∈ progress task.
Proof.
  unfold plan_activity. rewrite list_elem_of_In, in_flat_map.
  intros (task & Htask & Ha). apply list_elem_of_In in Htask.
  apply list_elem_of_In, list_elem_of_fmap in Ha as (date & -> & Hdate).
  split; [done|]. exists task. split; [done|]. split; [done|]. by apply elem_of_last3.
Qed.

Lemma dashboard_counts plans (total completed : Z) :
  0 <= completed <= total ->
  0 <= foldl (fun completed plan =>
                completed
                + Z.of_nat (length (filter (fun task => progress task <> []) (Plan.tasks plan))))
             completed plans
    <= foldl (fun total plan => total + Z.of_nat (length (Plan.tasks plan))) total plans.
Proof.
  revert total completed. induction plans as [|plan plans IH]; intros total completed Hle;
    cbn [foldl]; [done|].
  apply IH. pose proof (length_filter (fun task => progress task <> []) (Plan.tasks plan)). lia.
Qed.

(** X20. The dashboard summary.  [completed_tasks] is at most
    [total_tasks]; [recent_activity] has at most 10 entries, the most
    recent first; each entry is a completion that an active plan records
    for one of its tasks; and the entries left out, among the last three
    completions of each task, are not more recent than any entry
    shown. *)
Theorem dashboard_summary_recent db :
  let r := get_dashboard_summary db in
  Dashboard.total_active_plans r = Z.of_nat (length (get_active_plans db)) /\
  0 <= Dashboard.completed_tasks r <= Dashboard.total_tasks r /\
  (length (Dashboard.recent_activity r) <= 10)%nat /\
  StronglySorted not_older (Dashboard.recent_activity r) /\
  (forall a, a ∈ Dashboard.recent_activity r ->
     exists plan task, plan ∈ get_active_plans db /\ task ∈ Plan.tasks plan /\
       Activity.plan_name a = Plan.plan_name plan /\ Activity.task_name a = task_name task /\
       Activity.date a ∈ progress task) /\
  exists rest,
    Dashboard.recent_activity r ++ rest ≡ₚ flat_map plan_activity (get_active_plans db) /\
    forall a b, a ∈ Dashboard.recent_activity r -> b ∈ rest -> not_older a b.
Proof.
  intros r. subst r. unfold get_dashboard_summary.
  destruct (get_active_plans db) as [|plan0 plans0] eqn:Hplans.
  { cbn. split; [done|]. split; [lia|]. split; [lia|]. split; [constructor|].
    split; [by intros a ?%elem_of_nil|]. exists []. split; [done|]. by intros a b ?%elem_of_nil. }
  rewrite <- Hplans. clear Hplans plan0 plans0.
  cbn [Dashboard.total_active_plans Dashboard.completed_tasks Dashboard.total_tasks
       Dashboard.recent_activity].
  set (all := flat_map plan_activity (get_active_plans db)).
  destruct (StronglySorted_take_drop not_older (sort_recent all) 10 (sort_recent_sorted all))
    as [Hsorted Hrest].
  split; [done|]. split; [by apply dashboard_counts|].
  split; [rewrite length_take; lia|]. split; [done|]. split.
  - intros a Ha. apply elem_of_take in Ha as (i & Ha%list_elem_of_lookup_2 & _).
    rewrite sort_recent_Permutation in Ha. subst all.
    apply list_elem_of_In, in_flat_map in Ha as (plan & Hplan%list_elem_of_In & Ha%list_elem_of_In).
    apply elem_of_plan_activity in Ha as (Hname & task & Htask & Htname & Hdate).
    by exists plan, task.
  - exists (drop 10 (sort_recent all)). split; [|done].
    rewrite take_drop. apply sort_recent_Permutation.
Qed.

(** ** The weekly summary *)

Lemma breakdown_words_add_words specialist words totals :
  breakdown_words (add_words specialist words totals) = breakdown_words totals + words.
Proof.
  unfold add_words. destruct (totals !! specialist) as [old|] eqn:Hold; simpl.
  - rewrite (breakdown_words_update _ _ old) by done. lia.
  - rewrite breakdown_words_insert by done. lia.
Qed.

Lemma add_words_comm j1 j2 z1 z2 (totals : gmap string Z) :
  j1 <> j2 ->
  add_words j1 z1 (add_words j2 z2 totals) = add_words j2 z2 (add_words j1 z1 totals).
Proof.
  intros Hne. unfold add_words.
  rewrite (lookup_insert_ne _ j2 j1) by done. rewrite (lookup_insert_ne _ j1 j2) by done.
  by apply insert_insert_ne.
Qed.

Lemma map_fold_add_words (m totals : gmap string Z) :
  breakdown_words (map_fold add_words totals m) = breakdown_words totals + breakdown_words m /\
  ((forall name words, totals !! name = Some words -> 0 < words) ->
   (forall name words, m !! name = Some words -> 0 < words) ->
   forall name words, map_fold add_words totals m !! name = Some words -> 0 < words).
Proof.
  induction m as [|name0 words0 m Hnone IH] using map_ind.
  - rewrite map_fold_empty. unfold breakdown_words at 3. rewrite map_fold_empty.
    split; [lia|]. intros H _. exact H.
  - rewrite map_fold_insert_L; [|intros; by apply add_words_comm|done].
    destruct IH as [IHsum IHpos]. split.
    + rewrite breakdown_words_add_words, IHsum, breakdown_words_insert by done. lia.
    + intros Htotals Hm name words. unfold add_words at 1.
      assert (Hrest : forall name words, map_fold add_words totals m !! name = Some words ->
                                         0 < words).
      { apply IHpos; [done|]. intros name' words' Hlook. apply (Hm name').
        rewrite lookup_insert_ne; [done|]. intros <-. congruence. }
      assert (Hw0 : 0 < words0) by (apply (Hm name0); by rewrite lookup_insert_eq).
      destruct (decide (name = name0)) as [->|Hne].
      * rewrite lookup_insert_eq. intros [= <-].
        destruct (map_fold add_words totals m !! name0) as [old|] eqn:Hold; simpl; [|lia].
        specialize (Hrest _ _ Hold). lia.
      * rewrite lookup_insert_ne by done. apply Hrest.
Qed.

Lemma weekly_totals days : forall total totals,
  Forall (fun day =>
            DayEntry.total_words day = breakdown_words (DayEntry.specialist_breakdown day) /\
            forall name words, DayEntry.specialist_breakdown day !! name = Some words ->
                               0 < words) days ->
  total = breakdown_words totals ->
  (forall name words, totals !! name = Some words -> 0 < words) ->
  let totals' :=
    foldl (fun specialist_totals day =>
             map_fold add_words specialist_totals (DayEntry.specialist_breakdown day))
          totals days in
  foldl (fun total day => total + DayEntry.total_words day) total days = breakdown_words totals' /\
  forall name words, totals' !! name = Some words -> 0 < words.
Proof.
  induction days as [|day days IH]; intros total totals Hdays Htotal Hpos; cbn [foldl]; [done|].
  apply Forall_cons in Hdays as [[Hday Hdaypos] Hdays].
  destruct (map_fold_add_words (DayEntry.specialist_breakdown day) totals) as [Hsum Hpos'].
  apply IH; [done| |by apply Hpos'].
  rewrite Hsum, Htotal, Hday. done.
Qed.

(** X21. The weekly summary adds up.  Over consistent counters the
    [total_words_generated] of [get_time_spent_analytics] is the sum of
    its [specialist_word_totals], every specialist listed there has
    more than zero words, and [days_with_activity] is at most 7. *)
Theorem weekly_summary_adds_up db today :
  counters_consistent db ->
  let summary := (get_time_spent_analytics db today).2 in
  TimeSummary.total_words_generated summary =
    breakdown_words (TimeSummary.specialist_word_totals summary) /\
  (forall name words,
     TimeSummary.specialist_word_totals summary !! name = Some words -> 0 < words) /\
  0 <= TimeSummary.days_with_activity summary <= 7.
Proof.
  intros Hok summary. subst summary. unfold get_time_spent_analytics.
  cbn [snd TimeSummary.total_words_generated TimeSummary.specialist_word_totals
       TimeSummary.days_with_activity].
  destruct (weekly_totals (get_time_spent_last_7_days db today) 0 ∅) as [Hsum Hpos].
  - apply Forall_forall. intros e He.
    destruct (window_entry_breakdown db today Hok e He) as [Htotal Hiff].
    split; [done|]. intros name words Hlook. by apply Hiff in Hlook as [? _].
  - unfold breakdown_words. by rewrite map_fold_empty.
  - intros name words. by rewrite lookup_empty.
  - split; [done|]. split; [done|].
    pose proof (length_filter (fun d => 0 < DayEntry.total_words d)
                              (get_time_spent_last_7_days db today)) as Hle.
    assert (Hlen : (length (get_time_spent_last_7_days db today) <= 7)%nat).
    { unfold get_time_spent_last_7_days. destruct (get_specialist_stats db None); simpl; lia. }
    lia.
Qed.

Lemma weekly_summary_adds_up_witness :
  TimeSummary.total_words_generated
    (get_time_spent_analytics
       (foldl count_message empty_db [mkCounted "Ruby" "rest and drink water" 19783 5;
                              mkCounted "Carla" "eat well" 19784 6;
                              mkCounted "Ruby" "sleep early" 19784 7]) 19784).2 = 8 /\
  TimeSummary.total_words_generated
    (get_time_spent_analytics
       (foldl count_message empty_db [mkCounted "Ruby" "rest and drink water" 19783 5;
                              mkCounted "Carla" "eat well" 19784 6;
                              mkCounted "Ruby" "sleep early" 19784 7]) 19784).2 =
  breakdown_words
    (TimeSummary.specialist_word_totals
       (get_time_spent_analytics
          (foldl count_message empty_db [mkCounted "Ruby" "rest and drink water" 19783 5;
                                 mkCounted "Carla" "eat well" 19784 6;
                                 mkCounted "Ruby" "sleep early" 19784 7]) 19784).2).
Proof.
  split; [vm_compute; reflexivity|].
  apply (weekly_summary_adds_up
           (foldl count_message empty_db [mkCounted "Ruby" "rest and drink water" 19783 5;
                                  mkCounted "Carla" "eat well" 19784 6;
                                  mkCounted "Ruby" "sleep early" 19784 7]) 19784).
  do 3 apply counters_consistent_count. intros c [= <-].
  split; [constructor|]. intros stat Hin. by apply elem_of_nil in Hin.
Defined.

(** ** Deactivated plans *)

Lemma is_inactive_run db op plan_id : is_inactive db plan_id -> is_inactive (run db op) plan_id.
Proof.
  intros (c & d & Hc & Hd & Ha).
  destruct op as [[plan_name condition t tasks uuid1 uuid2|pid name date|pid] now]; simpl.
  - unfold create_health_plan. rewrite Hc.
    destruct (c !! uuid1) as [d1|] eqn:Hu; simpl; [by exists c, d|].
    eexists _, d. split; [reflexivity|]. split; [|done].
    rewrite lookup_insert_ne; [done|]. intros ->. congruence.
  - unfold update_task_progress. rewrite Hc.
    destruct (find_one c pid) as [plan|] eqn:Hp; simpl; [|by exists c, d].
    destruct (decide (pid = plan_id)) as [->|Hne].
    + eexists _, _. split; [reflexivity|]. rewrite lookup_alter_eq, Hd. done.
    + eexists _, d. split; [reflexivity|]. by rewrite lookup_alter_ne.
  - unfold deactivate_plan. rewrite Hc.
    destruct (find_one c pid) as [plan|] eqn:Hp; simpl; [|by exists c, d].
    destruct (decide (pid = plan_id)) as [->|Hne].
    + eexists _, _. split; [reflexivity|]. rewrite lookup_insert_eq. done.
    + eexists _, d. split; [reflexivity|]. by rewrite lookup_insert_ne.
Qed.

(** X22. Deactivation is final, but progress is still recorded.  No
    sequence of [create_health_plan], [update_task_progress] and
    [deactivate_plan] makes a deactivated plan active again, so
    [get_active_plans] never lists it again; yet [update_task_progress]
    does not ask whether the plan is active: on a task of a deactivated
    plan it returns [True] and records the date. *)
Theorem deactivation_is_final db plan_id :
  is_inactive db plan_id ->
  (forall ops,
     is_inactive (foldl run db ops) plan_id /\
     forall p, p ∈ get_active_plans (foldl run db ops) -> Plan.id p <> plan_id) /\
  (forall name date now old,
     completion_dates db plan_id name = Some old ->
     let r := update_task_progress db plan_id name date now in
     r.2 = true /\ marked r.1 plan_id name date /\ is_inactive r.1 plan_id).
Proof.
  intros Hinactive. split.
  - intros ops.
    assert (H : is_inactive (foldl run db ops) plan_id).
    { revert db Hinactive. induction ops as [|op ops IH]; intros db Hinactive; [done|].
      simpl. by apply IH, is_inactive_run. }
    split; [done|]. intros p Hp Hid. destruct H as (c & d & Hc & Hd & Ha).
    by apply (inactive_not_listed _ c plan_id d p Hc Hd Ha Hp).
  - intros name date now old Hold r. subst r. split; [|split].
    + apply update_task_progress_result.
      destruct (completion_dates_found _ _ _ _ Hold) as (c & plan & Hc & Hp). eauto.
    + eexists. split; [by apply completion_dates_update|].
      case_bool_decide; [done|]. apply elem_of_app. right. apply list_elem_of_here.
    + apply (is_inactive_run db (Update plan_id name date, now) plan_id Hinactive).
Qed.

Lemma deactivation_is_final_witness :
  (update_task_progress mixed_db "p2" "Neck rolls" "2024-01-02" 30).2 = true /\
  marked (update_task_progress mixed_db "p2" "Neck rolls" "2024-01-02" 30).1
         "p2" "Neck rolls" "2024-01-02" /\
  forall p,
    p ∈ get_active_plans
          (foldl run mixed_db [(Update "p2" "Neck rolls" "2024-01-02", 30);
                               (Create "Neck" "neck pain" 3 ["Rest"] "p2" "p3", 31)]) ->
    Plan.id p <> "p2".
Proof.
  assert (Hinactive : is_inactive mixed_db "p2").
  { exists {[ "p1" := sample_plan; "p2" := retired_plan ]}, retired_plan.
    split; [reflexivity|]. split; [vm_compute; reflexivity|reflexivity]. }
  destruct (deactivation_is_final mixed_db "p2" Hinactive) as [Hfinal Hupdate].
  destruct (Hupdate "Neck rolls" "2024-01-02" 30 []) as (Hret & Hmarked & _);
    [vm_compute; reflexivity|].
  split; [exact Hret|]. split; [exact Hmarked|].
  apply (Hfinal [(Update "p2" "Neck rolls" "2024-01-02", 30);
                 (Create "Neck" "neck pain" 3 ["Rest"] "p2" "p3", 31)]).
Defined.

(** ** The plan the chat route marks *)

(** X23. The chat route marks progress by "back pain" alone.  When the
    message speaks of back pain and has a marking keyword, the plan
    marked is the newest active plan, whatever its condition: every task
    of it is marked for today.  When neither the message nor the
    condition of any active plan speaks of back pain, nothing is marked,
    whatever plan the message names. *)
Theorem chat_marks_back_pain_only db message today now :
  (forall p plans,
     existsb (fun keyword => Py.contains keyword (Py.lower message))
             ["mark"; "completed"; "finished"; "done"; "progress"] = true ->
     Py.contains "back pain" (Py.lower message) = true ->
     get_active_plans db = p :: plans -> NoDup (map task_name (Plan.tasks p)) ->
     let r := chat_mark_progress db message today now in
     (forall task, task ∈ Plan.tasks p -> marked r.1 (Plan.id p) (task_name task) today) /\
     r.2 = pending_names today p) /\
  (Py.contains "back pain" (Py.lower message) = false ->
   (forall p, p ∈ get_active_plans db ->
              Py.contains "back pain" (Py.lower (Plan.condition p)) = false) ->
   chat_mark_progress db message today now = (db, [])).
Proof.
  split.
  - intros p plans Hkey Hback Hplans Hnd r. subst r. unfold chat_mark_progress.
    rewrite Hkey. unfold chat_progress_target. rewrite Hplans. cbn [List.find].
    rewrite Hback, orb_true_r. apply mark_all_pending_marks; [|done].
    rewrite Hplans. apply list_elem_of_here.
  - intros Hback Hnone. unfold chat_mark_progress.
    destruct (existsb _ _); [|done].
    destruct (chat_progress_target message (get_active_plans db)) as [p|] eqn:Htarget; [|done].
    apply find_elem_of in Htarget as [Hp Hmatch]. cbv beta in Hmatch.
    by rewrite Hback, (Hnone p Hp) in Hmatch.
Qed.
